(** * Visionary: the screen-analysis pipeline of [backend/ai_screen_reader.py]
    and the request surface of [backend/app.py], as a shallow embedding.

    Python values are an inductive type, Python functions are functions in a
    state-and-exception monad whose state carries the log records and the
    calls made to the external collaborators (screen grabber, OpenCV,
    Tesseract, the Gemini client, [json.loads]).  The collaborators
    themselves are fields of an environment record: every theorem below is
    quantified over that record, that is over every behaviour of the
    libraries. *)

From Stdlib Require Import ZArith QArith Qround Qpower String Ascii Bool List Lia Lqa.
From Stdlib Require Import DecimalString.
From stdpp Require Import base option list.
Import ListNotations.

Local Open Scope string_scope.
Local Open Scope Z_scope.

Set Warnings "-register-all".

(** ** Python strings

    A [str] is a sequence of code points; the embedding uses [string], whose
    characters are the code points below 256. *)

Module PyStr.

(** [str.isspace] on the code points below 256: TAB, LF, VT, FF, CR, the
    separators FS GS RS US, SPACE, NEL (0x85) and NBSP (0xA0). *)
Definition isspace (c : ascii) : bool :=
    let n := N_of_ascii c in
    ((9 <=? n) && (n <=? 13))%N || ((28 <=? n) && (n <=? 32))%N
    || (n =? 133)%N || (n =? 160)%N.

Fixpoint lstrip (s : string) : string :=
    match s with
    | EmptyString => EmptyString
    | String c t => if isspace c then lstrip t else s
    end.

Fixpoint rstrip (s : string) : string :=
    match s with
    | EmptyString => EmptyString
    | String c t =>
        match rstrip t with
        | EmptyString => if isspace c then EmptyString else String c EmptyString
        | r => String c r
        end
    end.

(** [s.strip()] *)
Definition strip (s : string) : string := rstrip (lstrip s).

(** [s[n:]] for [n >= 0] *)
Fixpoint drop (n : nat) (s : string) : string :=
    match n, s with
    | O, _ => s
    | S _, EmptyString => EmptyString
    | S n', String _ t => drop n' t
    end.

(** [s[:n]] for [n >= 0] *)
Fixpoint take (n : nat) (s : string) : string :=
    match n, s with
    | O, _ => EmptyString
    | S _, EmptyString => EmptyString
    | S n', String c t => String c (take n' t)
    end.

(** [s[:-n]]: everything but the last [n] characters (empty when the
    string is shorter than [n]). *)
Definition drop_last (n : nat) (s : string) : string :=
    take (String.length s - n) s.

(** [s.startswith(p)] *)
Definition startswith (s p : string) : bool := String.prefix p s.

(** [s.endswith(p)] *)
Definition endswith (s p : string) : bool :=
    (String.length p <=? String.length s)%nat
    && String.eqb (drop (String.length s - String.length p) s) p.

(** [str(n)] for an integer *)
Definition of_Z (z : Z) : string := NilZero.string_of_int (Z.to_int z).

(** [repr(s)].  The quote is the apostrophe, unless the string has an
    apostrophe and no double quote.  The backslash and the quote are
    escaped with a backslash, TAB, LF and CR are written [\t], [\n], [\r],
    the other characters [str.isprintable] rejects (below 0x20, from 0x7f to
    0xa0, and 0xad) as [\x] and two hexadecimal digits. *)
Definition double_quote : ascii := ascii_of_nat 34.

Definition apostrophe : ascii := ascii_of_nat 39.

Definition backslash : ascii := ascii_of_nat 92.

Fixpoint has_char (c : ascii) (s : string) : bool :=
    match s with
    | EmptyString => false
    | String c' t => Ascii.eqb c c' || has_char c t
    end.

Definition isprintable (c : ascii) : bool :=
    let n := N_of_ascii c in
    negb ((n <? 32) || ((127 <=? n) && (n <=? 160)) || (n =? 173))%N.

Definition hex_digit (n : N) : ascii :=
    ascii_of_N (if (n <? 10)%N then 48 + n else 87 + n).

Definition escape (quote c : ascii) : string :=
    let n := N_of_ascii c in
    if Ascii.eqb c quote || Ascii.eqb c backslash then
      String backslash (String c EmptyString)
    else if (n =? 9)%N then String backslash "t"
    else if (n =? 10)%N then String backslash "n"
    else if (n =? 13)%N then String backslash "r"
    else if isprintable c then String c EmptyString
    else String backslash
           (String "x" (String (hex_digit (n / 16)) (String (hex_digit (n mod 16))
                                                       EmptyString))).

Fixpoint escape_all (quote : ascii) (s : string) : string :=
    match s with
    | EmptyString => EmptyString
    | String c t => escape quote c ++ escape_all quote t
    end.

Definition repr (s : string) : string :=
    let quote :=
      if has_char apostrophe s && negb (has_char double_quote s) then double_quote
      else apostrophe in
    String quote (escape_all quote s ++ String quote EmptyString).

End PyStr.

(** ** Python values *)

(** A [float]: a finite value (kept as the rational it denotes), an infinity
    or NaN ([json.loads] accepts [Infinity] and [NaN]). *)
Inductive pyfloat :=
| Finite (q : Q)
| Inf (negative : bool)
| NaN.

Inductive pyval :=
| PyNone
| PyBool (b : bool)
| PyInt (z : Z)
| PyFloat (f : pyfloat)
| PyStr (s : string)
| PyList (l : list pyval)
| PyTuple (l : list pyval)
| PyDict (d : list (string * pyval)).

(** Exceptions, by class.  [JSONDecodeError] is the only class a handler of
    the program singles out; every class here derives from [Exception]. *)
Inductive exn_class :=
| JSONDecodeError | AttributeError | TypeError | ValueError | IndexError
| OverflowError | LibraryError.

Record exn := Exn { exn_cls : exn_class; exn_msg : string }.

Definition is_json_decode_error (e : exn) : bool :=
  match exn_cls e with JSONDecodeError => true | _ => false end.

Module Py.

(** A dict is kept in insertion order, keys are strings. *)
Fixpoint dict_lookup (k : string) (d : list (string * pyval)) : option pyval :=
    match d with
    | [] => None
    | (k', v) :: d' => if String.eqb k k' then Some v else dict_lookup k d'
    end.

(** [d[k] = v] *)
Fixpoint dict_set (k : string) (v : pyval) (d : list (string * pyval))
    : list (string * pyval) :=
    match d with
    | [] => [(k, v)]
    | (k', v') :: d' =>
        if String.eqb k k' then (k', v) :: d' else (k', v') :: dict_set k v d'
    end.

Definition dict_keys (d : list (string * pyval)) : list string := map fst d.

(** [k in d] *)
Definition dict_mem (k : string) (d : list (string * pyval)) : bool :=
    match dict_lookup k d with Some _ => true | None => false end.

(** Truth value of an object, as [if x:] tests it. *)
Definition truthy (v : pyval) : bool :=
    match v with
    | PyNone => false
    | PyBool b => b
    | PyInt z => negb (z =? 0)
    | PyFloat (Finite q) => negb (Qnum q =? 0)
    | PyFloat _ => true
    | PyStr s => negb (String.eqb s EmptyString)
    | PyList l | PyTuple l => match l with [] => false | _ => true end
    | PyDict d => match d with [] => false | _ => true end
    end.

(** [type(x).__name__] *)
Definition type_name (x : pyval) : string :=
    match x with
    | PyNone => "NoneType"
    | PyBool _ => "bool"
    | PyInt _ => "int"
    | PyFloat _ => "float"
    | PyStr _ => "str"
    | PyList _ => "list"
    | PyTuple _ => "tuple"
    | PyDict _ => "dict"
    end.

(** The message of the [AttributeError] of [x.get] on an object without
    the method. *)
Definition no_get (x : pyval) : string :=
    "'" ++ type_name x ++ "' object has no attribute 'get'".

(** The message of the [TypeError] of an iteration over [x]. *)
Definition not_iterable (x : pyval) : string :=
    "'" ++ type_name x ++ "' object is not iterable".

(** [x.get(k, default)]: only a dict has the method. *)
Definition get (x : pyval) (k : string) (default : pyval) : exn + pyval :=
    match x with
    | PyDict d => inr (match dict_lookup k d with Some v => v | None => default end)
    | _ => inl (Exn AttributeError (no_get x))
    end.

Fixpoint chars (s : string) : list pyval :=
    match s with
    | EmptyString => []
    | String c t => PyStr (String c EmptyString) :: chars t
    end.

(** The items a [for] loop or [tuple(x)] draws from [x]. *)
Definition iter (x : pyval) : exn + list pyval :=
    match x with
    | PyList l | PyTuple l => inr l
    | PyStr s => inr (chars s)
    | PyDict d => inr (map (fun kv => PyStr (fst kv)) d)
    | _ => inl (Exn TypeError (not_iterable x))
    end.

(** [tuple(x)] *)
Definition tuple (x : pyval) : exn + pyval :=
    match iter x with
    | inr l => inr (PyTuple l)
    | inl e => inl e
    end.

(** [len(l)] of a list object *)
Definition len (l : list pyval) : pyval := PyInt (Z.of_nat (length l)).

End Py.

(** ** Effects: log records, calls to the collaborators, exceptions *)

Inductive level := INFO | WARNING | ERROR.

(** The two prompts sent to the model.  The prompt texts are fixed; the
    second one embeds the user's intent. *)
Inductive prompt :=
| ElementsPrompt
| ContextPrompt (user_intent : pyval).

(** An image buffer ([np.ndarray]); the program never looks inside one. *)
Inductive ndarray := NdArray (shape : list nat) (data : list Z).

Inductive color_code := COLOR_RGB2BGR | COLOR_BGR2GRAY.

Inductive external :=
| ImageGrab_grab (bbox : option (Z * Z * Z * Z))
| cv2_cvtColor (code : color_code)
| cv2_GaussianBlur | cv2_adaptiveThreshold | cv2_morphologyEx
| pytesseract_image_to_data
| cv2_imencode
| Image_open
| generate_content (p : prompt)
| time_time
| time_sleep (interval : pyval).

Inductive event :=
| Log (lv : level) (msg : string)
| Call (c : external).

(** What a run can observe and change: the events so far (oldest first) and
    the attribute [last_analysis] of the [LLMInterface] object ([None] while
    the attribute has not been set). *)
Record PyState := MkPyState {
  events : list event;
  last_analysis : option pyval
}.

Definition M (A : Type) : Type := PyState -> (exn + A) * PyState.

Definition ret {A} (a : A) : M A := fun st => (inr a, st).

Definition raise {A} (e : exn) : M A := fun st => (inl e, st).

Definition bind {A B} (m : M A) (k : A -> M B) : M B :=
  fun st => match m st with
            | (inr a, st') => k a st'
            | (inl e, st') => (inl e, st')
            end.

Notation "'do' x <- m ; k" := (bind m (fun x => k))
  (at level 10, x name, m at level 100, k at level 200,
   format "'[v' 'do'  x  <-  m ; '/' k ']'").
Notation "'exec' m ; k" := (bind m (fun _ => k))
  (at level 10, m at level 100, k at level 200,
   format "'[v' 'exec'  m ; '/' k ']'").

(** [try: m  except Exception as e: h e] *)
Definition try_except {A} (m : M A) (h : exn -> M A) : M A :=
  fun st => match m st with
            | (inr a, st') => (inr a, st')
            | (inl e, st') => h e st'
            end.

(** [try: m  except C as e: h e] for the exceptions selected by [sel];
    the others pass through. *)
Definition try_except_only {A} (sel : exn -> bool) (m : M A) (h : exn -> M A) : M A :=
  try_except m (fun e => if sel e then h e else raise e).

Definition lift {A} (r : exn + A) : M A :=
  match r with inr a => ret a | inl e => raise e end.

Definition emit (ev : event) : M unit :=
  fun st => (inr tt, MkPyState (events st ++ [ev]) (last_analysis st)).

(** [logger.<level>(msg)] *)
Definition log (lv : level) (msg : string) : M unit := emit (Log lv msg).

(** A call to a collaborator: the call is recorded, and its outcome may
    depend on everything that happened before it. *)
Definition ask {A} (c : external) (oracle : list event -> exn + A) : M A :=
  fun st => (oracle (events st), MkPyState (events st ++ [Call c]) (last_analysis st)).

Definition set_last_analysis (v : pyval) : M unit :=
  fun st => (inr tt, MkPyState (events st) (Some v)).

Definition clear_last_analysis : M unit :=
  fun st => (inr tt, MkPyState (events st) None).

Definition read_last_analysis : M (option pyval) :=
  fun st => (inr (last_analysis st), st).

(** ** The collaborators *)

(** The table [pytesseract.image_to_data(..., output_type=DICT)] returns: one
    list per column. *)
Record ocr_data := MkOcrData {
  ocr_text : list string;
  ocr_conf : list pyval;
  ocr_left : list Z;
  ocr_top : list Z;
  ocr_width : list Z;
  ocr_height : list Z
}.

Record Env := MkEnv {
(** [ImageGrab.grab(bbox)] followed by [np.array] *)
  env_grab : option (Z * Z * Z * Z) -> list event -> exn + ndarray;
  env_cvtColor : color_code -> ndarray -> list event -> exn + ndarray;
  env_GaussianBlur : ndarray -> list event -> exn + ndarray;
  env_adaptiveThreshold : ndarray -> list event -> exn + ndarray;
  env_morphologyEx : ndarray -> list event -> exn + ndarray;
  env_image_to_data : ndarray -> list event -> exn + ocr_data;
(** [cv2.imencode('.jpg', img)] followed by [base64.b64encode(..).decode] *)
  env_imencode_b64 : ndarray -> list event -> exn + string;
(** [base64.b64decode] followed by [Image.open] *)
  env_Image_open : string -> list event -> exn + ndarray;
(** [model_instance.generate_content([prompt, image])] followed by [.text] *)
  env_generate_content : prompt -> ndarray -> list event -> exn + string;
(** [json.loads]: a value, or an exception (a [JSONDecodeError] on
    malformed text) *)
  env_json_loads : string -> exn + pyval;
  env_time : list event -> pyfloat;
  env_sleep : pyval -> list event -> exn + unit;
(** [genai.configure] and [genai.GenerativeModel] in [LLMInterface.__init__] *)
  env_genai_configure : pyval -> exn + unit;
(** [datetime.utcnow()]: its [isoformat()] and its [timestamp()] *)
  env_utcnow_iso : string;
  env_utcnow_timestamp : pyfloat
}.

(** ** [int(x)] *)

Module PyInt.

Definition digit (c : ascii) : option Z :=
    let n := N_of_ascii c in
    if ((48 <=? n) && (n <=? 57))%N then Some (Z.of_N n - 48) else None.

(** The blanks [int] skips around the digits: TAB, LF, VT, FF, CR and
    SPACE, and the blanks above 0x7f, which it takes for spaces (the
    separators FS, GS, RS and US are not among them). *)
Definition isblank (c : ascii) : bool :=
    let n := N_of_ascii c in
    ((9 <=? n) && (n <=? 13))%N || (n =? 32)%N || (n =? 133)%N || (n =? 160)%N.

Fixpoint skip_blanks (s : string) : string :=
    match s with
    | String c t => if isblank c then skip_blanks t else s
    | EmptyString => EmptyString
    end.

(** The run of digits and single underscores at the start of a string:
    its value, the number of its digits and what follows it. *)
Inductive scanned :=
  | Run (value : Z) (count : nat) (rest : string)
  | Malformed.

Fixpoint scan (acc : Z) (count : nat) (after_underscore : bool) (s : string)
    : scanned :=
    match s with
    | EmptyString => if after_underscore then Malformed else Run acc count s
    | String c t =>
        match digit c with
        | Some d => scan (10 * acc + d) (S count) false t
        | None =>
            if Ascii.eqb c "_" then
              if after_underscore then Malformed else scan acc count true t
            else if after_underscore then Malformed else Run acc count s
        end
    end.

(** The limit of [sys.get_int_max_str_digits()] as the interpreter sets
    it. *)
Definition max_str_digits : nat := 4300.

Inductive parsed :=
  | Value (z : Z)
  | Invalid
  | TooLong (count : nat).

(** The digits after the blanks and the sign: no underscore in front, at
    most [max_str_digits] digits and at least one, only blanks behind. *)
Definition of_digits (s : string) : parsed :=
    match s with
    | String "_" _ => Invalid
    | _ =>
        match scan 0 0 false s with
        | Malformed => Invalid
        | Run value count rest =>
            if (max_str_digits <? count)%nat then TooLong count
            else
              match count, skip_blanks rest with
              | S _, EmptyString => Value value
              | _, _ => Invalid
              end
        end
    end.

Definition negate (p : parsed) : parsed :=
    match p with
    | Value z => Value (- z)
    | _ => p
    end.

(** [int(s)] for a string, base 10: blanks around, one optional sign. *)
Definition of_str (s : string) : parsed :=
    match skip_blanks s with
    | String c t =>
        if Ascii.eqb c "-" then negate (of_digits t)
        else if Ascii.eqb c "+" then of_digits t
        else of_digits (String c t)
    | EmptyString => Invalid
    end.

Definition int (v : pyval) : exn + Z :=
    match v with
    | PyInt z => inr z
    | PyBool b => inr (if b then 1 else 0)
    | PyFloat (Finite q) => inr (Z.quot (Qnum q) (Z.pos (Qden q)))
    | PyFloat (Inf _) => inl (Exn OverflowError "cannot convert float infinity to integer")
    | PyFloat NaN => inl (Exn ValueError "cannot convert float NaN to integer")
    | PyStr s =>
        match of_str s with
        | Value z => inr z
        | Invalid =>
            inl (Exn ValueError
                   ("invalid literal for int() with base 10: "
                    ++ PyStr.take 200 (PyStr.repr s)))
        | TooLong count =>
            inl (Exn ValueError
                   ("Exceeds the limit (4300 digits) for integer string conversion: "
                    ++ "value has " ++ PyStr.of_Z (Z.of_nat count)
                    ++ " digits; use sys.set_int_max_str_digits() to increase the limit"))
        end
    | _ =>
        inl (Exn TypeError
               ("int() argument must be a string, a bytes-like object or a real "
                ++ "number, not '" ++ Py.type_name v ++ "'"))
    end.

End PyInt.

(** ** Floats

    A float of the program is a binary64 number.  [of_Q] is the rounding
    every conversion and operation ends with: the nearest number with 53
    significant bits and an exponent the format has, ties to the even
    one. *)

Module PyFloat.

(** The integer nearest to [y], ties to the even one. *)
Definition round_half_even (y : Q) : Z :=
    let f := Qfloor y in
    match (y - inject_Z f ?= 1 # 2)%Q with
    | Lt => f
    | Gt => f + 1
    | Eq => if Z.even f then f else f + 1
    end.

(** The integer part of the binary logarithm of [x > 0]. *)
Definition ilog2 (x : Q) : Z :=
    let l := Z.log2 (Qnum x) - Z.log2 (Z.pos (Qden x)) in
    if Qle_bool (2 ^ l) x then l else l - 1.

(** The binary64 number nearest to [x > 0]; none when the rounded value is
    beyond the largest one. *)
Definition nearest (x : Q) : option Q :=
    let e := Z.max (ilog2 x - 52) (-1074) in
    let v := (inject_Z (round_half_even (x / 2 ^ e)) * 2 ^ e)%Q in
    if Qle_bool (2 ^ 1024) v then None else Some (Qred v).

Definition of_Q (x : Q) : pyfloat :=
    match Qnum x with
    | Z0 => Finite 0
    | Zpos _ => match nearest x with Some v => Finite v | None => Inf false end
    | Zneg _ => match nearest (- x) with Some v => Finite (- v) | None => Inf true end
    end.

(** [float(n)] for an integer *)
Definition of_int (n : Z) : exn + pyfloat :=
    match of_Q (inject_Z n) with
    | Inf _ => inl (Exn OverflowError "int too large to convert to float")
    | f => inr f
    end.

(** [n / d] for an integer [n] and a float [d] that is finite and not
    zero: [n] is converted, the quotient is rounded. *)
Definition int_truediv (n : Z) (d : Q) : exn + pyfloat :=
    match of_int n with
    | inr (Finite a) => inr (of_Q (a / d))
    | r => r
    end.

End PyFloat.

(** ** [class ScreenCapture] *)

Inductive ScreenRegion := FULL_SCREEN | WINDOW | CUSTOM.

Module ScreenCapture.

Record t := Mk {
    capture_region : ScreenRegion;
    custom_region : option (Z * Z * Z * Z)
  }.

(** [__init__] *)
Definition init : t := Mk FULL_SCREEN None.

Section WithEnv.
Variable E : Env.

Definition grab (bbox : option (Z * Z * Z * Z)) : M ndarray :=
      ask (ImageGrab_grab bbox) (env_grab E bbox).

(** [capture_screen]: the frame, or [None] after logging the failure. *)
Definition capture_screen (self : t) (region : ScreenRegion) : M (option ndarray) :=
      try_except
        (do screenshot <-
            match region with
            | FULL_SCREEN => grab None
            | WINDOW => grab None
            | CUSTOM =>
                match custom_region self with
                | Some box => grab (Some box)
                | None => grab None
                end
            end;
         do screenshot_cv <- ask (cv2_cvtColor COLOR_RGB2BGR)
                                (env_cvtColor E COLOR_RGB2BGR screenshot);
         ret (Some screenshot_cv))
        (fun e =>
           exec log ERROR ("Screen capture failed: " ++ exn_msg e);
           ret None).

(** [preprocess_image]: it has no handler of its own. *)
Definition preprocess_image (image : ndarray) : M ndarray :=
      do gray <- ask (cv2_cvtColor COLOR_BGR2GRAY)
                     (env_cvtColor E COLOR_BGR2GRAY image);
      do blurred <- ask cv2_GaussianBlur (env_GaussianBlur E gray);
      do thresh <- ask cv2_adaptiveThreshold (env_adaptiveThreshold E blurred);
      do cleaned <- ask cv2_morphologyEx (env_morphologyEx E thresh);
      ret cleaned.

End WithEnv.
End ScreenCapture.

(** ** [class OCRProcessor] *)

Module OCRProcessor.

(** [data[col][i]]: an [IndexError] past the end of the column. *)
Definition at_index {A} (col : list A) (i : nat) : exn + A :=
    match col !! i with
    | Some a => inr a
    | None => inl (Exn IndexError "list index out of range")
    end.

(** The dict built for a kept row; [confidence / 100.0] raises an
    [OverflowError] when the integer is beyond the floats. *)
Definition element (text : string) (confidence x y w h : Z) : exn + pyval :=
    match PyFloat.int_truediv confidence 100 with
    | inl e => inl e
    | inr unit_confidence =>
        inr (PyDict [ ("text", PyStr text);
                      ("bbox", PyTuple [PyInt x; PyInt y; PyInt w; PyInt h]);
                      ("confidence", PyFloat unit_confidence);
                      ("coordinates", PyTuple [PyInt (x + w / 2); PyInt (y + h / 2)]) ])
    end.

(** One turn of [for i in range(n_boxes)]: the elements with the row's
    element appended when the row is kept. *)
Definition row (data : ocr_data) (i : nat) (elements : list pyval)
    : exn + list pyval :=
    match at_index (ocr_text data) i with
    | inl e => inl e
    | inr raw =>
        let text := PyStr.strip raw in
        match at_index (ocr_conf data) i with
        | inl e => inl e
        | inr c =>
            match PyInt.int c with
            | inl e => inl e
            | inr confidence =>
                if (30 <? confidence) && Py.truthy (PyStr text) then
                  match at_index (ocr_left data) i, at_index (ocr_top data) i,
                        at_index (ocr_width data) i, at_index (ocr_height data) i with
                  | inr x, inr y, inr w, inr h =>
                      match element text confidence x y w h with
                      | inr el => inr (elements ++ [el])%list
                      | inl e => inl e
                      end
                  | inl e, _, _, _ => inl e
                  | _, inl e, _, _ => inl e
                  | _, _, inl e, _ => inl e
                  | _, _, _, inl e => inl e
                  end
                else inr elements
            end
        end
    end.

Fixpoint rows (data : ocr_data) (range : list nat) (elements : list pyval)
    : exn + list pyval :=
    match range with
    | [] => inr elements
    | i :: range' =>
        match row data i elements with
        | inr elements' => rows data range' elements'
        | inl e => inl e
        end
    end.

Section WithEnv.
Variable E : Env.

Definition extract_text_with_boxes (image : ndarray) : M (list pyval) :=
      try_except
        (do data <- ask pytesseract_image_to_data (env_image_to_data E image);
         let n_boxes := length (ocr_text data) in
         lift (rows data (seq 0 n_boxes) []))
        (fun e =>
           exec log WARNING
             ("OCR processing failed (Tesseract not available): " ++ exn_msg e);
           ret []).

End WithEnv.
End OCRProcessor.

(** ** [class ActionCommand] and [class LLMInterface] *)

Record ActionCommand := MkActionCommand {
  action_type : pyval;
  target : pyval;
  coordinates : pyval;
  parameters : pyval;
  confidence : pyval
}.

(** A float literal with two decimals, as the source writes them: the
    float nearest to [n / 100]. *)
Definition hundredths (n : Z) : pyval := PyFloat (PyFloat.of_Q (Qmake n 100)).

Definition and_then {A B} (r : exn + A) (k : A -> exn + B) : exn + B :=
  match r with inr a => k a | inl e => inl e end.

(** A line feed. *)
Definition LF : string := String (ascii_of_nat 10) EmptyString.

(** A response wrapped in a Markdown fence tagged [json]: the fence line, the
    body, the closing fence line. *)
Definition fenced_json (body : string) : string :=
  "```json" ++ LF ++ body ++ LF ++ "```".

(** The same with an untagged opening fence. *)
Definition fenced_plain (body : string) : string :=
  "```" ++ LF ++ body ++ LF ++ "```".

Module LLMInterface.

(** The cleaning of the response text, written out in both
    [analyze_screen_elements] and [interpret_screen_context]:
    strip, cut a leading [```json], cut a trailing [```], strip. *)
Definition clean_response_text (text : string) : string :=
    let response_text := PyStr.strip text in
    let response_text :=
      if PyStr.startswith response_text "```json"
      then PyStr.drop 7 response_text else response_text in
    let response_text :=
      if PyStr.endswith response_text "```"
      then PyStr.drop_last 3 response_text else response_text in
    PyStr.strip response_text.

(** The [ActionCommand(...)] built from one entry of [suggested_actions];
    the keyword arguments are evaluated in the order they are written. *)
Definition command_of (action_data : pyval) : exn + ActionCommand :=
    and_then (Py.get action_data "action_type" (PyStr "unknown")) (fun a =>
    and_then (Py.get action_data "target" (PyStr "Unknown target")) (fun t =>
    and_then (Py.get action_data "coordinates" PyNone) (fun present =>
    and_then (if Py.truthy present
              then and_then (Py.get action_data "coordinates"
                               (PyList [PyInt 0; PyInt 0])) Py.tuple
              else inr PyNone) (fun c =>
    and_then (Py.get action_data "parameters" (PyDict [])) (fun p =>
    and_then (Py.get action_data "confidence" (hundredths 50)) (fun k =>
    inr (MkActionCommand a t c p k))))))).

(** The [for action_data in ...] loop, appending to [commands]. *)
Fixpoint commands_of (actions : list pyval) (commands : list ActionCommand)
    : exn + list ActionCommand :=
    match actions with
    | [] => inr commands
    | action_data :: rest =>
        and_then (command_of action_data) (fun command =>
        commands_of rest (commands ++ [command])%list)
    end.

(** [for action_data in analysis_data.get('suggested_actions', []): ...] *)
Definition commands_from (analysis_data : pyval) : exn + list ActionCommand :=
    and_then (Py.get analysis_data "suggested_actions" (PyList [])) (fun actions =>
    and_then (Py.iter actions) (fun actions => commands_of actions [])).

Definition _get_fallback_commands : list ActionCommand :=
    [ MkActionCommand (PyStr "click") (PyStr "Primary action button")
        (PyTuple [PyInt 400; PyInt 300])
        (PyDict [("button_text", PyStr "Action")])
        (hundredths 75);
      MkActionCommand (PyStr "type") (PyStr "Input field")
        (PyTuple [PyInt 300; PyInt 200])
        (PyDict [("text", PyStr "input"); ("field_type", PyStr "text")])
        (hundredths 70);
      MkActionCommand (PyStr "scroll") (PyStr "Page content")
        PyNone
        (PyDict [("direction", PyStr "down"); ("amount", PyInt 3)])
        (hundredths 65) ].

Definition _get_fallback_interpretation : pyval :=
    PyDict [ ("screen_type", PyStr "unknown");
             ("primary_elements",
               PyList [PyStr "text_elements"; PyStr "interactive_elements"]);
             ("suggested_actions",
               PyList [PyStr "click_element"; PyStr "type_text"]);
             ("context",
               PyStr "Screen analysis completed with basic OCR detection");
             ("confidence", hundredths 60) ].

Section WithEnv.
Variable E : Env.

Definition analyze_screen_elements (elements : list pyval) (screenshot_b64 : string)
      : M (list ActionCommand) :=
      try_except
        (do image <- ask Image_open (env_Image_open E screenshot_b64);
         do text <- ask (generate_content ElementsPrompt)
                        (env_generate_content E ElementsPrompt image);
         try_except_only is_json_decode_error
           (let response_text := clean_response_text text in
            do analysis_data <- lift (env_json_loads E response_text);
            do commands <- lift (commands_from analysis_data);
            exec set_last_analysis analysis_data;
            ret commands)
           (fun e =>
              exec log WARNING
                ("Failed to parse Gemini response as JSON: " ++ exn_msg e);
              exec log WARNING
                ("Response text: " ++ PyStr.take 200 text ++ "...");
              ret _get_fallback_commands))
        (fun e =>
           exec log ERROR ("Gemini analysis failed: " ++ exn_msg e);
           ret _get_fallback_commands).

Definition interpret_screen_context (screenshot_b64 : string) (user_intent : pyval)
      : M pyval :=
      try_except
        (do image <- ask Image_open (env_Image_open E screenshot_b64);
         let p := ContextPrompt (if Py.truthy user_intent then user_intent
                                 else PyStr "General screen analysis") in
         do text <- ask (generate_content p) (env_generate_content E p image);
         try_except_only is_json_decode_error
           (let response_text := clean_response_text text in
            do interpretation <- lift (env_json_loads E response_text);
            ret interpretation)
           (fun e =>
              exec log WARNING
                ("Failed to parse Gemini context response as JSON: " ++ exn_msg e);
              exec log WARNING
                ("Response text: " ++ PyStr.take 200 text ++ "...");
              ret _get_fallback_interpretation))
        (fun e =>
           exec log ERROR ("Gemini screen interpretation failed: " ++ exn_msg e);
           ret _get_fallback_interpretation).

(** [getattr(self, 'last_analysis', {})] *)
Definition get_detailed_analysis : M pyval :=
      do la <- read_last_analysis;
      ret (match la with Some v => v | None => PyDict [] end).

End WithEnv.
End LLMInterface.

(** ** The response schema, in the specification's words

    The model is asked for an object whose [suggested_actions] is an array
    of action objects; an action object may lack any field, and its
    [coordinates], when present, is an array [[x, y]] or a value that counts
    as false. *)

Module Schema.

Definition suggested_actions (data : pyval) : option (list pyval) :=
    match data with
    | PyDict d =>
        match Py.dict_lookup "suggested_actions" d with
        | Some (PyList actions) => Some actions
        | _ => None
        end
    | _ => None
    end.

Definition coordinates_ok (v : pyval) : bool :=
    match v with
    | PyList _ => true
    | _ => negb (Py.truthy v)
    end.

Definition action_ok (a : pyval) : bool :=
    match a with
    | PyDict ad =>
        match Py.dict_lookup "coordinates" ad with
        | Some v => coordinates_ok v
        | None => true
        end
    | _ => false
    end.

Definition field (a : pyval) (k : string) (default : pyval) : pyval :=
    match a with
    | PyDict ad =>
        match Py.dict_lookup k ad with Some v => v | None => default end
    | _ => default
    end.

(** The command the specification describes for an action object: each
    field taken from the object, or its default when the field is missing;
    no coordinates when the entry is missing or counts as false. *)
Definition spec_command (a : pyval) : ActionCommand :=
    MkActionCommand
      (field a "action_type" (PyStr "unknown"))
      (field a "target" (PyStr "Unknown target"))
      (match field a "coordinates" PyNone with
       | PyList (x :: l) => PyTuple (x :: l)
       | _ => PyNone
       end)
      (field a "parameters" (PyDict []))
      (field a "confidence" (hundredths 50)).

End Schema.

(** ** How a model call can fail

    A view of the environment, used to state the properties: whether the
    call with prompt [p] made in state [st] fails, and where.  A transport
    failure is an exception before the response text is there (decoding the
    image, the request itself, reading [.text]); a parse failure is an
    exception of [json.loads] on the cleaned text. *)

Inductive failure :=
| TransportFailure (e : exn)
| ParseFailure (text : string) (e : exn).

Definition model_failure (E : Env) (p : prompt) (b64 : string) (st : PyState)
  : option failure :=
  match env_Image_open E b64 (events st) with
  | inl e => Some (TransportFailure e)
  | inr image =>
      match env_generate_content E p image (events st ++ [Call Image_open]) with
      | inl e => Some (TransportFailure e)
      | inr text =>
          match env_json_loads E (LLMInterface.clean_response_text text) with
          | inl e => Some (ParseFailure text e)
          | inr _ => None
          end
      end
  end.

(** The calls the attempt makes. *)
Definition model_calls (E : Env) (p : prompt) (b64 : string) (st : PyState)
  : list event :=
  match env_Image_open E b64 (events st) with
  | inl _ => [Call Image_open]
  | inr _ => [Call Image_open; Call (generate_content p)]
  end.

(** The records a failure leaves in the log: two warnings for a
    [JSONDecodeError] of the parse, one error for anything else.  [parse_msg]
    and [fail_msg] are the fixed parts of the messages. *)
Definition failure_records (parse_msg fail_msg : string) (f : failure) : list event :=
  match f with
  | TransportFailure e => [Log ERROR (fail_msg ++ exn_msg e)]
  | ParseFailure text e =>
      if is_json_decode_error e then
        [Log WARNING (parse_msg ++ exn_msg e);
         Log WARNING ("Response text: " ++ PyStr.take 200 text ++ "...")]
      else [Log ERROR (fail_msg ++ exn_msg e)]
  end.

(** The component of the pipeline a call belongs to. *)
Inductive stage :=
| FrameSource | Preprocessor | TextDetector | Encoder | SceneInterpreter | Clock.

Definition stage_of (c : external) : stage :=
  match c with
  | ImageGrab_grab _ => FrameSource
  | cv2_cvtColor COLOR_RGB2BGR => FrameSource
  | cv2_cvtColor COLOR_BGR2GRAY => Preprocessor
  | cv2_GaussianBlur | cv2_adaptiveThreshold | cv2_morphologyEx => Preprocessor
  | pytesseract_image_to_data => TextDetector
  | cv2_imencode => Encoder
  | Image_open | generate_content _ => SceneInterpreter
  | time_time | time_sleep _ => Clock
  end.

Definition is_warning (ev : event) : bool :=
  match ev with Log WARNING _ => true | _ => false end.

Definition after (st : PyState) (new : list event) : PyState :=
  MkPyState (events st ++ new) (last_analysis st).

(** ** [class AIScreenReader]

    First the single-shot [analyze_current_screen], then the monitoring
    lifecycle: one [AIScreenReader] object together with the loop threads
    its [start_monitoring] has started.  The object's [screen_capture] and
    [ocr_processor] hold nothing that changes, the [last_analysis] of its
    [llm_interface] is in the effects state.  Calls on the object come from
    one caller at a time; [start_monitoring] returns at once,
    [stop_monitoring] is split at its [join]: the request sets the flag and
    leaves the caller waiting, the return is possible only when the joined
    thread has finished.  The threads take their steps in any order. *)

Module AIScreenReader.

(** The dict a command is turned into in the result. *)
Definition command_dict (cmd : ActionCommand) : pyval :=
    PyDict [ ("action_type", action_type cmd);
             ("target", target cmd);
             ("coordinates", coordinates cmd);
             ("parameters", parameters cmd);
             ("confidence", confidence cmd) ].

Section AIScreenReader.
Variable E : Env.

Definition analyze_current_screen : M pyval :=
      try_except
        (do screenshot <- ScreenCapture.capture_screen E ScreenCapture.init FULL_SCREEN;
         match screenshot with
         | None => ret (PyDict [("error", PyStr "Failed to capture screen")])
         | Some screenshot =>
             do processed_image <- ScreenCapture.preprocess_image E screenshot;
             do elements <- OCRProcessor.extract_text_with_boxes E processed_image;
             do screenshot_b64 <- ask cv2_imencode (env_imencode_b64 E screenshot);
             do commands <- LLMInterface.analyze_screen_elements E elements screenshot_b64;
             do interpretation <-
               LLMInterface.interpret_screen_context E screenshot_b64 (PyStr EmptyString);
             do detailed_analysis <- LLMInterface.get_detailed_analysis;
             do timestamp <- ask time_time (fun h => inr (env_time E h));
             do screen_type <- lift (Py.get interpretation "screen_type" (PyStr "unknown"));
             do application <- lift (Py.get interpretation "application_name" (PyStr "Unknown"));
             do context <- lift (Py.get interpretation "current_context" (PyStr "Screen analysis"));
             do conf <- lift (Py.get interpretation "confidence" (hundredths 50));
             ret (PyDict
               [ ("timestamp", PyFloat timestamp);
                 ("elements", PyList elements);
                 ("commands", PyList (map command_dict commands));
                 ("interpretation", interpretation);
                 ("detailed_analysis", detailed_analysis);
                 ("screenshot_b64", PyStr screenshot_b64);
                 ("summary", PyDict
                    [ ("screen_type", screen_type);
                      ("application", application);
                      ("context", context);
                      ("elements_found", Py.len elements);
                      ("commands_generated",
                        PyInt (Z.of_nat (length commands)));
                      ("confidence", conf) ]) ])
         end)
        (fun e =>
           exec log ERROR ("Screen analysis failed: " ++ exn_msg e);
           ret (PyDict [("error", PyStr (exn_msg e))])).

End AIScreenReader.

(** Where a thread running [_monitoring_loop] stands: about to test
    [while self.is_running], inside the loop body, or finished. *)
Inductive loop_pc := AtCheck | InCycle | Exited.

Record thread := MkThread {
    th_interval : pyval;
    th_pc : loop_pc
  }.

(** The caller of the object: free, or blocked in [stop_monitoring], at
    the [join] when there is a thread to join. *)
Inductive caller_pc :=
  | Ready
  | Joining (joined : option nat).

Record t := Mk {
    is_running : bool;
    capture_thread : option nat;
    threads : list thread;
    caller : caller_pc
  }.

(** [__init__] *)
Definition init : t := Mk false None [] Ready.

Definition pc_of (m : t) (tid : nat) : option loop_pc :=
    th_pc <$> threads m !! tid.

Definition is_live (th : thread) : bool :=
    match th_pc th with Exited => false | _ => true end.

(** The loops that have been started and have not finished. *)
Definition live_loops (m : t) : nat := length (List.filter is_live (threads m)).

Definition set_pc (tid : nat) (pc : loop_pc) (m : t) : t :=
    Mk (is_running m) (capture_thread m)
       (alter (fun th => MkThread (th_interval th) pc) tid (threads m))
       (caller m).

Section WithEnv.
Variable E : Env.

Definition sleep (interval : pyval) : M unit :=
      ask (time_sleep interval) (env_sleep E interval).

(** The body of [while self.is_running:] in [_monitoring_loop]. *)
Definition monitoring_cycle (interval : pyval) : M unit :=
      try_except
        (do screenshot <- ScreenCapture.capture_screen E ScreenCapture.init FULL_SCREEN;
         match screenshot with
         | None => sleep interval
         | Some screenshot =>
             do processed_image <- ScreenCapture.preprocess_image E screenshot;
             do elements <- OCRProcessor.extract_text_with_boxes E processed_image;
             do screenshot_b64 <- ask cv2_imencode (env_imencode_b64 E screenshot);
             do commands <- LLMInterface.analyze_screen_elements E elements screenshot_b64;
             exec log INFO
               ("Detected " ++ PyStr.of_Z (Z.of_nat (length elements))
                ++ " elements, generated "
                ++ PyStr.of_Z (Z.of_nat (length commands)) ++ " commands");
             sleep interval
         end)
        (fun e =>
           exec log ERROR ("Monitoring loop error: " ++ exn_msg e);
           sleep interval).

(** [start_monitoring]: set the flag, create and start a thread, keep
    its handle. *)
Definition start_monitoring (interval : pyval) (m : t) : M t :=
      let tid := length (threads m) in
      exec log INFO "Screen monitoring started";
      ret (Mk true (Some tid)
              (threads m ++ [MkThread interval AtCheck])%list
              (caller m)).

(** [stop_monitoring] up to its [join]. *)
Definition stop_request (m : t) : t :=
      Mk false (capture_thread m) (threads m) (Joining (capture_thread m)).

Definition joinable (m : t) (joined : option nat) : bool :=
      match joined with
      | None => true
      | Some tid =>
          match pc_of m tid with Some Exited => true | _ => false end
      end.

(** [stop_monitoring] from its [join] on. *)
Definition stop_return (m : t) : M t :=
      exec log INFO "Screen monitoring stopped";
      ret (Mk (is_running m) (capture_thread m) (threads m) Ready).

(** One step of the thread [tid]: the test of the flag, or the loop
    body; an exception that leaves the body ends the thread. *)
Definition loop_step (tid : nat) (m : t) (st : PyState) : option (t * PyState) :=
      match threads m !! tid with
      | Some th =>
          match th_pc th with
          | AtCheck =>
              Some (set_pc tid (if is_running m then InCycle else Exited) m, st)
          | InCycle =>
              match monitoring_cycle (th_interval th) st with
              | (inr _, st') => Some (set_pc tid AtCheck m, st')
              | (inl _, st') => Some (set_pc tid Exited m, st')
              end
          | Exited => None
          end
      | None => None
      end.

Inductive action :=
    | StartMonitoring (interval : pyval)
    | StopRequest
    | StopReturn
    | LoopStep (tid : nat).

Definition step (a : action) (s : t * PyState) : option (t * PyState) :=
      let (m, st) := s in
      match a, caller m with
      | StartMonitoring interval, Ready =>
          match start_monitoring interval m st with
          | (inr m', st') => Some (m', st')
          | (inl _, _) => None
          end
      | StopRequest, Ready => Some (stop_request m, st)
      | StopReturn, Joining joined =>
          if joinable m joined then
            match stop_return m st with
            | (inr m', st') => Some (m', st')
            | (inl _, _) => None
            end
          else None
      | LoopStep tid, _ => loop_step tid m st
      | _, _ => None
      end.

Fixpoint run (acts : list action) (s : t * PyState) : option (t * PyState) :=
      match acts with
      | [] => Some s
      | a :: rest =>
          match step a s with
          | Some s' => run rest s'
          | None => None
          end
      end.

End WithEnv.

(** Whether [start_monitoring] is only called when no earlier call is still
    to be answered by a [stop_monitoring]; [started] tells whether one is. *)
Fixpoint single_start (started : bool) (acts : list action) : bool :=
    match acts with
    | [] => true
    | StartMonitoring _ :: rest => negb started && single_start true rest
    | StopReturn :: rest => single_start false rest
    | _ :: rest => single_start started rest
    end.



End AIScreenReader.

Definition empty_state : PyState := MkPyState [] None.

(** ** The command-line scripts

    [auto_screen_analysis.main] and [screen_analysis_desktop.main] branch on
    the result of [analyze_current_screen] in the same way. *)

Module Cli.

Inductive branch := PrintResults | PrintFailure.

(** [if result.get('success', True): ... else: ...] *)
Definition main_branch (result : pyval) : exn + branch :=
    and_then (Py.get result "success" (PyBool true)) (fun ok =>
    inr (if Py.truthy ok then PrintResults else PrintFailure)).

End Cli.

(** ** [app.py]: the request handlers

    The module-level [screen_reader] is [None] or an [AIScreenReader]; the
    state of the handlers is that variable and the effects state.  When
    [/api/initialize] replaces the object, the loops the old object may still
    run are no longer followed. *)

Module App.

Record t := Mk {
    screen_reader : option AIScreenReader.t;
    py : PyState
  }.

(** The state when the module has been loaded. *)
Definition init : t := Mk None empty_state.

(** What the handler hands back: [jsonify(body), status], or nothing yet
    while [stop_monitoring] is waiting in its [join]. *)
Inductive reply :=
  | Reply (body : pyval) (status : nat)
  | Pending.

(** [request.get_json()]: the parsed body, or an exception. *)
Record request := MkRequest { get_json : exn + pyval }.

Definition not_initialized : reply :=
    Reply (PyDict [("error", PyStr "Screen reader not initialized")]) 400.

Definition error_500 (e : exn) : reply :=
    Reply (PyDict [("error", PyStr (exn_msg e))]) 500.

(** [k in x] for a string [k] *)
Definition contains (x : pyval) (k : string) : exn + bool :=
    match x with
    | PyDict d => inr (Py.dict_mem k d)
    | PyList l | PyTuple l =>
        inr (existsb (fun v => match v with PyStr s => String.eqb s k | _ => false end) l)
    | PyStr s => inr (match String.index 0 k s with Some _ => true | None => false end)
    | _ =>
        inl (Exn TypeError
               ("argument of type '" ++ Py.type_name x ++ "' is not iterable"))
    end.

(** [x[k] = v] *)
Definition setitem (x : pyval) (k : string) (v : pyval) : exn + pyval :=
    match x with
    | PyDict d => inr (PyDict (Py.dict_set k v d))
    | PyList _ => inl (Exn TypeError "list indices must be integers or slices, not str")
    | _ =>
        inl (Exn TypeError
               ("'" ++ Py.type_name x ++ "' object does not support item assignment"))
    end.

Section WithEnv.
Variable E : Env.

(** Runs a handler body on the effects state; [finish] gives the reply
    and the new [screen_reader] from the body's value, [on_exn] is the
    handler's [except Exception] clause. *)
Definition handler {A} (app : t) (body : M A)
        (finish : A -> reply * option AIScreenReader.t)
        (on_exn : exn -> M reply) : reply * t :=
      match body (py app) with
      | (inr a, st) => let (r, sr) := finish a in (r, Mk sr st)
      | (inl e, st) =>
          match on_exn e st with
          | (inr r, st') => (r, Mk (screen_reader app) st')
          | (inl e', st') => (error_500 e', Mk (screen_reader app) st')
          end
      end.

Definition health_check (app : t) : reply * t :=
      (Reply (PyDict [ ("status", PyStr "healthy");
                       ("timestamp", PyStr (env_utcnow_iso E));
                       ("version", PyStr "1.0.0") ]) 200, app).

(** [AIScreenReader(api_key)] builds a new [LLMInterface], which has no
    [last_analysis] yet. *)
Definition initialize_screen_reader (req : request) (app : t) : reply * t :=
      handler app
        (do data <- lift (get_json req);
         do api_key <- lift (Py.get data "api_key" PyNone);
         if negb (Py.truthy api_key) then ret None
         else
           exec lift (env_genai_configure E api_key);
           exec clear_last_analysis;
           ret (Some AIScreenReader.init))
        (fun created =>
           match created with
           | None =>
               (Reply (PyDict [("error", PyStr "API key is required")]) 400,
                screen_reader app)
           | Some reader =>
               (Reply (PyDict
                  [ ("status", PyStr "initialized");
                    ("message", PyStr "AI Screen Reader initialized successfully") ]) 200,
                Some reader)
           end)
        (fun e =>
           exec log ERROR ("Initialization failed: " ++ exn_msg e);
           ret (error_500 e)).

Definition analyze_screen_detailed (app : t) : reply * t :=
      match screen_reader app with
      | None => (not_initialized, app)
      | Some reader =>
          handler app
            (do result <- AIScreenReader.analyze_current_screen E;
             do failed <- lift (contains result "error");
             if failed then ret (Reply result 500)
             else
               do stamp <- lift (PyInt.int (PyFloat (env_utcnow_timestamp E)));
               do result <- lift (setitem result "analysis_id"
                                    (PyStr ("analysis_" ++ PyStr.of_Z stamp)));
               ret (Reply result 200))
            (fun r => (r, Some reader))
            (fun e =>
               exec log ERROR ("Detailed screen analysis failed: " ++ exn_msg e);
               ret (error_500 e))
      end.

Definition explain_screen (req : request) (app : t) : reply * t :=
      match screen_reader app with
      | None => (not_initialized, app)
      | Some reader =>
          handler app
            (do data <- lift (get_json req);
             do user_intent <- lift (Py.get data "user_intent" (PyStr EmptyString));
             do screenshot <- ScreenCapture.capture_screen E ScreenCapture.init FULL_SCREEN;
             match screenshot with
             | None =>
                 ret (Reply (PyDict [("error", PyStr "Failed to capture screen")]) 500)
             | Some screenshot =>
                 do screenshot_b64 <- ask cv2_imencode (env_imencode_b64 E screenshot);
                 do explanation <-
                   LLMInterface.interpret_screen_context E screenshot_b64 user_intent;
                 ret (Reply (PyDict [ ("timestamp", PyStr (env_utcnow_iso E));
                                      ("explanation", explanation);
                                      ("screenshot_b64", PyStr screenshot_b64) ]) 200)
             end)
            (fun r => (r, Some reader))
            (fun e =>
               exec log ERROR ("Screen explanation failed: " ++ exn_msg e);
               ret (error_500 e))
      end.

Definition start_monitoring (req : request) (app : t) : reply * t :=
      match screen_reader app with
      | None => (not_initialized, app)
      | Some reader =>
          handler app
            (do data <- lift (get_json req);
             do interval <- lift (Py.get data "interval" (PyFloat (Finite (Qmake 2 1))));
             do reader' <- AIScreenReader.start_monitoring interval reader;
             ret (interval, reader'))
            (fun '(interval, reader') =>
               (Reply (PyDict
                  [ ("status", PyStr "monitoring_started");
                    ("interval", interval);
                    ("message", PyStr "Screen monitoring started successfully") ]) 200,
                Some reader'))
            (fun e =>
               exec log ERROR ("Failed to start monitoring: " ++ exn_msg e);
               ret (error_500 e))
      end.

(** [stop_monitoring]: with a reader, the handler enters
    [screen_reader.stop_monitoring()] and waits at its [join]. *)
Definition stop_monitoring (app : t) : reply * t :=
      match screen_reader app with
      | None => (not_initialized, app)
      | Some reader => (Pending, Mk (Some (AIScreenReader.stop_request reader)) (py app))
      end.

(** The rest of the handler, once the [join] is over. *)
Definition stop_monitoring_return (app : t) : option (reply * t) :=
      match screen_reader app with
      | Some reader =>
          match AIScreenReader.caller reader with
          | AIScreenReader.Joining joined =>
              if AIScreenReader.joinable reader joined then
                Some (handler app (AIScreenReader.stop_return reader)
                        (fun reader' =>
                           (Reply (PyDict
                              [ ("status", PyStr "monitoring_stopped");
                                ("message", PyStr "Screen monitoring stopped successfully") ]) 200,
                            Some reader'))
                        (fun e =>
                           exec log ERROR ("Failed to stop monitoring: " ++ exn_msg e);
                           ret (error_500 e)))
              else None
          | AIScreenReader.Ready => None
          end
      | None => None
      end.

Definition get_dashboard_stats (app : t) : reply * t :=
      (Reply (PyDict [ ("total_analyses", PyInt 0);
                       ("total_commands", PyInt 0);
                       ("executed_commands", PyInt 0);
                       ("recent_analyses", PyInt 0);
                       ("success_rate", PyInt 0) ]) 200, app).

(** The routes that need the screen reader. *)
Inductive analysis_endpoint :=
    | AnalyzeDetailed | Explain | MonitorStart | MonitorStop.

Definition serve (ep : analysis_endpoint) (req : request) (app : t) : reply * t :=
      match ep with
      | AnalyzeDetailed => analyze_screen_detailed app
      | Explain => explain_screen req app
      | MonitorStart => start_monitoring req app
      | MonitorStop => stop_monitoring app
      end.

End WithEnv.

(** A request to one of the JSON routes. *)
Inductive route :=
| Health
| Initialize
| Analysis (ep : analysis_endpoint)
| DashboardStats.

Definition handle (E : Env) (rt : route) (req : request) (app : t) : reply * t :=
    match rt with
    | Health => health_check E app
    | Initialize => initialize_screen_reader E req app
    | Analysis ep => serve E ep req app
    | DashboardStats => get_dashboard_stats app
    end.

(** The replies to a sequence of requests, served one after the other. *)
Fixpoint session (E : Env) (rs : list (route * request)) (app : t)
    : list (route * reply) * t :=
    match rs with
    | [] => ([], app)
    | (rt, req) :: rest =>
        let (r, app1) := handle E rt req app in
        let (replies, app2) := session E rest app1 in
        ((rt, r) :: replies, app2)
    end.

Definition status_of (r : reply) : option nat :=
    match r with Reply _ status => Some status | Pending => None end.

Definition body_of (r : reply) : option pyval :=
    match r with Reply body _ => Some body | Pending => None end.

(** Whether a reply is that of a successful [/api/initialize]. *)
Definition initialized (x : route * reply) : bool :=
    match x with
    | (Initialize, Reply _ 200) => true
    | _ => false
    end.

End App.

(** ** Sample collaborators, for running the definitions *)

Module Sample.

Definition frame : ndarray :=
    NdArray [2; 2; 3]%nat [0; 0; 0; 255; 255; 255; 0; 0; 0; 255; 255; 255].

Definition table : ocr_data :=
    MkOcrData [" OK "; "  "; "Cancel"; "dim"]
              [PyInt 96; PyInt 95; PyInt 31; PyInt 30]
              [10; 0; 100; 7] [20; 0; 20; 7] [40; 0; 61; 7] [16; 0; 16; 7].

Definition unavailable {A} (what : string) : exn + A :=
    inl (Exn LibraryError what).

(** A double quote, and a quoted word. *)
Definition dq : string := String (ascii_of_nat 34) EmptyString.
Definition q (w : string) : string := dq ++ w ++ dq.

(** [{"suggested_actions": [{"action_type": "click", "coordinates": [10, 20]},
    {"target": "box"}]}] *)
Definition actions_text : string :=
    "{" ++ q "suggested_actions" ++ ": [{" ++ q "action_type" ++ ": " ++ q "click"
    ++ ", " ++ q "coordinates" ++ ": [10, 20]}, {" ++ q "target" ++ ": " ++ q "box"
    ++ "}]}".

Definition actions_value : pyval :=
    PyDict [("suggested_actions",
             PyList [ PyDict [("action_type", PyStr "click");
                              ("coordinates", PyList [PyInt 10; PyInt 20])];
                      PyDict [("target", PyStr "box")] ])].

(** [{"application_name": "Editor", "confidence": 0.95}] *)
Definition context_text : string :=
    "{" ++ q "application_name" ++ ": " ++ q "Editor" ++ ", " ++ q "confidence"
    ++ ": 0.95}".

Definition context_value : pyval :=
    PyDict [("application_name", PyStr "Editor"); ("confidence", hundredths 95)].

(** [json.loads] on the texts used here: the two objects above, the array
    [[1]]; anything else is taken as malformed. *)
Definition loads (s : string) : exn + pyval :=
    if String.eqb s actions_text then inr actions_value
    else if String.eqb s context_text then inr context_value
    else if String.eqb s "[1]" then inr (PyList [PyInt 1])
    else inl (Exn JSONDecodeError "Expecting value: line 1 column 1 (char 0)").

(** An environment from the outcome of the screen grab, of Tesseract and
    of the model call; the other collaborators succeed. *)
Definition env (screen : exn + ndarray) (ocr : exn + ocr_data)
      (model : prompt -> exn + string) : Env :=
    MkEnv (fun _ _ => screen)
          (fun _ img _ => inr img) (fun img _ => inr img)
          (fun img _ => inr img) (fun img _ => inr img)
          (fun _ _ => ocr)
          (fun _ _ => inr "anBn")
          (fun _ _ => inr frame)
          (fun p _ _ => model p)
          loads
          (fun _ => Finite (Qmake 1700000000 1))
          (fun _ _ => inr tt)
          (fun _ => inr tt)
          "2024-01-01T00:00:00"
          (Finite (Qmake 1704067200 1)).

(** The model answers both prompts with fenced JSON. *)
Definition good_model (p : prompt) : exn + string :=
    match p with
    | ElementsPrompt => inr (fenced_json actions_text)
    | ContextPrompt _ => inr (fenced_json context_text)
    end.

Definition working : Env := env (inr frame) (inr table) good_model.

Definition no_screen : Env :=
    env (unavailable "screen grab failed") (inr table) good_model.

Definition no_model : Env :=
    env (inr frame) (inr table) (fun _ => unavailable "503 service unavailable").

Definition garbled_model : Env :=
    env (inr frame) (inr table) (fun _ => inr "Sorry, I cannot help with that.").

(** The model fences its answer without the [json] tag. *)
Definition plain_fence_model : Env :=
    env (inr frame) (inr table) (fun _ => inr (fenced_plain context_text)).

Definition two_seconds : pyval := PyFloat (Finite (Qmake 2 1)).

(** One start, a loop body under way when the stop is requested, the body
    ends, the loop sees the flag and finishes. *)
Definition stop_run : list AIScreenReader.action :=
    [ AIScreenReader.StartMonitoring two_seconds; AIScreenReader.LoopStep 0;
      AIScreenReader.StopRequest; AIScreenReader.LoopStep 0; AIScreenReader.LoopStep 0 ].

(** After the stop has returned: a new start, and its loop. *)
Definition restart_run : list AIScreenReader.action :=
    [ AIScreenReader.StartMonitoring two_seconds; AIScreenReader.LoopStep 1 ].

Definition no_tesseract : Env :=
    env (inr frame) (unavailable "tesseract is not installed") good_model.

End Sample.

(** ** Vocabulary of the statements *)

(** What a fragment that is kept looks like, read off its entries: the
    text is not empty and has no blank at either end, the confidence is a
    finite float not below 0.3. *)
Definition kept_fragment (f : pyval) : Prop :=
  exists d text q,
    f = PyDict d
    /\ Py.dict_lookup "text" d = Some (PyStr text)
    /\ text <> EmptyString
    /\ PyStr.strip text = text
    /\ Py.dict_lookup "confidence" d = Some (PyFloat (Finite q))
    /\ (3 # 10 <= q)%Q.

(** The fragment [f] comes from row [i] of the table: the row's confidence
    is an integer above 30, the fragment's text is the row's text stripped,
    its confidence the row's divided by [100.0]. *)
Definition fragment_of_row (data : ocr_data) (i : nat) (f : pyval) : Prop :=
  exists raw c confidence unit_confidence d,
    ocr_text data !! i = Some raw
    /\ ocr_conf data !! i = Some c
    /\ PyInt.int c = inr confidence
    /\ 30 < confidence
    /\ PyFloat.int_truediv confidence 100 = inr unit_confidence
    /\ f = PyDict d
    /\ Py.dict_lookup "text" d = Some (PyStr (PyStr.strip raw))
    /\ PyStr.strip raw <> EmptyString
    /\ Py.dict_lookup "confidence" d = Some (PyFloat unit_confidence).

(** Half a unit in the last place of a float, relative to its value, at
    most: 2 to the power -53. *)
Definition half_ulp : Q := 1 # 9007199254740992.

(** The two shapes of the dict [analyze_current_screen] returns. *)
Definition error_result (msg : string) : pyval := PyDict [("error", PyStr msg)].

Definition analysis_result (timestamp : pyfloat) (elements : list pyval)
    (commands : list ActionCommand) (interpretation detailed_analysis : pyval)
    (screenshot_b64 : string) : pyval :=
  PyDict
    [ ("timestamp", PyFloat timestamp);
      ("elements", PyList elements);
      ("commands", PyList (map AIScreenReader.command_dict commands));
      ("interpretation", interpretation);
      ("detailed_analysis", detailed_analysis);
      ("screenshot_b64", PyStr screenshot_b64);
      ("summary", PyDict
         [ ("screen_type", Schema.field interpretation "screen_type" (PyStr "unknown"));
           ("application",
             Schema.field interpretation "application_name" (PyStr "Unknown"));
           ("context",
             Schema.field interpretation "current_context" (PyStr "Screen analysis"));
           ("elements_found", Py.len elements);
           ("commands_generated", PyInt (Z.of_nat (length commands)));
           ("confidence", Schema.field interpretation "confidence" (hundredths 50)) ]) ].

Inductive result_shape : pyval -> Prop :=
| shape_error (msg : string) : result_shape (error_result msg)
| shape_analysis timestamp elements commands interpretation detailed b64 :
    result_shape (analysis_result timestamp elements commands interpretation detailed b64).

(** While the caller waits in [stop_monitoring], the flag is down and the
    thread it waits for is the one [capture_thread] holds. *)
Definition waits_for_handle (m : AIScreenReader.t) : Prop :=
  forall joined, AIScreenReader.caller m = AIScreenReader.Joining joined ->
                 joined = AIScreenReader.capture_thread m /\ AIScreenReader.is_running m = false.


(** Under the one-start discipline, the only thread that can still be
    running is the one [capture_thread] holds, and none is when no start
    is pending. *)
Definition only_handle_live (started : bool) (m : AIScreenReader.t) : Prop :=
  forall tid th,
    AIScreenReader.threads m !! tid = Some th -> AIScreenReader.th_pc th <> AIScreenReader.Exited ->
    started = true /\ AIScreenReader.capture_thread m = Some tid.

Definition started_after (started : bool) (a : AIScreenReader.action) : bool :=
  match a with
  | AIScreenReader.StartMonitoring _ => true
  | AIScreenReader.StopReturn => false
  | _ => started
  end.

(** * The rest of the code *)

(** ** More of [str] *)

Module PyChars.

(** [s.lstrip(chars)], [s.rstrip(chars)], [s.strip(chars)] for the set of
    characters [p] holds of. *)
Fixpoint lstrip_by (p : ascii -> bool) (s : string) : string :=
  match s with
  | EmptyString => EmptyString
  | String c t => if p c then lstrip_by p t else s
  end.

Fixpoint rstrip_by (p : ascii -> bool) (s : string) : string :=
  match s with
  | EmptyString => EmptyString
  | String c t =>
      match rstrip_by p t with
      | EmptyString => if p c then EmptyString else String c EmptyString
      | r => String c r
      end
  end.

Definition strip_by (p : ascii -> bool) (s : string) : string :=
  rstrip_by p (lstrip_by p s).

(** [s.split(sep, 1)] for a one-character separator: the text before the
    first separator and, when there is one, the text after it. *)
Fixpoint split_once (sep : ascii) (s : string) : string * option string :=
  match s with
  | EmptyString => (EmptyString, None)
  | String c t =>
      if Ascii.eqb c sep then (EmptyString, Some t)
      else let (before, rest) := split_once sep t in (String c before, rest)
  end.

(** The characters the second [strip] of [load_api_key] removes: the double
    quote and the single quote. *)
Definition is_quote (c : ascii) : bool :=
  let n := N_of_ascii c in ((n =? 34) || (n =? 39))%N.

Definition first_char (s : string) : option ascii :=
  match s with String c _ => Some c | EmptyString => None end.

Fixpoint last_char (s : string) : option ascii :=
  match s with
  | EmptyString => None
  | String c EmptyString => Some c
  | String _ t => last_char t
  end.

(** Whether every character of [s] is in the set. *)
Fixpoint all_chars (p : ascii -> bool) (s : string) : bool :=
  match s with
  | EmptyString => true
  | String c t => p c && all_chars p t
  end.

(** Whether the first and the last character of [s], if any, are outside
    the set. *)
Definition clean_ends (p : ascii -> bool) (s : string) : bool :=
  match first_char s, last_char s with
  | Some a, Some b => negb (p a) && negb (p b)
  | _, _ => true
  end.

End PyChars.

(** ** [OCRProcessor.extract_text_simple]

    [pytesseract.image_to_string] is the parameter [image_to_string]. *)

Module OCRText.

Definition extract_text_simple
    (image_to_string : ndarray -> list event -> exn + string)
    (image : ndarray) : M string :=
  try_except
    (do text <- (fun st => (image_to_string image (events st), st));
     ret (PyStr.strip text))
    (fun e =>
       exec log WARNING ("Simple OCR failed (Tesseract not available): " ++ exn_msg e);
       ret EmptyString).

End OCRText.

(** ** [load_api_key] of the command-line scripts *)

Module DotEnv.

(** The [.env] file beside the script: absent, impossible to open, or a
    sequence of lines as the iteration over the file yields them (each with
    its line end), after which the read may fail. *)
Inductive file :=
| NoFile
| OpenFails (e : exn)
| Lines (lines : list string) (read_error : option exn).

(** How a call ends: a value, [sys.exit(code)], or an exception. *)
Inductive outcome (A : Type) :=
| Returned (a : A)
| SystemExit (code : Z)
| Raised (e : exn).
Arguments Returned {A} a.
Arguments SystemExit {A} code.
Arguments Raised {A} e.

(** [line.split('=', 1)[1].strip().strip(quotes)], with [quotes] the double
    and the single quote. *)
Definition key_of_line (line : string) : exn + string :=
  match PyChars.split_once "=" line with
  | (_, Some value) => inr (PyChars.strip_by PyChars.is_quote (PyStr.strip value))
  | (_, None) => inl (Exn IndexError "list index out of range")
  end.

(** The [for line in f] loop: the key it returns, [None] when it runs to
    the end of the lines. *)
Fixpoint scan (lines : list string) : exn + option string :=
  match lines with
  | [] => inr None
  | line :: rest =>
      if PyStr.startswith line "GOOGLE_API_KEY=" then
        match key_of_line line with
        | inl e => inl e
        | inr api_key =>
            if negb (String.eqb api_key EmptyString) then inr (Some api_key)
            else scan rest
        end
      else scan rest
  end.

(** The part both scripts share: what the [if os.path.exists] block prints,
    and the key when it returns one. *)
Definition from_file (f : file) : list string * option string :=
  match f with
  | NoFile => ([], None)
  | OpenFails e => (["Error reading .env file: " ++ exn_msg e], None)
  | Lines lines read_error =>
      match scan lines with
      | inr (Some api_key) => (["Loaded API key from .env file"], Some api_key)
      | inr None =>
          match read_error with
          | Some e => (["Error reading .env file: " ++ exn_msg e], None)
          | None => ([], None)
          end
      | inl e => (["Error reading .env file: " ++ exn_msg e], None)
      end
  end.

(** [auto_screen_analysis.load_api_key]: the lines printed and the outcome. *)
Definition load_api_key_auto (f : file) : list string * outcome string :=
  match from_file f with
  | (out, Some api_key) => (out, Returned api_key)
  | (out, None) =>
      ((out ++ ["API key not found in .env file!"])%list, SystemExit 1)
  end.

(** [screen_analysis_desktop.load_api_key]: without a key from the file it
    asks for one; [user_input] is what [input(prompt)] gives. *)
Definition load_api_key_desktop (f : file) (user_input : exn + string)
  : list string * outcome string :=
  match from_file f with
  | (out, Some api_key) => (out, Returned api_key)
  | (out, None) =>
      let out := (out ++ ["Enter your Google API Key (Gemini): "])%list in
      match user_input with
      | inl e => (out, Raised e)
      | inr typed =>
          let api_key := PyStr.strip typed in
          if negb (String.eqb api_key EmptyString) then (out, Returned api_key)
          else ((out ++ ["API key is required!"])%list, SystemExit 1)
      end
  end.

End DotEnv.

(** ** Shapes of a parsed response, read off [analyze_screen_elements] *)

Module Shape.

Definition is_object (v : pyval) : bool :=
  match v with PyDict _ => true | _ => false end.

(** What [tuple(x)] accepts. *)
Definition iterable (v : pyval) : bool :=
  match v with
  | PyList _ | PyTuple _ | PyStr _ | PyDict _ => true
  | _ => false
  end.

(** An entry of [suggested_actions] from which an [ActionCommand] can be
    built: an object whose [coordinates], when present and not counting as
    false, can be turned into a tuple. *)
Definition convertible (a : pyval) : bool :=
  match a with
  | PyDict ad =>
      match Py.dict_lookup "coordinates" ad with
      | Some v => negb (Py.truthy v) || iterable v
      | None => true
      end
  | _ => false
  end.

End Shape.

(** ** More sample collaborators *)

Module Sample2.

(** [{"suggested_actions": [{"target": "ok"}, {"coordinates": 5}]}] *)
Definition mixed_text : string :=
  "{" ++ Sample.q "suggested_actions" ++ ": [{" ++ Sample.q "target" ++ ": "
  ++ Sample.q "ok" ++ "}, {" ++ Sample.q "coordinates" ++ ": 5}]}".

Definition mixed_value : pyval :=
  PyDict [("suggested_actions",
           PyList [ PyDict [("target", PyStr "ok")];
                    PyDict [("coordinates", PyInt 5)] ])].

(** [json.loads] on the texts above and on those of [Sample]. *)
Definition loads (s : string) : exn + pyval :=
  if String.eqb s mixed_text then inr mixed_value else Sample.loads s.

(** [E] with another parser, another model and another [time.sleep]. *)
Definition with_model (E : Env) (parse : string -> exn + pyval)
    (model : prompt -> exn + string) (sleep : pyval -> exn + unit) : Env :=
  MkEnv (env_grab E) (env_cvtColor E) (env_GaussianBlur E)
        (env_adaptiveThreshold E) (env_morphologyEx E) (env_image_to_data E)
        (env_imencode_b64 E) (env_Image_open E)
        (fun p _ _ => model p)
        parse
        (env_time E)
        (fun v _ => sleep v)
        (env_genai_configure E) (env_utcnow_iso E) (env_utcnow_timestamp E).

(** The model answers with one good and one bad action. *)
Definition mixed_model : Env :=
  with_model Sample.working loads (fun _ => inr mixed_text) (fun _ => inr tt).

(** [time.sleep] as Python has it on numbers: an error below zero. *)
Definition sleep (v : pyval) : exn + unit :=
  match v with
  | PyInt z =>
      if z <? 0 then inl (Exn ValueError "sleep length must be non-negative")
      else inr tt
  | PyFloat (Finite q) =>
      if Qnum q <? 0 then inl (Exn ValueError "sleep length must be non-negative")
      else inr tt
  | PyBool _ => inr tt
  | _ => inl (Exn TypeError "an integer or float is required")
  end.

Definition real_sleep : Env :=
  with_model Sample.working Sample.loads Sample.good_model sleep.

End Sample2.

(** ** Vocabulary of the further statements *)

(** [getattr(self, 'last_analysis', {})] on a state. *)
Definition detailed_of (st : PyState) : pyval :=
  match last_analysis st with Some v => v | None => PyDict [] end.

(** While nothing is asked of the object and the flag is down, the thread
    [capture_thread] holds, if any, has finished. *)
Definition idle_joinable (m : AIScreenReader.t) : Prop :=
  AIScreenReader.caller m = AIScreenReader.Ready ->
  AIScreenReader.is_running m = false ->
  AIScreenReader.joinable m (AIScreenReader.capture_thread m) = true.

(** The state with an earlier analysis in [last_analysis]. *)
Definition with_last_analysis (v : pyval) : PyState := MkPyState [] (Some v).

(** A reply as the routes promise it: a JSON object with status 200, 400 or
    500, which is [{"error": message}] unless the status is 200. *)
Definition well_formed_reply (r : App.reply) : Prop :=
  match r with
  | App.Pending => True
  | App.Reply body status =>
      (status = 200 \/ status = 400 \/ status = 500)%nat
      /\ Shape.is_object body = true
      /\ (status <> 200%nat -> exists msg, body = PyDict [("error", PyStr msg)])
  end.

(** * Properties *)

Ltac finish_run := cbn; rewrite <- ?app_assoc; reflexivity.

(** ** Strings *)

Lemma str_app_assoc (a b c : string) : (a ++ b) ++ c = a ++ (b ++ c).
Proof. induction a as [|x a IH]; simpl; [reflexivity | now rewrite IH]. Qed.

Lemma str_length_app (a b : string) :
  String.length (a ++ b) = (String.length a + String.length b)%nat.
Proof. induction a as [|x a IH]; simpl; [reflexivity | now rewrite IH]. Qed.

Lemma drop_length_app (a b : string) : PyStr.drop (String.length a) (a ++ b) = b.
Proof. induction a as [|x a IH]; simpl; [now destruct b | exact IH]. Qed.

Lemma take_length_app (a b : string) : PyStr.take (String.length a) (a ++ b) = a.
Proof. induction a as [|x a IH]; simpl; [now destruct b | now rewrite IH]. Qed.

Lemma endswith_app (a p : string) : PyStr.endswith (a ++ p) p = true.
Proof.
  unfold PyStr.endswith. rewrite str_length_app.
  replace (String.length a + String.length p - String.length p)%nat
    with (String.length a) by lia.
  rewrite drop_length_app, String.eqb_refl, andb_true_r.
  apply Nat.leb_le. lia.
Qed.

Lemma drop_last_app (a p : string) : PyStr.drop_last (String.length p) (a ++ p) = a.
Proof.
  unfold PyStr.drop_last. rewrite str_length_app.
  replace (String.length a + String.length p - String.length p)%nat
    with (String.length a) by lia.
  apply take_length_app.
Qed.

Lemma rstrip_snoc_space (s : string) (c : ascii) :
  PyStr.isspace c = true -> PyStr.rstrip (s ++ String c EmptyString) = PyStr.rstrip s.
Proof.
  intros Hc. induction s as [|x s IH]; simpl.
  - now rewrite Hc.
  - now rewrite IH.
Qed.

Lemma rstrip_snoc_nonspace (s : string) (c : ascii) :
  PyStr.isspace c = false ->
  PyStr.rstrip (s ++ String c EmptyString) = s ++ String c EmptyString.
Proof.
  intros Hc. induction s as [|x s IH]; simpl.
  - now rewrite Hc.
  - rewrite IH. now destruct s.
Qed.

Lemma strip_snoc_space (s : string) (c : ascii) :
  PyStr.isspace c = true -> PyStr.strip (s ++ String c EmptyString) = PyStr.strip s.
Proof.
  intros Hc. unfold PyStr.strip. induction s as [|x s IH]; simpl.
  - now rewrite Hc.
  - destruct (PyStr.isspace x); [exact IH|].
    change (String x (s ++ String c EmptyString))
      with (String x s ++ String c EmptyString).
    now apply rstrip_snoc_space.
Qed.

(** A text that neither starts nor ends with a blank is left alone. *)
Lemma strip_no_blank_ends (c1 c2 : ascii) (mid : string) :
  PyStr.isspace c1 = false -> PyStr.isspace c2 = false ->
  PyStr.strip (String c1 (mid ++ String c2 EmptyString))
  = String c1 (mid ++ String c2 EmptyString).
Proof.
  intros H1 H2. unfold PyStr.strip. simpl PyStr.lstrip. rewrite H1.
  change (String c1 (mid ++ String c2 EmptyString))
    with (String c1 mid ++ String c2 EmptyString).
  now apply rstrip_snoc_nonspace.
Qed.

Lemma strip_fenced_json (body : string) :
  PyStr.strip (fenced_json body) = fenced_json body.
Proof.
  assert (Hshape : fenced_json body
                   = String "`" (("``json" ++ LF ++ body ++ LF ++ "``")
                                 ++ String "`" EmptyString)).
  { unfold fenced_json. simpl. do 7 f_equal. rewrite !str_app_assoc. reflexivity. }
  rewrite Hshape. now apply strip_no_blank_ends.
Qed.

(** The cleaning of a response fenced with [```json]: what is left is the
    stripped body. *)
Lemma clean_fenced_json (body : string) :
  LLMInterface.clean_response_text (fenced_json body) = PyStr.strip body.
Proof.
  unfold LLMInterface.clean_response_text. cbv zeta.
  rewrite strip_fenced_json.
  replace (PyStr.startswith (fenced_json body) "```json") with true by reflexivity.
  change (PyStr.drop 7 (fenced_json body)) with (LF ++ body ++ LF ++ "```").
  replace (LF ++ body ++ LF ++ "```") with ((LF ++ body ++ LF) ++ "```")
    by (now rewrite !str_app_assoc).
  rewrite endswith_app.
  change 3%nat with (String.length "```"). rewrite drop_last_app.
  replace (LF ++ body ++ LF) with ((LF ++ body) ++ LF)
    by (now rewrite !str_app_assoc).
  unfold LF at 2. rewrite strip_snoc_space by reflexivity.
  reflexivity.
Qed.

(** ** [LLMInterface]: the two model calls, case by case *)

(** Building the commands never raises a [JSONDecodeError]: the inner
    handler of [analyze_screen_elements] is for [json.loads] alone. *)
Lemma command_of_not_json_error (a : pyval) (e : exn) :
  LLMInterface.command_of a = inl e -> is_json_decode_error e = false.
Proof.
  unfold LLMInterface.command_of, Py.get.
  destruct a; cbn; try (intros [= <-]; reflexivity).
  destruct (Py.truthy _); cbn; [|discriminate].
  unfold Py.tuple, Py.iter.
  destruct (match Py.dict_lookup "coordinates" d with Some v => v | None => _ end);
    cbn; try discriminate; intros [= <-]; reflexivity.
Qed.

Lemma commands_of_not_json_error (actions : list pyval) (acc : list ActionCommand) (e : exn) :
  LLMInterface.commands_of actions acc = inl e -> is_json_decode_error e = false.
Proof.
  revert acc. induction actions as [|a actions IH]; intros acc; cbn; [discriminate|].
  destruct (LLMInterface.command_of a) as [e'|c] eqn:Hc; cbn.
  - intros [= <-]. eapply command_of_not_json_error, Hc.
  - apply IH.
Qed.

Lemma commands_from_not_json_error (data : pyval) (e : exn) :
  LLMInterface.commands_from data = inl e -> is_json_decode_error e = false.
Proof.
  unfold LLMInterface.commands_from, Py.get.
  destruct data; cbn; try (intros [= <-]; reflexivity).
  destruct (match Py.dict_lookup "suggested_actions" d with Some v => v | None => _ end);
    cbn; try (intros [= <-]; reflexivity); apply commands_of_not_json_error.
Qed.

Section LLMCases.
Variable E : Env.

(** [analyze_screen_elements], by the outcome of each step. *)
Lemma analyze_screen_elements_cases (elements : list pyval) (b64 : string) (st : PyState) :
  LLMInterface.analyze_screen_elements E elements b64 st =
  match env_Image_open E b64 (events st) with
  | inl e =>
      (inr LLMInterface._get_fallback_commands,
       after st [Call Image_open; Log ERROR ("Gemini analysis failed: " ++ exn_msg e)])
  | inr image =>
      match env_generate_content E ElementsPrompt image (events st ++ [Call Image_open]) with
      | inl e =>
          (inr LLMInterface._get_fallback_commands,
           after st [Call Image_open; Call (generate_content ElementsPrompt);
                     Log ERROR ("Gemini analysis failed: " ++ exn_msg e)])
      | inr text =>
          match env_json_loads E (LLMInterface.clean_response_text text) with
          | inl e =>
              (inr LLMInterface._get_fallback_commands,
               after st
                 ([Call Image_open; Call (generate_content ElementsPrompt)] ++
                  if is_json_decode_error e then
                    [Log WARNING ("Failed to parse Gemini response as JSON: " ++ exn_msg e);
                     Log WARNING ("Response text: " ++ PyStr.take 200 text ++ "...")]
                  else [Log ERROR ("Gemini analysis failed: " ++ exn_msg e)]))
          | inr data =>
              match LLMInterface.commands_from data with
              | inl e =>
                  (inr LLMInterface._get_fallback_commands,
                   after st [Call Image_open; Call (generate_content ElementsPrompt);
                             Log ERROR ("Gemini analysis failed: " ++ exn_msg e)])
              | inr commands =>
                  (inr commands,
                   MkPyState
                     (events st ++ [Call Image_open; Call (generate_content ElementsPrompt)])
                     (Some data))
              end
          end
      end
  end.
Proof.
  unfold LLMInterface.analyze_screen_elements, try_except_only, try_except,
    bind, ask, lift, log, emit, set_last_analysis, ret, raise, after.
  destruct (env_Image_open E b64 (events st)) as [e|image]; [finish_run|].
  cbn [events last_analysis].
  destruct (env_generate_content E ElementsPrompt image _) as [e|text];
    [finish_run|].
  destruct (env_json_loads E _) as [e|data].
  - destruct (is_json_decode_error e); finish_run.
  - pose proof (commands_from_not_json_error data) as Hcls.
    destruct (LLMInterface.commands_from data) as [e|commands]; [|finish_run].
    rewrite (Hcls e eq_refl). finish_run.
Qed.

(** [interpret_screen_context], by the outcome of each step. *)
Lemma interpret_screen_context_cases (b64 : string) (user_intent : pyval) (st : PyState) :
  let p := ContextPrompt (if Py.truthy user_intent then user_intent
                          else PyStr "General screen analysis") in
  LLMInterface.interpret_screen_context E b64 user_intent st =
  match env_Image_open E b64 (events st) with
  | inl e =>
      (inr LLMInterface._get_fallback_interpretation,
       after st [Call Image_open;
                 Log ERROR ("Gemini screen interpretation failed: " ++ exn_msg e)])
  | inr image =>
      match env_generate_content E p image (events st ++ [Call Image_open]) with
      | inl e =>
          (inr LLMInterface._get_fallback_interpretation,
           after st [Call Image_open; Call (generate_content p);
                     Log ERROR ("Gemini screen interpretation failed: " ++ exn_msg e)])
      | inr text =>
          match env_json_loads E (LLMInterface.clean_response_text text) with
          | inl e =>
              (inr LLMInterface._get_fallback_interpretation,
               after st
                 ([Call Image_open; Call (generate_content p)] ++
                  if is_json_decode_error e then
                    [Log WARNING
                       ("Failed to parse Gemini context response as JSON: " ++ exn_msg e);
                     Log WARNING ("Response text: " ++ PyStr.take 200 text ++ "...")]
                  else [Log ERROR ("Gemini screen interpretation failed: " ++ exn_msg e)]))
          | inr interpretation =>
              (inr interpretation, after st [Call Image_open; Call (generate_content p)])
          end
      end
  end.
Proof.
  intros p.
  unfold LLMInterface.interpret_screen_context, try_except_only, try_except,
    bind, ask, lift, log, emit, ret, raise, after.
  destruct (env_Image_open E b64 (events st)) as [e|image]; [finish_run|].
  cbn [events last_analysis]. fold p.
  destruct (env_generate_content E p image _) as [e|text]; [finish_run|].
  destruct (env_json_loads E _) as [e|data]; [|finish_run].
  destruct (is_json_decode_error e); finish_run.
Qed.

(** Both functions always return: no exception leaves them. *)
Lemma analyze_screen_elements_total (elements : list pyval) (b64 : string) (st : PyState) :
  exists commands st',
    LLMInterface.analyze_screen_elements E elements b64 st = (inr commands, st').
Proof.
  rewrite analyze_screen_elements_cases.
  repeat match goal with
         | |- context [match ?x with _ => _ end] => destruct x
         end; eauto.
Qed.

Lemma interpret_screen_context_total (b64 : string) (user_intent : pyval) (st : PyState) :
  exists interpretation st',
    LLMInterface.interpret_screen_context E b64 user_intent st = (inr interpretation, st').
Proof.
  rewrite interpret_screen_context_cases.
  repeat match goal with
         | |- context [match ?x with _ => _ end] => destruct x
         end; eauto.
Qed.

End LLMCases.

(** ** [analyze_screen_elements]: the fallback *)

(** C1, as amended.  When the model call of [analyze_screen_elements] fails
    (an exception before the response text is there, or an exception of
    [json.loads] on the cleaned text), the function returns the fixed
    fallback commands, three constants of kinds click, type and scroll, and
    raises nothing; the state gains the calls made and the log records of the
    failure, [last_analysis] is untouched.  The records are two warnings
    exactly when the parse raised a [JSONDecodeError]; every other failure,
    a transport failure among them, is logged as one error. *)
Theorem analyze_screen_elements_falls_back
    (E : Env) (elements : list pyval) (b64 : string) (st : PyState) (f : failure) :
  model_failure E ElementsPrompt b64 st = Some f ->
  let records :=
    failure_records "Failed to parse Gemini response as JSON: "
                    "Gemini analysis failed: " f in
  LLMInterface.analyze_screen_elements E elements b64 st
  = (inr LLMInterface._get_fallback_commands,
     after st (model_calls E ElementsPrompt b64 st ++ records))
  /\ map action_type LLMInterface._get_fallback_commands
     = [PyStr "click"; PyStr "type"; PyStr "scroll"]
  /\ (existsb is_warning records = true
      <-> exists text e, f = ParseFailure text e /\ is_json_decode_error e = true).
Proof.
  intros Hf records. subst records.
  rewrite analyze_screen_elements_cases.
  unfold model_failure, model_calls in *.
  destruct (env_Image_open E b64 (events st)) as [e|image].
  - injection Hf as <-. repeat split; try reflexivity.
    + discriminate.
    + intros (text & e' & [=] & _).
  - destruct (env_generate_content E ElementsPrompt image _) as [e|text].
    + injection Hf as <-. repeat split; try reflexivity.
      * discriminate.
      * intros (text & e' & [=] & _).
    + destruct (env_json_loads E _) as [e|data]; [|discriminate].
      injection Hf as <-. repeat split; try reflexivity.
      * cbn. destruct (is_json_decode_error e) eqn:He; [eauto | discriminate].
      * intros (text' & e' & [= <- <-] & He). cbn. now rewrite He.
Qed.

Lemma analyze_screen_elements_falls_back_witness :
  LLMInterface.analyze_screen_elements Sample.garbled_model [] "anBn" empty_state
  = (inr LLMInterface._get_fallback_commands,
     MkPyState
       [ Call Image_open; Call (generate_content ElementsPrompt);
         Log WARNING ("Failed to parse Gemini response as JSON: "
                      ++ "Expecting value: line 1 column 1 (char 0)");
         Log WARNING "Response text: Sorry, I cannot help with that...." ]
       None).
Proof.
  refine (proj1 (analyze_screen_elements_falls_back Sample.garbled_model [] "anBn"
                   empty_state
                   (ParseFailure "Sorry, I cannot help with that."
                      (Exn JSONDecodeError "Expecting value: line 1 column 1 (char 0)"))
                   _)).
  reflexivity.
Defined.

(** C1, as stated, fails on a transport failure: the fallback is returned,
    but no record of level WARNING is logged (the record is an error). *)
Lemma transport_failure_logs_no_warning :
  model_failure Sample.no_model ElementsPrompt "anBn" empty_state
  = Some (TransportFailure (Exn LibraryError "503 service unavailable"))
  /\ fst (LLMInterface.analyze_screen_elements Sample.no_model [] "anBn" empty_state)
     = inr LLMInterface._get_fallback_commands
  /\ existsb is_warning
       (events (snd (LLMInterface.analyze_screen_elements
                       Sample.no_model [] "anBn" empty_state))) = false.
Proof. repeat split; vm_compute; reflexivity. Qed.

(** ** [analyze_screen_elements]: the commands of a well-formed response *)

Lemma command_of_spec (a : pyval) :
  Schema.action_ok a = true ->
  LLMInterface.command_of a = inr (Schema.spec_command a).
Proof.
  destruct a as [ |b|z|f|s|l|l|ad]; try discriminate.
  unfold Schema.action_ok, LLMInterface.command_of, Schema.spec_command,
    Schema.field, Py.get.
  cbn [and_then].
  destruct (Py.dict_lookup "coordinates" ad) as [v|]; [|reflexivity].
  unfold Schema.coordinates_ok.
  destruct v as [ |b|z|f|s|l|l|d]; cbn; intros H;
    try apply negb_true_iff in H; try rewrite H; try reflexivity.
  destruct l; reflexivity.
Qed.

Lemma commands_of_spec (actions : list pyval) (acc : list ActionCommand) :
  forallb Schema.action_ok actions = true ->
  LLMInterface.commands_of actions acc
  = inr (acc ++ map Schema.spec_command actions)%list.
Proof.
  revert acc. induction actions as [|a actions IH]; intros acc Hok; cbn.
  - now rewrite app_nil_r.
  - cbn in Hok. apply andb_true_iff in Hok as [Ha Hok].
    rewrite (command_of_spec a Ha). cbn.
    rewrite (IH _ Hok), <- app_assoc. reflexivity.
Qed.

Lemma commands_from_spec (data : pyval) (actions : list pyval) :
  Schema.suggested_actions data = Some actions ->
  forallb Schema.action_ok actions = true ->
  LLMInterface.commands_from data = inr (map Schema.spec_command actions).
Proof.
  unfold Schema.suggested_actions, LLMInterface.commands_from, Py.get.
  destruct data as [ |b|z|f|s|l|l|d]; try discriminate.
  destruct (Py.dict_lookup "suggested_actions" d) as [[ |b|z|f|s|l|l|d']|];
    try discriminate.
  intros [= ->] Hok. cbn. now rewrite commands_of_spec.
Qed.

(** C2.  When the response parses and matches the schema (an object whose
    [suggested_actions] is an array of action objects, the [coordinates] of
    an action, when present, an array or a value that counts as false),
    [analyze_screen_elements] returns one command per action, in the order
    of the array, each the command the specification describes: the fields
    of the action with the defaults "unknown", "Unknown target", no
    coordinates (entry missing or false), [{}] and 0.5 for missing ones. *)
Theorem analyze_screen_elements_maps_actions
    (E : Env) (elements : list pyval) (b64 : string) (st : PyState)
    (image : ndarray) (text : string) (data : pyval) (actions : list pyval) :
  env_Image_open E b64 (events st) = inr image ->
  env_generate_content E ElementsPrompt image (events st ++ [Call Image_open])
  = inr text ->
  env_json_loads E (LLMInterface.clean_response_text text) = inr data ->
  Schema.suggested_actions data = Some actions ->
  forallb Schema.action_ok actions = true ->
  exists commands st',
    LLMInterface.analyze_screen_elements E elements b64 st = (inr commands, st')
    /\ commands = map Schema.spec_command actions
    /\ length commands = length actions
    /\ (forall i a, actions !! i = Some a ->
                    commands !! i = Some (Schema.spec_command a))
    /\ last_analysis st' = Some data.
Proof.
  intros Himg Htext Hdata Hacts Hok.
  rewrite analyze_screen_elements_cases, Himg, Htext, Hdata.
  rewrite (commands_from_spec data actions Hacts Hok).
  eexists _, _. split; [reflexivity|].
  repeat split.
  - now rewrite length_map.
  - intros i a Hi. now rewrite list_lookup_fmap, Hi.
Qed.

Lemma analyze_screen_elements_maps_actions_witness :
  exists commands st',
    LLMInterface.analyze_screen_elements Sample.working [] "anBn" empty_state
    = (inr commands, st')
    /\ commands
       = [ MkActionCommand (PyStr "click") (PyStr "Unknown target")
             (PyTuple [PyInt 10; PyInt 20]) (PyDict []) (hundredths 50);
           MkActionCommand (PyStr "unknown") (PyStr "box")
             PyNone (PyDict []) (hundredths 50) ].
Proof.
  destruct (analyze_screen_elements_maps_actions Sample.working [] "anBn" empty_state
              Sample.frame (fenced_json Sample.actions_text) Sample.actions_value
              [ PyDict [("action_type", PyStr "click");
                        ("coordinates", PyList [PyInt 10; PyInt 20])];
                PyDict [("target", PyStr "box")] ]
              eq_refl eq_refl eq_refl eq_refl eq_refl)
    as (commands & st' & Hrun & Hcmds & _).
  exists commands, st'. split; [exact Hrun | exact Hcmds].
Defined.

(** ** The cleaning of the response text *)

(** C3, as amended.  The cleaning cuts a leading fence that carries the tag
    [json] together with a trailing fence: of a response of the form
    [```json], line feed, body, line feed, [```] it leaves the stripped
    body.  When that text parses, [interpret_screen_context] returns the
    parsed value and [analyze_screen_elements] builds its commands from it
    and keeps it as [last_analysis]: both apply the same cleaning. *)
Theorem fenced_json_response_parses
    (E : Env) (elements : list pyval) (b64 : string) (user_intent : pyval)
    (st : PyState) (image : ndarray) (body : string) (data : pyval) :
  env_Image_open E b64 (events st) = inr image ->
  env_json_loads E (PyStr.strip body) = inr data ->
  let p := ContextPrompt (if Py.truthy user_intent then user_intent
                          else PyStr "General screen analysis") in
  LLMInterface.clean_response_text (fenced_json body) = PyStr.strip body
  /\ (env_generate_content E p image (events st ++ [Call Image_open])
      = inr (fenced_json body) ->
      LLMInterface.interpret_screen_context E b64 user_intent st
      = (inr data, after st [Call Image_open; Call (generate_content p)]))
  /\ (env_generate_content E ElementsPrompt image (events st ++ [Call Image_open])
      = inr (fenced_json body) ->
      LLMInterface.analyze_screen_elements E elements b64 st
      = match LLMInterface.commands_from data with
        | inr commands =>
            (inr commands,
             MkPyState
               (events st ++ [Call Image_open; Call (generate_content ElementsPrompt)])
               (Some data))
        | inl e =>
            (inr LLMInterface._get_fallback_commands,
             after st [Call Image_open; Call (generate_content ElementsPrompt);
                       Log ERROR ("Gemini analysis failed: " ++ exn_msg e)])
        end).
Proof.
  intros Himg Hdata p. split; [apply clean_fenced_json|]. split; intros Htext.
  - rewrite interpret_screen_context_cases. fold p.
    now rewrite Himg, Htext, clean_fenced_json, Hdata.
  - rewrite analyze_screen_elements_cases.
    now rewrite Himg, Htext, clean_fenced_json, Hdata.
Qed.

Lemma fenced_json_response_parses_witness :
  LLMInterface.interpret_screen_context Sample.working "anBn" (PyStr EmptyString)
    empty_state
  = (inr Sample.context_value,
     MkPyState
       [ Call Image_open;
         Call (generate_content (ContextPrompt (PyStr "General screen analysis"))) ]
       None).
Proof.
  refine (proj1 (proj2 (fenced_json_response_parses Sample.working [] "anBn"
                          (PyStr EmptyString) empty_state Sample.frame
                          Sample.context_text Sample.context_value _ _)) _);
    reflexivity.
Defined.

(** C3, as stated, fails for an opening fence without the tag: the fence
    stays in the text, the text does not parse, and the fallback
    interpretation is returned in place of the inner object. *)
Lemma untagged_fence_is_kept :
  LLMInterface.clean_response_text (fenced_plain Sample.context_text)
  = "```" ++ LF ++ Sample.context_text
  /\ LLMInterface.clean_response_text (fenced_plain Sample.context_text)
     <> Sample.context_text
  /\ fst (LLMInterface.interpret_screen_context Sample.plain_fence_model "anBn"
            (PyStr EmptyString) empty_state)
     = inr LLMInterface._get_fallback_interpretation
  /\ fst (LLMInterface.interpret_screen_context Sample.plain_fence_model "anBn"
            (PyStr EmptyString) empty_state)
     <> inr Sample.context_value.
Proof.
  repeat split; try (vm_compute; reflexivity); vm_compute; discriminate.
Qed.

(** ** [extract_text_with_boxes] *)

Lemma rstrip_idem (s : string) : PyStr.rstrip (PyStr.rstrip s) = PyStr.rstrip s.
Proof.
  induction s as [|c t IH]; [reflexivity|]. simpl.
  destruct (PyStr.rstrip t) as [|c' r] eqn:Hr.
  - destruct (PyStr.isspace c) eqn:Hc; simpl; [reflexivity | now rewrite Hc].
  - change (PyStr.rstrip (String c (String c' r)))
      with (match PyStr.rstrip (String c' r) with
            | EmptyString =>
                if PyStr.isspace c then EmptyString else String c EmptyString
            | r' => String c r'
            end).
    now rewrite IH.
Qed.

Lemma lstrip_rstrip_head (c : ascii) (t : string) :
  PyStr.isspace c = false ->
  PyStr.lstrip (PyStr.rstrip (String c t)) = PyStr.rstrip (String c t).
Proof.
  intros Hc. simpl. destruct (PyStr.rstrip t); rewrite ?Hc; simpl; now rewrite Hc.
Qed.

Lemma lstrip_head (s : string) :
  PyStr.lstrip s = EmptyString
  \/ exists c t, PyStr.lstrip s = String c t /\ PyStr.isspace c = false.
Proof.
  induction s as [|c t IH]; simpl; [now left|].
  destruct (PyStr.isspace c) eqn:Hc; [exact IH | right; eauto].
Qed.

(** Stripping twice is stripping once: a stripped text has no blank at
    either end. *)
Lemma strip_idem (s : string) : PyStr.strip (PyStr.strip s) = PyStr.strip s.
Proof.
  unfold PyStr.strip.
  destruct (lstrip_head s) as [-> | (c & t & -> & Hc)]; [reflexivity|].
  rewrite (lstrip_rstrip_head c t Hc). apply rstrip_idem.
Qed.

(** *** The rounding of [confidence / 100.0] *)

Lemma round_half_even_bounds (y : Q) :
  (y - (1 # 2) <= inject_Z (PyFloat.round_half_even y) <= y + (1 # 2))%Q.
Proof.
  unfold PyFloat.round_half_even.
  pose proof (Qfloor_le y) as Hlo. pose proof (Qlt_floor y) as Hhi.
  rewrite inject_Z_plus in Hhi. change (inject_Z 1) with 1%Q in Hhi.
  destruct (Qcompare_spec (y - inject_Z (Qfloor y)) (1 # 2)) as [He|Hl|Hg].
  - destruct (Z.even (Qfloor y)); [|rewrite inject_Z_plus; change (inject_Z 1) with 1%Q];
      lra.
  - lra.
  - rewrite inject_Z_plus. change (inject_Z 1) with 1%Q. lra.
Qed.

Lemma two_pow_pos (k : Z) : (0 < 2 ^ k)%Q.
Proof. apply Qpower_0_lt. reflexivity. Qed.

Lemma two_pow_succ (k : Z) : (2 ^ (k + 1) == 2 * 2 ^ k)%Q.
Proof. rewrite Qpower_plus by discriminate. change (2 ^ 1)%Q with 2%Q. ring. Qed.

Lemma two_pow_log2 (n : Z) :
  0 < n -> (2 ^ Z.log2 n <= inject_Z n < 2 * 2 ^ Z.log2 n)%Q.
Proof.
  intros Hn. destruct (Z.log2_spec n Hn) as [Hlo Hhi].
  pose proof (Z.log2_nonneg n) as Hnn.
  rewrite <- two_pow_succ.
  change 2%Q with (inject_Z 2).
  rewrite <- !Zpower_Qpower by lia.
  rewrite <- Zle_Qle, <- Zlt_Qlt. split; [exact Hlo|].
  now rewrite <- Z.add_1_r in Hhi.
Qed.

(** [ilog2 x] is the integer part of the binary logarithm. *)
Lemma ilog2_spec (x : Q) :
  (0 < x)%Q ->
  (2 ^ PyFloat.ilog2 x <= x < 2 * 2 ^ PyFloat.ilog2 x)%Q.
Proof.
  intros Hx. unfold PyFloat.ilog2.
  destruct x as [n d]. cbn [Qnum Qden].
  assert (Hn : 0 < n) by (unfold Qlt in Hx; cbn in Hx; lia).
  destruct (two_pow_log2 n Hn) as [Hn1 Hn2].
  destruct (two_pow_log2 (Z.pos d) eq_refl) as [Hd1 Hd2].
  set (a := Z.log2 n) in *. set (b := Z.log2 (Z.pos d)) in *.
  pose proof (two_pow_pos a) as Ha. pose proof (two_pow_pos b) as Hb.
  assert (Hpow : (2 ^ (a - b) * 2 ^ b == 2 ^ a)%Q).
  { rewrite <- Qpower_plus by discriminate. now replace (a - b + b) with a by lia. }
  assert (Hxd : (inject_Z n == (n # d) * inject_Z (Z.pos d))%Q).
  { unfold Qeq, Qmult, inject_Z. cbn. lia. }
  pose proof (two_pow_pos (a - b)) as Hab.
  assert (Hdpos : (0 < inject_Z (Z.pos d))%Q) by reflexivity.
  assert (Hlow : (2 ^ (a - b) <= 2 * (n # d))%Q).
  { apply Qnot_lt_le. intros Hc.
    assert ((2 * (n # d)) * inject_Z (Z.pos d) < 2 ^ (a - b) * (2 * 2 ^ b))%Q; [|nra].
    nra. }
  assert (Hup : ((n # d) < 2 * 2 ^ (a - b))%Q).
  { apply Qnot_le_lt. intros Hc. nra. }
  destruct (Qle_bool (2 ^ (a - b)) (n # d)) eqn:Ht.
  - apply Qle_bool_iff in Ht. split; assumption.
  - assert (Hlt : ((n # d) < 2 ^ (a - b))%Q).
    { apply Qnot_le_lt. intros Hc. apply Qle_bool_iff in Hc. congruence. }
    assert (Hs : (2 ^ (a - b) == 2 * 2 ^ (a - b - 1))%Q).
    { rewrite <- two_pow_succ. now replace (a - b - 1 + 1) with (a - b) by lia. }
    pose proof (two_pow_pos (a - b - 1)). split; lra.
Qed.

(** In the range of the normal numbers the rounded value is within half a
    unit in the last place of the exact one. *)
Lemma nearest_value (x : Q) :
  (0 < x)%Q -> (2 ^ (-1022) <= x)%Q ->
  exists v,
    (x * (1 - half_ulp) <= v <= x * (1 + half_ulp))%Q
    /\ PyFloat.nearest x = if Qle_bool (2 ^ 1024) v then None else Some (Qred v).
Proof.
  intros Hx Hmin. unfold PyFloat.nearest.
  destruct (ilog2_spec x Hx) as [Hlo Hhi].
  set (fl := PyFloat.ilog2 x) in *.
  assert (Hfl : -1022 <= fl).
  { destruct (Z_lt_le_dec fl (-1022)) as [Hc|]; [|assumption]. exfalso.
    assert (H1 : (2 ^ (fl + 1) <= 2 ^ (-1022))%Q)
      by (apply Qpower_le_compat_l; [lia | discriminate]).
    rewrite two_pow_succ in H1. lra. }
  rewrite Z.max_l by lia.
  set (e := fl - 52).
  pose proof (two_pow_pos e) as He.
  assert (Hfle : (2 ^ fl == 2 ^ e * 4503599627370496)%Q).
  { replace fl with (e + 52) by (unfold e; lia).
    rewrite Qpower_plus by discriminate. reflexivity. }
  pose proof (round_half_even_bounds (x / 2 ^ e)) as [Hm1 Hm2].
  set (m := inject_Z (PyFloat.round_half_even (x / 2 ^ e))) in *.
  assert (Hy : (x / 2 ^ e * 2 ^ e == x)%Q) by (field; lra).
  set (y := (x / 2 ^ e)%Q) in *.
  exists (m * 2 ^ e)%Q. split; [|reflexivity].
  unfold half_ulp. set (E := (2 ^ e)%Q) in *. split; nra.
Qed.

Lemma nearest_bounds (x a : Q) :
  (0 < x)%Q -> (2 ^ (-1022) <= x)%Q ->
  PyFloat.nearest x = Some a ->
  (x * (1 - half_ulp) <= a <= x * (1 + half_ulp))%Q /\ (a < 2 ^ 1024)%Q.
Proof.
  intros Hx Hmin Hn. destruct (nearest_value x Hx Hmin) as (v & Hv & Hnv).
  rewrite Hnv in Hn.
  destruct (Qle_bool (2 ^ 1024) v) eqn:Ht; [discriminate|]. injection Hn as <-.
  rewrite (Qred_correct v). split; [exact Hv|].
  apply Qnot_le_lt. intros Hc. apply Qle_bool_iff in Hc. congruence.
Qed.

Lemma nearest_finite (x : Q) :
  (0 < x)%Q -> (2 ^ (-1022) <= x)%Q -> (x * (1 + half_ulp) < 2 ^ 1024)%Q ->
  exists a, PyFloat.nearest x = Some a.
Proof.
  intros Hx Hmin Hmax. destruct (nearest_value x Hx Hmin) as (v & Hv & ->).
  destruct (Qle_bool (2 ^ 1024) v) eqn:Ht; [|eauto].
  apply Qle_bool_iff in Ht. lra.
Qed.

Lemma of_Q_pos (x : Q) :
  (0 < x)%Q ->
  PyFloat.of_Q x
  = match PyFloat.nearest x with Some v => Finite v | None => Inf false end.
Proof.
  intros Hx. unfold PyFloat.of_Q. destruct x as [[|n|n] d]; try reflexivity;
    unfold Qlt in Hx; cbn in Hx; lia.
Qed.

(** [n / 100.0] for an integer above 30, when it does not overflow: a
    finite float, not below 0.3 whatever the two roundings do. *)
Lemma int_truediv_above (n : Z) (f : pyfloat) :
  30 < n ->
  PyFloat.int_truediv n 100 = inr f ->
  exists q, f = Finite q /\ (3 # 10 <= q)%Q.
Proof.
  intros Hn. unfold PyFloat.int_truediv, PyFloat.of_int.
  assert (Hx : (31 <= inject_Z n)%Q).
  { change 31%Q with (inject_Z 31). rewrite <- Zle_Qle. lia. }
  assert (Hsmall : (2 ^ (-1022) <= 1 # 4)%Q).
  { change (1 # 4)%Q with (2 ^ (-2))%Q. apply Qpower_le_compat_l; [lia | discriminate]. }
  rewrite of_Q_pos by lra.
  destruct (PyFloat.nearest (inject_Z n)) as [a|] eqn:Ha; [|discriminate].
  assert (Hpos : (0 < inject_Z n)%Q) by lra.
  assert (Hmin : (2 ^ (-1022) <= inject_Z n)%Q) by lra.
  destruct (nearest_bounds _ _ Hpos Hmin Ha) as [[Ha1 Ha2] Ha3].
  unfold half_ulp in *.
  assert (Hapos : (30 < a)%Q) by lra.
  assert (Hdiv : (a / 100 == a * (1 # 100))%Q) by (field; discriminate).
  assert (Hpos2 : (0 < a / 100)%Q) by (rewrite Hdiv; lra).
  assert (Hmin2 : (2 ^ (-1022) <= a / 100)%Q) by (rewrite Hdiv; lra).
  rewrite of_Q_pos by exact Hpos2.
  destruct (nearest_finite (a / 100) Hpos2 Hmin2) as [q Hq].
  { rewrite Hdiv. unfold half_ulp. lra. }
  rewrite Hq. intros [= <-]. exists q. split; [reflexivity|].
  destruct (nearest_bounds _ _ Hpos2 Hmin2 Hq) as [[Hq1 _] _].
  rewrite Hdiv in Hq1. unfold half_ulp in Hq1. lra.
Qed.

(** *** The loop over the rows *)

(** A turn of the loop leaves the elements as they are or appends a
    fragment of its row. *)
Lemma row_inv (data : ocr_data) (i : nat) (acc frags : list pyval) :
  OCRProcessor.row data i acc = inr frags ->
  frags = acc
  \/ exists f, frags = (acc ++ [f])%list /\ fragment_of_row data i f.
Proof.
  unfold OCRProcessor.row, OCRProcessor.at_index. intros Hrow.
  destruct (ocr_text data !! i) as [raw|] eqn:Hraw; [|discriminate].
  destruct (ocr_conf data !! i) as [c|] eqn:Hc; [|discriminate].
  destruct (PyInt.int c) as [e|conf] eqn:Hint; [discriminate|].
  destruct (30 <? conf) eqn:Hconf; cbn [andb] in Hrow;
    [|injection Hrow as <-; now left].
  destruct (Py.truthy (PyStr (PyStr.strip raw))) eqn:Htext;
    [|injection Hrow as <-; now left].
  destruct (ocr_left data !! i) as [x|], (ocr_top data !! i) as [y|],
           (ocr_width data !! i) as [w|], (ocr_height data !! i) as [h|];
    try discriminate.
  unfold OCRProcessor.element in Hrow.
  destruct (PyFloat.int_truediv conf 100) as [e|unit_conf] eqn:Hdiv; [discriminate|].
  injection Hrow as <-. right. eexists. split; [reflexivity|].
  exists raw, c, conf, unit_conf. eexists.
  apply Z.ltb_lt in Hconf. cbn in Htext. apply negb_true_iff in Htext.
  repeat split; try reflexivity; try assumption.
  intros Hempty. rewrite Hempty in Htext. discriminate.
Qed.

(** A fragment of a row has the entries of a kept fragment. *)
Lemma fragment_of_row_kept (data : ocr_data) (i : nat) (f : pyval) :
  fragment_of_row data i f -> kept_fragment f.
Proof.
  intros (raw & c & conf & unit_conf & d & _ & _ & _ & Hconf & Hdiv & -> & Htext
          & Hne & Hentry).
  destruct (int_truediv_above conf unit_conf Hconf Hdiv) as (q & -> & Hq).
  exists d, (PyStr.strip raw), q.
  repeat split; try assumption. apply strip_idem.
Qed.

Lemma rows_inv (P : pyval -> Prop) (data : ocr_data) (range : list nat)
    (acc frags : list pyval) :
  (forall i f, fragment_of_row data i f -> P f) ->
  OCRProcessor.rows data range acc = inr frags ->
  Forall P acc -> Forall P frags.
Proof.
  intros HP. revert acc.
  induction range as [|i range IH]; intros acc Hrows Hacc; cbn in Hrows.
  - now injection Hrows as <-.
  - destruct (OCRProcessor.row data i acc) as [e|acc'] eqn:Hrow; [discriminate|].
    apply (IH acc' Hrows).
    destruct (row_inv data i acc acc' Hrow) as [-> | (f & -> & Hf)]; [exact Hacc|].
    apply Forall_app. split; [exact Hacc|].
    constructor; [exact (HP i f Hf) | constructor].
Qed.

Lemma rows_kept (data : ocr_data) (range : list nat) (acc frags : list pyval) :
  OCRProcessor.rows data range acc = inr frags ->
  Forall kept_fragment acc -> Forall kept_fragment frags.
Proof. apply rows_inv, fragment_of_row_kept. Qed.

(** [extract_text_with_boxes], by the outcome of the engine and of the
    loop. *)
Lemma extract_text_with_boxes_cases (E : Env) (image : ndarray) (st : PyState) :
  OCRProcessor.extract_text_with_boxes E image st =
  match env_image_to_data E image (events st) with
  | inl e =>
      (inr [], after st [Call pytesseract_image_to_data;
                         Log WARNING ("OCR processing failed (Tesseract not available): "
                                      ++ exn_msg e)])
  | inr data =>
      match OCRProcessor.rows data (seq 0 (length (ocr_text data))) [] with
      | inl e =>
          (inr [], after st [Call pytesseract_image_to_data;
                             Log WARNING ("OCR processing failed (Tesseract not available): "
                                          ++ exn_msg e)])
      | inr elements => (inr elements, after st [Call pytesseract_image_to_data])
      end
  end.
Proof.
  unfold OCRProcessor.extract_text_with_boxes, try_except, bind, ask, lift, log,
    emit, ret, raise, after.
  destruct (env_image_to_data E image (events st)) as [e|data]; [finish_run|].
  destruct (OCRProcessor.rows data _ []) as [e|elements]; finish_run.
Qed.

(** C4.  [extract_text_with_boxes] always returns a list and raises
    nothing.  Every fragment in it is a dict whose [text] entry is not empty
    and has no blank at either end, and whose [confidence] entry is a finite
    float not below 0.3.  It comes from a row of the table the engine
    returned: the row's confidence is an integer above 30 on the engine's
    scale, the fragment's text is the row's text stripped, its confidence
    the row's divided by [100.0].  When the engine raises, or the loop over
    the table does, the list is empty and one warning is logged. *)
Theorem extract_text_with_boxes_filters (E : Env) (image : ndarray) (st : PyState) :
  exists fragments st',
    OCRProcessor.extract_text_with_boxes E image st = (inr fragments, st')
    /\ Forall kept_fragment fragments
    /\ (forall data,
          env_image_to_data E image (events st) = inr data ->
          Forall (fun f => exists i, fragment_of_row data i f) fragments)
    /\ (forall e, env_image_to_data E image (events st) = inl e ->
          fragments = []
          /\ st' = after st
               [Call pytesseract_image_to_data;
                Log WARNING ("OCR processing failed (Tesseract not available): "
                             ++ exn_msg e)])
    /\ (forall data e,
          env_image_to_data E image (events st) = inr data ->
          OCRProcessor.rows data (seq 0 (length (ocr_text data))) [] = inl e ->
          fragments = []
          /\ st' = after st
               [Call pytesseract_image_to_data;
                Log WARNING ("OCR processing failed (Tesseract not available): "
                             ++ exn_msg e)]).
Proof.
  rewrite extract_text_with_boxes_cases.
  destruct (env_image_to_data E image (events st)) as [e|data].
  - eexists _, _. split; [reflexivity|]. split; [constructor|].
    split; [discriminate|].
    split; [|discriminate]. intros e' He. simplify_eq. split; reflexivity.
  - destruct (OCRProcessor.rows data _ []) as [e|elements] eqn:Hrows.
    + eexists _, _. split; [reflexivity|]. split; [constructor|].
      split; [constructor|].
      split; [discriminate|]. intros data' e' Hd He. simplify_eq.
      rewrite Hrows in He. simplify_eq. split; reflexivity.
    + eexists _, _. split; [reflexivity|].
      split; [eapply rows_kept; [exact Hrows | constructor]|].
      split.
      { intros data' Hd. simplify_eq.
        eapply (rows_inv (fun f => exists i, fragment_of_row data' i f));
          [eauto | exact Hrows | constructor]. }
      split; [discriminate|]. intros data' e' Hd He. simplify_eq.
      rewrite Hrows in He. discriminate.
Qed.

Lemma extract_text_with_boxes_filters_witness :
  (exists fragments st',
     OCRProcessor.extract_text_with_boxes Sample.working Sample.frame empty_state
     = (inr fragments, st')
     /\ length fragments = 2%nat
     /\ Forall kept_fragment fragments
     /\ Forall (fun f => exists i, fragment_of_row Sample.table i f) fragments)
  /\ exists fragments st',
       OCRProcessor.extract_text_with_boxes Sample.no_tesseract Sample.frame
         empty_state
       = (inr fragments, st')
       /\ fragments = []
       /\ st' = MkPyState
                  [ Call pytesseract_image_to_data;
                    Log WARNING ("OCR processing failed (Tesseract not available): "
                                 ++ "tesseract is not installed") ]
                  None.
Proof.
  split.
  - destruct (extract_text_with_boxes_filters Sample.working Sample.frame empty_state)
      as (fragments & st' & Hrun & Hkept & Hrows & _).
    exists fragments, st'. split; [exact Hrun|].
    split; [|split; [exact Hkept | exact (Hrows Sample.table eq_refl)]].
    vm_compute in Hrun. injection Hrun as <- _. reflexivity.
  - destruct (extract_text_with_boxes_filters Sample.no_tesseract Sample.frame
                empty_state)
      as (fragments & st' & Hrun & _ & _ & Herr & _).
    exists fragments, st'. split; [exact Hrun|].
    exact (Herr (Exn LibraryError "tesseract is not installed") eq_refl).
Defined.

(** On the sample table the rows kept are the first and the third: the
    second has no text once stripped, the fourth has confidence 30.  The
    confidences are the floats nearest to 0.96 and 0.31. *)
Example extract_text_with_boxes_sample :
  fst (OCRProcessor.extract_text_with_boxes Sample.working Sample.frame empty_state)
  = inr [ PyDict [ ("text", PyStr "OK");
                   ("bbox", PyTuple [PyInt 10; PyInt 20; PyInt 40; PyInt 16]);
                   ("confidence",
                    PyFloat (Finite (1080863910568919 # 1125899906842624)));
                   ("coordinates", PyTuple [PyInt 30; PyInt 28]) ];
          PyDict [ ("text", PyStr "Cancel");
                   ("bbox", PyTuple [PyInt 100; PyInt 20; PyInt 61; PyInt 16]);
                   ("confidence",
                    PyFloat (Finite (5584463537939415 # 18014398509481984)));
                   ("coordinates", PyTuple [PyInt 130; PyInt 28]) ] ].
Proof. vm_compute. reflexivity. Qed.

(** ** [analyze_current_screen] *)

(** [capture_screen()] as the orchestrator calls it, by the outcome of the
    grab and of the colour conversion. *)
Lemma capture_screen_cases (E : Env) (st : PyState) :
  ScreenCapture.capture_screen E ScreenCapture.init FULL_SCREEN st =
  match env_grab E None (events st) with
  | inl e =>
      (inr None, after st [Call (ImageGrab_grab None);
                           Log ERROR ("Screen capture failed: " ++ exn_msg e)])
  | inr screenshot =>
      match env_cvtColor E COLOR_RGB2BGR screenshot
              (events st ++ [Call (ImageGrab_grab None)]) with
      | inl e =>
          (inr None, after st [Call (ImageGrab_grab None);
                               Call (cv2_cvtColor COLOR_RGB2BGR);
                               Log ERROR ("Screen capture failed: " ++ exn_msg e)])
      | inr screenshot_cv =>
          (inr (Some screenshot_cv),
           after st [Call (ImageGrab_grab None); Call (cv2_cvtColor COLOR_RGB2BGR)])
      end
  end.
Proof.
  unfold ScreenCapture.capture_screen, ScreenCapture.grab, try_except, bind, ask,
    log, emit, ret, after.
  destruct (env_grab E None (events st)) as [e|shot]; [finish_run|].
  cbn [events last_analysis].
  destruct (env_cvtColor E COLOR_RGB2BGR shot _) as [e|cv]; finish_run.
Qed.

(** The events of a failed capture: calls of the frame source and one error
    record. *)
Lemma capture_screen_none (E : Env) (st st1 : PyState) :
  ScreenCapture.capture_screen E ScreenCapture.init FULL_SCREEN st = (inr None, st1) ->
  exists new,
    st1 = after st new
    /\ (forall c, In (Call c) new -> stage_of c = FrameSource)
    /\ (exists msg, In (Log ERROR msg) new).
Proof.
  rewrite capture_screen_cases.
  destruct (env_grab E None (events st)) as [e|shot].
  - intros [= <-]. eexists. split; [reflexivity|]. split.
    + intros c [H|[H|[]]]; now inversion H.
    + eexists. right. left. reflexivity.
  - destruct (env_cvtColor E COLOR_RGB2BGR shot _) as [e|cv]; [|discriminate].
    intros [= <-]. eexists. split; [reflexivity|]. split.
    + intros c [H|[H|[H|[]]]]; now inversion H.
    + eexists. right. right. left. reflexivity.
Qed.

(** C5.  When [capture_screen] returns no frame, [analyze_current_screen]
    returns the capture failure at once: the state it ends in is the state
    the capture left, whose new events are calls of the frame source and the
    error record of the capture, so that the preprocessor, the text
    detector, the encoder and the model have not been called. *)
Theorem analyze_current_screen_capture_failure (E : Env) (st st1 : PyState) :
  ScreenCapture.capture_screen E ScreenCapture.init FULL_SCREEN st = (inr None, st1) ->
  AIScreenReader.analyze_current_screen E st
  = (inr (PyDict [("error", PyStr "Failed to capture screen")]), st1)
  /\ exists new,
       st1 = after st new
       /\ forall c, In (Call c) new ->
            stage_of c = FrameSource
            /\ stage_of c <> Preprocessor /\ stage_of c <> TextDetector
            /\ stage_of c <> SceneInterpreter.
Proof.
  intros Hcap. split.
  - unfold AIScreenReader.analyze_current_screen, try_except, bind. now rewrite Hcap.
  - destruct (capture_screen_none E st st1 Hcap) as (new & -> & Hcalls & _).
    exists new. split; [reflexivity|].
    intros c Hc. rewrite (Hcalls c Hc). repeat split; discriminate.
Qed.

Lemma analyze_current_screen_capture_failure_witness :
  AIScreenReader.analyze_current_screen Sample.no_screen empty_state
  = (inr (PyDict [("error", PyStr "Failed to capture screen")]),
     MkPyState [ Call (ImageGrab_grab None);
                 Log ERROR "Screen capture failed: screen grab failed" ] None).
Proof.
  refine (proj1 (analyze_current_screen_capture_failure Sample.no_screen
                   empty_state _ _)).
  reflexivity.
Defined.

(** [analyze_current_screen] always returns, and what it returns has one of
    the two shapes; in the second, the interpretation is what
    [interpret_screen_context] returned for the empty intent. *)
Lemma analyze_current_screen_shape (E : Env) (st : PyState) :
  exists result st',
    AIScreenReader.analyze_current_screen E st = (inr result, st')
    /\ result_shape result
    /\ forall interpretation,
         Schema.field result "interpretation" PyNone = interpretation ->
         interpretation <> PyNone ->
         exists b64 st5 st6,
           LLMInterface.interpret_screen_context E b64 (PyStr EmptyString) st5
           = (inr interpretation, st6).
Proof.
  assert (Herr : forall (msg : string) (st' : PyState),
             exists (result : pyval) (st'' : PyState),
               (@inr exn pyval (error_result msg), st') = (inr result, st'')
               /\ result_shape result
               /\ forall interpretation,
                    Schema.field result "interpretation" PyNone = interpretation ->
                    interpretation <> PyNone ->
                    exists b64 st5 st6,
                      LLMInterface.interpret_screen_context E b64 (PyStr EmptyString) st5
                      = (inr interpretation, st6)).
  { intros msg st'. eexists _, _. split; [reflexivity|]. split; [constructor|].
    cbn. intros i <- Hi. now contradiction Hi. }
  unfold AIScreenReader.analyze_current_screen, try_except, bind.
  destruct (ScreenCapture.capture_screen E _ _ st) as [[e|[shot|]] st1];
    [apply Herr | | apply Herr].
  destruct (ScreenCapture.preprocess_image E shot st1) as [[e|img] st2];
    [apply Herr|].
  destruct (OCRProcessor.extract_text_with_boxes E img st2) as [[e|elements] st3];
    [apply Herr|].
  unfold ask at 1.
  destruct (env_imencode_b64 E shot (events st3)) as [e|b64]; [apply Herr|].
  destruct (LLMInterface.analyze_screen_elements E elements b64 _)
    as [[e|commands] st5]; [apply Herr|].
  destruct (LLMInterface.interpret_screen_context E b64 (PyStr EmptyString) st5)
    as [[e|interpretation] st6] eqn:Hint; [apply Herr|].
  unfold LLMInterface.get_detailed_analysis, read_last_analysis, bind, ret, ask, lift.
  destruct interpretation as [ |b|z|f|s|l|l|d]; try apply Herr.
  cbn. eexists _, _. split; [reflexivity|]. split.
  - apply (shape_analysis _ elements commands (PyDict d) _ b64).
  - cbn. intros i <- _. eauto.
Qed.

(** C9.  Whatever [analyze_current_screen] returns, the failure dict or the
    analysis, has no key [success]; the test [result.get('success', True)]
    of the command-line scripts therefore holds on every result, and their
    [else] branch is never taken. *)
Theorem analyze_current_screen_has_no_success_key (E : Env) (st : PyState) :
  exists d st',
    AIScreenReader.analyze_current_screen E st = (inr (PyDict d), st')
    /\ Py.dict_lookup "success" d = None
    /\ Py.get (PyDict d) "success" (PyBool true) = inr (PyBool true)
    /\ Cli.main_branch (PyDict d) = inr Cli.PrintResults.
Proof.
  destruct (analyze_current_screen_shape E st) as (result & st' & Hrun & Hshape & _).
  destruct Hshape; eexists _, st'; (split; [exact Hrun|]); repeat split.
Qed.

(** ** The fallback interpretation and the summary built from it *)

(** C10.  The fallback interpretation has exactly the keys [screen_type],
    [primary_elements], [suggested_actions], [context] and [confidence], and
    so none of [application_name], [current_context], [visible_elements];
    [interpret_screen_context] returns it whenever its model call fails.
    When the interpretation in the result of [analyze_current_screen] is the
    fallback, the summary reads screen type "unknown", application
    "Unknown", context "Screen analysis" (the default of the missing
    [current_context]; the fallback's own [context] entry is not read) and
    confidence 0.60. *)
Theorem fallback_interpretation_summary (E : Env) (st : PyState) :
  (exists fb,
     LLMInterface._get_fallback_interpretation = PyDict fb
     /\ Py.dict_keys fb
        = ["screen_type"; "primary_elements"; "suggested_actions"; "context";
           "confidence"]
     /\ Py.dict_lookup "application_name" fb = None
     /\ Py.dict_lookup "current_context" fb = None
     /\ Py.dict_lookup "visible_elements" fb = None)
  /\ (forall b64 user_intent st0 f,
        model_failure E
          (ContextPrompt (if Py.truthy user_intent then user_intent
                          else PyStr "General screen analysis")) b64 st0 = Some f ->
        fst (LLMInterface.interpret_screen_context E b64 user_intent st0)
        = inr LLMInterface._get_fallback_interpretation)
  /\ (forall d st',
        AIScreenReader.analyze_current_screen E st = (inr (PyDict d), st') ->
        Py.dict_lookup "interpretation" d
        = Some LLMInterface._get_fallback_interpretation ->
        exists found generated,
          Py.dict_lookup "summary" d
          = Some (PyDict [ ("screen_type", PyStr "unknown");
                           ("application", PyStr "Unknown");
                           ("context", PyStr "Screen analysis");
                           ("elements_found", PyInt found);
                           ("commands_generated", PyInt generated);
                           ("confidence", hundredths 60) ])).
Proof.
  split; [eexists; repeat split|]. split.
  - intros b64 user_intent st0 f Hf.
    rewrite interpret_screen_context_cases. unfold model_failure in Hf.
    destruct (env_Image_open E b64 (events st0)) as [e|image]; [reflexivity|].
    destruct (env_generate_content E _ image _) as [e|text]; [reflexivity|].
    destruct (env_json_loads E _) as [e|data]; [reflexivity | discriminate].
  - intros d st' Hrun Hint.
    destruct (analyze_current_screen_shape E st) as (result & st'' & Hrun' & Hshape & _).
    rewrite Hrun in Hrun'. injection Hrun' as Hres _.
    destruct Hshape as [msg | ts elements commands interp detailed b64].
    + injection Hres as ->. discriminate.
    + injection Hres as ->. cbn in Hint. injection Hint as ->.
      eexists _, _. reflexivity.
Qed.

Lemma fallback_interpretation_summary_witness :
  exists d st',
    AIScreenReader.analyze_current_screen Sample.no_model empty_state = (inr (PyDict d), st')
    /\ Py.dict_lookup "summary" d
       = Some (PyDict [ ("screen_type", PyStr "unknown");
                        ("application", PyStr "Unknown");
                        ("context", PyStr "Screen analysis");
                        ("elements_found", PyInt 2);
                        ("commands_generated", PyInt 3);
                        ("confidence", hundredths 60) ]).
Proof.
  destruct (AIScreenReader.analyze_current_screen Sample.no_model empty_state)
    as [[e|[ |b|z|f|s|l|l|d]] st'] eqn:Hrun;
    try (vm_compute in Hrun; discriminate).
  exists d, st'. split; [reflexivity|].
  destruct (proj2 (proj2 (fallback_interpretation_summary Sample.no_model empty_state))
              d st' Hrun) as (found & generated & Hsum).
  - vm_compute in Hrun. injection Hrun as <- _. reflexivity.
  - rewrite Hsum. vm_compute in Hrun. injection Hrun as <- _.
    vm_compute in Hsum. injection Hsum as <- <-. reflexivity.
Defined.

(** ** The monitoring lifecycle *)

Section MonitorFacts.
Variable E : Env.

Import AIScreenReader.

Lemma pc_of_set_pc_eq (m : AIScreenReader.t) (tid : nat) (pc : loop_pc) (th : thread) :
  threads m !! tid = Some th -> pc_of (set_pc tid pc m) tid = Some pc.
Proof.
  intros Hth. unfold pc_of, set_pc. cbn [threads].
  rewrite list_lookup_alter_eq, Hth. reflexivity.
Qed.

Lemma pc_of_set_pc_ne (m : AIScreenReader.t) (tid u : nat) (pc : loop_pc) :
  u <> tid -> pc_of (set_pc tid pc m) u = pc_of m u.
Proof.
  intros Hne. unfold pc_of, set_pc. cbn [threads].
  rewrite list_lookup_alter_ne by congruence. reflexivity.
Qed.

(** What a step does, action by action. *)
Lemma step_inv (a : action) (m m' : AIScreenReader.t) (st st' : PyState) :
  step E a (m, st) = Some (m', st') ->
  match a with
  | StartMonitoring interval =>
      caller m = Ready
      /\ m' = Mk true (Some (length (threads m)))
                 (threads m ++ [MkThread interval AtCheck]) Ready
  | StopRequest =>
      caller m = Ready
      /\ m' = Mk false (capture_thread m) (threads m) (Joining (capture_thread m))
  | StopReturn =>
      exists joined,
        caller m = Joining joined /\ joinable m joined = true
        /\ m' = Mk (is_running m) (capture_thread m) (threads m) Ready
  | LoopStep tid =>
      exists th pc,
        threads m !! tid = Some th /\ th_pc th <> Exited
        /\ m' = set_pc tid pc m
        /\ (th_pc th = AtCheck -> pc = if is_running m then InCycle else Exited)
  end.
Proof.
  unfold step. destruct a as [interval| | |tid].
  - destruct (caller m) eqn:Hc; [|discriminate].
    unfold start_monitoring, bind, log, emit, ret. cbn.
    intros [= <- <-]. now rewrite Hc.
  - destruct (caller m) eqn:Hc; [|discriminate].
    unfold stop_request. intros [= <- <-]. auto.
  - destruct (caller m) as [|joined] eqn:Hc; [discriminate|].
    destruct (joinable m joined) eqn:Hj; [|discriminate].
    unfold stop_return, bind, log, emit, ret. cbn.
    intros [= <- <-]. eauto.
  - assert (Hloop : loop_step E tid m st = Some (m', st') ->
                    exists th pc,
                      threads m !! tid = Some th /\ th_pc th <> Exited
                      /\ m' = set_pc tid pc m
                      /\ (th_pc th = AtCheck ->
                          pc = if is_running m then InCycle else Exited)).
    { unfold loop_step. destruct (threads m !! tid) as [th|]; [|discriminate].
      destruct (th_pc th) eqn:Hpc; [| |discriminate].
      - intros [= <- <-]. exists th, (if is_running m then InCycle else Exited).
        rewrite Hpc. repeat split; auto; discriminate.
      - destruct (monitoring_cycle E (th_interval th) st) as [[e|[]] st1];
          intros [= <- <-]; eexists th, _; rewrite Hpc;
          repeat split; auto; discriminate. }
    destruct (caller m); exact Hloop.
Qed.



Lemma step_waits_for_handle (a : action) (s s' : AIScreenReader.t * PyState) :
  step E a s = Some s' -> waits_for_handle (fst s) -> waits_for_handle (fst s').
Proof.
  destruct s as [m st], s' as [m' st']. cbn [fst]. intros Hstep Hw.
  apply step_inv in Hstep. destruct a as [interval| | |u].
  - destruct Hstep as [_ ->]. intros j. cbn. discriminate.
  - destruct Hstep as [_ ->]. intros j. cbn. intros [= <-]. auto.
  - destruct Hstep as (j & _ & _ & ->). intros j'. cbn. discriminate.
  - destruct Hstep as (th & pc & _ & _ & -> & _). exact Hw.
Qed.


Lemma step_only_handle_live
    (a : action) (started : bool) (s s' : AIScreenReader.t * PyState) :
  step E a s = Some s' ->
  single_start started [a] = true ->
  waits_for_handle (fst s) -> only_handle_live started (fst s) ->
  only_handle_live (started_after started a) (fst s').
Proof.
  destruct s as [m st], s' as [m' st']. cbn [fst]. intros Hstep Hdisc Hw Hlive.
  apply step_inv in Hstep. destruct a as [interval| | |u]; cbn [started_after].
  - destruct Hstep as [_ ->]. cbn in Hdisc. rewrite andb_true_r in Hdisc.
    apply negb_true_iff in Hdisc. subst started.
    intros tid th. cbn. intros Hth Hnot. split; [reflexivity|].
    destruct (decide (tid < length (threads m))%nat) as [Hlt|Hge].
    + rewrite lookup_app_l in Hth by exact Hlt.
      destruct (Hlive tid th Hth Hnot) as [[=] _].
    + apply lookup_lt_Some in Hth. rewrite length_app in Hth. cbn in Hth.
      f_equal. lia.
  - destruct Hstep as [_ ->]. exact Hlive.
  - destruct Hstep as (j & Hc & Hj & ->).
    intros tid th. cbn. intros Hth Hnot. exfalso.
    destruct (Hlive tid th Hth Hnot) as [_ Hcap].
    destruct (Hw j Hc) as [-> _]. rewrite Hcap in Hj.
    unfold joinable, pc_of in Hj. rewrite Hth in Hj. cbn in Hj.
    destruct (th_pc th); congruence.
  - destruct Hstep as (th & pc & Hth & Hnot & -> & _).
    intros tid th'. unfold set_pc. cbn [threads capture_thread].
    destruct (decide (u = tid)) as [->|Hne].
    + intros _ _. exact (Hlive tid th Hth Hnot).
    + rewrite list_lookup_alter_ne by exact Hne. apply Hlive.
Qed.

Lemma run_only_handle_live
    (acts : list action) (started : bool) (s s' : AIScreenReader.t * PyState) :
  run E acts s = Some s' ->
  single_start started acts = true ->
  waits_for_handle (fst s) -> only_handle_live started (fst s) ->
  only_handle_live (fold_left started_after acts started) (fst s').
Proof.
  revert started s. induction acts as [|a acts IH]; intros started s; cbn [run].
  - now intros [= <-].
  - destruct (step E a s) as [s1|] eqn:Hstep; [|discriminate].
    intros Hrun Hdisc Hw Hlive. cbn [fold_left].
    apply (IH (started_after started a) s1 Hrun).
    + destruct a; cbn in Hdisc |- *; try exact Hdisc.
      now apply andb_true_iff in Hdisc as [_ Hdisc].
    + eapply step_waits_for_handle; eauto.
    + apply (step_only_handle_live a started s s1 Hstep); auto.
      destruct a; cbn in Hdisc |- *; try reflexivity.
      apply andb_true_iff in Hdisc as [-> _]. reflexivity.
Qed.




Lemma run_app (acts1 acts2 : list action) (s : AIScreenReader.t * PyState) :
  run E (acts1 ++ acts2) s
  = match run E acts1 s with
    | Some s' => run E acts2 s'
    | None => None
    end.
Proof.
  revert s. induction acts1 as [|a acts1 IH]; intros s; cbn; [reflexivity|].
  destruct (step E a s) as [s1|]; [apply IH | reflexivity].
Qed.


End MonitorFacts.

Lemma live_loops_app (m : AIScreenReader.t) (l : list AIScreenReader.thread) :
  length (List.filter AIScreenReader.is_live (AIScreenReader.threads m ++ l))
  = (AIScreenReader.live_loops m + length (List.filter AIScreenReader.is_live l))%nat.
Proof. unfold AIScreenReader.live_loops. now rewrite List.filter_app, length_app. Qed.

(** C6, as amended.  [start_monitoring] has no test of [is_running].  In
    every state the object can reach with its caller free, a call goes
    through: it sets the flag, starts one more loop thread and moves
    [capture_thread] to it.  The loops that were live before the call are
    live after it, one more than before; each of them has lost the handle,
    so that no [stop_monitoring] will wait for it, and can take its next
    step.  So a call made while a loop is live leaves two loops running side
    by side. *)
Theorem start_monitoring_spawns_loop
    (E : Env) (acts : list AIScreenReader.action) (st0 : PyState)
    (m : AIScreenReader.t) (st : PyState) (interval : pyval) :
  AIScreenReader.run E acts (AIScreenReader.init, st0) = Some (m, st) ->
  AIScreenReader.caller m = AIScreenReader.Ready ->
  exists m' st',
    AIScreenReader.run E (acts ++ [AIScreenReader.StartMonitoring interval])
      (AIScreenReader.init, st0)
    = Some (m', st')
    /\ AIScreenReader.is_running m' = true
    /\ AIScreenReader.capture_thread m' = Some (length (AIScreenReader.threads m))
    /\ AIScreenReader.threads m'
       = (AIScreenReader.threads m
          ++ [AIScreenReader.MkThread interval AIScreenReader.AtCheck])%list
    /\ AIScreenReader.live_loops m' = S (AIScreenReader.live_loops m)
    /\ forall tid th,
         AIScreenReader.threads m !! tid = Some th ->
         AIScreenReader.is_live th = true ->
         AIScreenReader.threads m' !! tid = Some th
         /\ AIScreenReader.capture_thread m' <> Some tid
         /\ exists s'',
              AIScreenReader.step E (AIScreenReader.LoopStep tid) (m', st') = Some s''.
Proof.
  intros Hrun Hc. rewrite run_app, Hrun. cbn [AIScreenReader.run].
  unfold AIScreenReader.step at 1. rewrite Hc.
  unfold AIScreenReader.start_monitoring, bind, log, emit, ret. cbn.
  eexists _, _. split; [reflexivity|]. cbn.
  split; [reflexivity|]. split; [reflexivity|]. split; [reflexivity|]. split.
  { unfold AIScreenReader.live_loops at 1. cbn [AIScreenReader.threads].
    rewrite live_loops_app. unfold AIScreenReader.live_loops. cbn. lia. }
  intros tid th Hth Hlive.
  pose proof (lookup_lt_Some _ _ _ Hth) as Hlt.
  assert (Hth' : (AIScreenReader.threads m
                  ++ [AIScreenReader.MkThread interval AIScreenReader.AtCheck])%list
                 !! tid = Some th)
    by (now rewrite lookup_app_l).
  split; [exact Hth'|]. split; [intros [= Heq]; lia|].
  unfold AIScreenReader.step, AIScreenReader.loop_step.
  cbn [AIScreenReader.caller AIScreenReader.threads AIScreenReader.is_running].
  rewrite Hth'. unfold AIScreenReader.is_live in Hlive.
  destruct (AIScreenReader.th_pc th); [eauto | | discriminate].
  destruct (AIScreenReader.monitoring_cycle E _ _) as [[e|u] st1]; eauto.
Qed.

Lemma start_monitoring_spawns_loop_witness :
  exists m' st',
    AIScreenReader.run Sample.working
      [ AIScreenReader.StartMonitoring Sample.two_seconds; AIScreenReader.LoopStep 0;
        AIScreenReader.StartMonitoring Sample.two_seconds ]
      (AIScreenReader.init, empty_state)
    = Some (m', st')
    /\ AIScreenReader.live_loops m' = 2%nat.
Proof.
  destruct (start_monitoring_spawns_loop Sample.working
              [ AIScreenReader.StartMonitoring Sample.two_seconds;
                AIScreenReader.LoopStep 0 ]
              empty_state
              (AIScreenReader.Mk true (Some 0%nat)
                 [AIScreenReader.MkThread Sample.two_seconds AIScreenReader.InCycle]
                 AIScreenReader.Ready)
              (MkPyState [Log INFO "Screen monitoring started"] None)
              Sample.two_seconds eq_refl eq_refl)
    as (m' & st' & Hrun & _ & _ & _ & Hlive & _).
  exists m', st'. split; [exact Hrun | exact Hlive].
Defined.

(** C6, as stated, fails: after two calls of [start_monitoring] with no stop
    in between there are two live loops, and both can be inside the loop
    body at the same time. *)
Lemma second_start_spawns_second_loop :
  exists m st,
    AIScreenReader.run Sample.working
      [ AIScreenReader.StartMonitoring (PyFloat (Finite (Qmake 2 1)));
        AIScreenReader.StartMonitoring (PyFloat (Finite (Qmake 2 1)));
        AIScreenReader.LoopStep 0; AIScreenReader.LoopStep 1 ]
      (AIScreenReader.init, empty_state) = Some (m, st)
    /\ AIScreenReader.live_loops m = 2%nat
    /\ AIScreenReader.pc_of m 0 = Some AIScreenReader.InCycle
    /\ AIScreenReader.pc_of m 1 = Some AIScreenReader.InCycle.
Proof. eexists _, _. repeat split; vm_compute; reflexivity. Qed.

Lemma step_loop_step (E : Env) (tid : nat) (m : AIScreenReader.t) (st : PyState) :
  AIScreenReader.step E (AIScreenReader.LoopStep tid) (m, st) = AIScreenReader.loop_step E tid m st.
Proof. unfold AIScreenReader.step. now destruct (AIScreenReader.caller m). Qed.

Lemma step_stop_return (E : Env) (m : AIScreenReader.t) (st : PyState) (joined : option nat) :
  AIScreenReader.caller m = AIScreenReader.Joining joined ->
  AIScreenReader.joinable m joined = true ->
  AIScreenReader.step E AIScreenReader.StopReturn (m, st)
  = Some (AIScreenReader.Mk (AIScreenReader.is_running m) (AIScreenReader.capture_thread m)
            (AIScreenReader.threads m) AIScreenReader.Ready,
          after st [Log INFO "Screen monitoring stopped"]).
Proof. intros Hc Hj. unfold AIScreenReader.step. now rewrite Hc, Hj. Qed.

(** Once the flag is down, the joined thread finishes within two of its own
    steps (the end of the loop body, the test of the flag), after which
    [stop_monitoring] returns. *)
Lemma stop_monitoring_can_return
    (E : Env) (m : AIScreenReader.t) (st : PyState) (tid : nat) (th : AIScreenReader.thread) :
  AIScreenReader.caller m = AIScreenReader.Joining (Some tid) ->
  AIScreenReader.is_running m = false ->
  AIScreenReader.threads m !! tid = Some th ->
  exists n s',
    (n <= 2)%nat
    /\ AIScreenReader.run E
         (repeat (AIScreenReader.LoopStep tid) n ++ [AIScreenReader.StopReturn])
         (m, st)
       = Some s'
    /\ AIScreenReader.caller (fst s') = AIScreenReader.Ready.
Proof.
  intros Hc Hflag Hth.
  assert (Hret : forall m1 st1,
             AIScreenReader.caller m1 = AIScreenReader.Joining (Some tid) ->
             AIScreenReader.pc_of m1 tid = Some AIScreenReader.Exited ->
             exists s', AIScreenReader.run E [AIScreenReader.StopReturn] (m1, st1) = Some s'
                        /\ AIScreenReader.caller (fst s') = AIScreenReader.Ready).
  { intros m1 st1 Hc1 Hpc1. cbn [AIScreenReader.run].
    rewrite (step_stop_return E m1 st1 (Some tid) Hc1)
      by (unfold AIScreenReader.joinable; now rewrite Hpc1).
    eauto. }
  assert (Hcheck : forall m1 st1 th1,
             AIScreenReader.caller m1 = AIScreenReader.Joining (Some tid) ->
             AIScreenReader.is_running m1 = false ->
             AIScreenReader.threads m1 !! tid = Some th1 ->
             AIScreenReader.th_pc th1 = AIScreenReader.AtCheck ->
             exists s',
               AIScreenReader.run E
                 [AIScreenReader.LoopStep tid; AIScreenReader.StopReturn] (m1, st1)
               = Some s'
                        /\ AIScreenReader.caller (fst s') = AIScreenReader.Ready).
  { intros m1 st1 th1 Hc1 Hf1 Hth1 Hpc1.
    change (AIScreenReader.run E [AIScreenReader.LoopStep tid; AIScreenReader.StopReturn] (m1, st1))
      with (match AIScreenReader.step E (AIScreenReader.LoopStep tid) (m1, st1) with
            | Some s' => AIScreenReader.run E [AIScreenReader.StopReturn] s'
            | None => None
            end).
    rewrite step_loop_step. unfold AIScreenReader.loop_step. rewrite Hth1, Hpc1, Hf1.
    apply Hret; [exact Hc1 | eapply pc_of_set_pc_eq; eauto]. }
  destruct (AIScreenReader.th_pc th) eqn:Hpc.
  - destruct (Hcheck m st th Hc Hflag Hth Hpc) as (s' & Hrun & Hr).
    exists 1%nat, s'. split; [lia|]. split; [exact Hrun | exact Hr].
  - destruct (AIScreenReader.monitoring_cycle E (AIScreenReader.th_interval th) st)
      as [[e|[]] st1] eqn:Hcycle.
    + destruct (Hret (AIScreenReader.set_pc tid AIScreenReader.Exited m) st1) as (s' & Hrun & Hr);
        [exact Hc | eapply pc_of_set_pc_eq; eauto |].
      exists 1%nat, s'. split; [lia|]. split; [|exact Hr].
      change (repeat (AIScreenReader.LoopStep tid) 1 ++ [AIScreenReader.StopReturn])%list
        with [AIScreenReader.LoopStep tid; AIScreenReader.StopReturn].
      change (AIScreenReader.run E [AIScreenReader.LoopStep tid; AIScreenReader.StopReturn] (m, st))
        with (match AIScreenReader.step E (AIScreenReader.LoopStep tid) (m, st) with
              | Some s' => AIScreenReader.run E [AIScreenReader.StopReturn] s'
              | None => None
              end).
      rewrite step_loop_step. unfold AIScreenReader.loop_step. rewrite Hth, Hpc, Hcycle.
      exact Hrun.
    + destruct (Hcheck (AIScreenReader.set_pc tid AIScreenReader.AtCheck m) st1
                  (AIScreenReader.MkThread (AIScreenReader.th_interval th) AIScreenReader.AtCheck))
        as (s' & Hrun & Hr); [exact Hc | exact Hflag | | reflexivity |].
      { unfold AIScreenReader.set_pc. cbn [AIScreenReader.threads].
        rewrite list_lookup_alter_eq, Hth. reflexivity. }
      exists 2%nat, s'. split; [lia|]. split; [|exact Hr].
      change (repeat (AIScreenReader.LoopStep tid) 2 ++ [AIScreenReader.StopReturn])%list
        with [AIScreenReader.LoopStep tid; AIScreenReader.LoopStep tid; AIScreenReader.StopReturn].
      change (AIScreenReader.run E [AIScreenReader.LoopStep tid; AIScreenReader.LoopStep tid;
                             AIScreenReader.StopReturn] (m, st))
        with (match AIScreenReader.step E (AIScreenReader.LoopStep tid) (m, st) with
              | Some s' =>
                  AIScreenReader.run E [AIScreenReader.LoopStep tid; AIScreenReader.StopReturn] s'
              | None => None
              end).
      rewrite step_loop_step. unfold AIScreenReader.loop_step. rewrite Hth, Hpc, Hcycle.
      exact Hrun.
  - destruct (Hret m st) as (s' & Hrun & Hr);
      [exact Hc | unfold AIScreenReader.pc_of; rewrite Hth; cbn; now rewrite Hpc |].
    exists 0%nat, s'. split; [lia|]. split; [exact Hrun | exact Hr].
Qed.




(** ** The request handlers *)

Lemma initialize_keeps_none (E : Env) (req : App.request) (app app' : App.t) (r : App.reply) :
  App.initialize_screen_reader E req app = (r, app') ->
  App.initialized (App.Initialize, r) = false ->
  App.screen_reader app = None -> App.screen_reader app' = None.
Proof.
  unfold App.initialize_screen_reader, App.handler.
  destruct (bind _ _ (App.py app)) as [[e|[reader|]] st1].
  - unfold bind, log, emit, ret. cbn. now intros [= <- <-].
  - intros [= <- <-]. discriminate.
  - now intros [= <- <-].
Qed.

Lemma serve_not_initialized
    (E : Env) (ep : App.analysis_endpoint) (req : App.request) (app : App.t) :
  App.screen_reader app = None ->
  App.serve E ep req app = (App.not_initialized, app).
Proof.
  intros Hnone.
  destruct ep; cbn; unfold App.analyze_screen_detailed, App.explain_screen,
    App.start_monitoring, App.stop_monitoring; now rewrite Hnone.
Qed.

Lemma session_keeps_none
    (E : Env) (rs : list (App.route * App.request)) (app : App.t) :
  App.screen_reader app = None ->
  existsb App.initialized (fst (App.session E rs app)) = false ->
  App.screen_reader (snd (App.session E rs app)) = None
  /\ forall ep r, In (App.Analysis ep, r) (fst (App.session E rs app)) ->
                  r = App.not_initialized.
Proof.
  revert app. induction rs as [|[rt req] rs IH]; intros app Hnone; cbn [App.session].
  - intros _. split; [exact Hnone | intros ep r []].
  - destruct (App.handle E rt req app) as [r app1] eqn:Hh.
    destruct (App.session E rs app1) as [replies app2] eqn:Hs.
    cbn [fst snd existsb]. intros Hno. apply orb_false_iff in Hno as [Hr Hno].
    assert (Hnone1 : App.screen_reader app1 = None
                     /\ forall ep, rt = App.Analysis ep -> r = App.not_initialized).
    { destruct rt as [| |ep|]; cbn in Hh.
      - unfold App.health_check in Hh. injection Hh as <- <-.
        split; [exact Hnone | discriminate].
      - split; [eapply initialize_keeps_none; eauto | discriminate].
      - rewrite (serve_not_initialized E ep req app Hnone) in Hh.
        injection Hh as <- <-. split; [exact Hnone | reflexivity].
      - unfold App.get_dashboard_stats in Hh. injection Hh as <- <-.
        split; [exact Hnone | discriminate]. }
    destruct Hnone1 as [Hnone1 Hrep].
    specialize (IH app1 Hnone1). rewrite Hs in IH. cbn [fst snd] in IH.
    destruct (IH Hno) as [Hnone2 Hall].
    split; [exact Hnone2|].
    intros ep r' [[= -> ->]|Hin]; [now apply (Hrep ep) | now apply (Hall ep)].
Qed.

(** C8.  While the module's [screen_reader] is [None], each of the four
    routes that need it ([/api/analyze/detailed], [/api/explain],
    [/api/monitor/start], [/api/monitor/stop]) answers with the JSON body
    [{"error": "Screen reader not initialized"}] and status 400, and changes
    nothing.  That is the case from the start of the process and as long as
    no [/api/initialize] has answered 200: in a session without one, every
    reply of those routes is that error. *)
Theorem analysis_endpoints_need_reader
    (E : Env) (rs : list (App.route * App.request))
    (ep : App.analysis_endpoint) (req : App.request) :
  existsb App.initialized (fst (App.session E rs App.init)) = false ->
  let app := snd (App.session E rs App.init) in
  App.screen_reader app = None
  /\ App.serve E ep req app
     = (App.Reply (PyDict [("error", PyStr "Screen reader not initialized")]) 400, app)
  /\ App.analyze_screen_detailed E app
     = (App.Reply (PyDict [("error", PyStr "Screen reader not initialized")]) 400, app)
  /\ forall ep' r, In (App.Analysis ep', r) (fst (App.session E rs App.init)) ->
                   App.status_of r = Some 400%nat.
Proof.
  intros Hno app.
  destruct (session_keeps_none E rs App.init eq_refl Hno) as [Hnone Hall].
  split; [exact Hnone|]. split; [now apply serve_not_initialized|].
  split; [apply (serve_not_initialized E App.AnalyzeDetailed req app Hnone)|].
  intros ep' r Hin. now rewrite (Hall ep' r Hin).
Qed.

Lemma analysis_endpoints_need_reader_witness :
  App.analyze_screen_detailed Sample.working
    (snd (App.session Sample.working
            [ (App.Health, App.MkRequest (inr PyNone));
              (App.Initialize, App.MkRequest (inr (PyDict [])));
              (App.Analysis App.MonitorStart, App.MkRequest (inr (PyDict []))) ]
            App.init))
  = (App.Reply (PyDict [("error", PyStr "Screen reader not initialized")]) 400,
     App.init).
Proof.
  exact (proj1 (proj2 (proj2
           (analysis_endpoints_need_reader Sample.working
              [ (App.Health, App.MkRequest (inr PyNone));
                (App.Initialize, App.MkRequest (inr (PyDict [])));
                (App.Analysis App.MonitorStart, App.MkRequest (inr (PyDict []))) ]
              App.AnalyzeDetailed (App.MkRequest (inr PyNone)) eq_refl)))).
Defined.

(** * Properties of the rest of the code *)

(** ** Stripping *)

Section StripBy.
Variable p : ascii -> bool.

Lemma lstrip_by_app_all (a s : string) :
  PyChars.all_chars p a = true ->
  PyChars.lstrip_by p (a ++ s) = PyChars.lstrip_by p s.
Proof.
  induction a as [|c a IH]; cbn; [reflexivity|].
  intros H. apply andb_true_iff in H as [-> H]. auto.
Qed.

Lemma rstrip_by_all (a : string) :
  PyChars.all_chars p a = true -> PyChars.rstrip_by p a = EmptyString.
Proof.
  induction a as [|c a IH]; cbn; [reflexivity|].
  intros H. apply andb_true_iff in H as [Hc H]. now rewrite (IH H), Hc.
Qed.

Lemma rstrip_by_app_all (s a : string) :
  PyChars.all_chars p a = true ->
  PyChars.rstrip_by p (s ++ a) = PyChars.rstrip_by p s.
Proof.
  intros H. induction s as [|c s IH]; cbn.
  - now apply rstrip_by_all.
  - now rewrite IH.
Qed.

Lemma lstrip_by_fixed (s : string) (c : ascii) :
  PyChars.first_char s = Some c -> p c = false -> PyChars.lstrip_by p s = s.
Proof. destruct s; cbn; [discriminate|]. now intros [= ->] ->. Qed.

Lemma rstrip_by_fixed (s : string) (c : ascii) :
  PyChars.last_char s = Some c -> p c = false -> PyChars.rstrip_by p s = s.
Proof.
  induction s as [|x s IH]; [discriminate|].
  destruct s as [|y s].
  - cbn. now intros [= ->] ->.
  - intros Hl Hc. change (PyChars.last_char (String x (String y s)))
      with (PyChars.last_char (String y s)) in Hl.
    change (PyChars.rstrip_by p (String x (String y s)))
      with (match PyChars.rstrip_by p (String y s) with
            | EmptyString => if p x then EmptyString else String x EmptyString
            | r => String x r
            end).
    now rewrite (IH Hl Hc).
Qed.

(** Padding made of characters of the set is removed, and nothing else,
    when the text itself starts and ends outside the set. *)
Lemma strip_by_padded (a s b : string) :
  PyChars.all_chars p a = true -> PyChars.all_chars p b = true ->
  s <> EmptyString -> PyChars.clean_ends p s = true ->
  PyChars.strip_by p (a ++ s ++ b) = s.
Proof.
  intros Ha Hb Hs Hends. unfold PyChars.strip_by, PyChars.clean_ends in *.
  rewrite (lstrip_by_app_all a _ Ha).
  destruct (PyChars.first_char s) as [x|] eqn:Hf; [|now destruct s].
  destruct (PyChars.last_char s) as [y|] eqn:Hl.
  2: { destruct s as [|c s]; [contradiction|]. exfalso. clear -Hl.
       revert c Hl. induction s as [|d s IH]; intros c; cbn; [discriminate|].
       apply IH. }
  apply andb_true_iff in Hends as [Hx Hy].
  apply negb_true_iff in Hx, Hy.
  rewrite (lstrip_by_fixed (s ++ b) x); [|now destruct s|exact Hx].
  rewrite (rstrip_by_app_all s b Hb). now apply (rstrip_by_fixed s y).
Qed.

(** What [strip] leaves starts and ends outside the set. *)
Lemma lstrip_by_first (s : string) (c : ascii) :
  PyChars.first_char (PyChars.lstrip_by p s) = Some c -> p c = false.
Proof.
  induction s as [|x s IH]; cbn; [discriminate|].
  destruct (p x) eqn:Hx; [exact IH|]. cbn. now intros [= <-].
Qed.

Lemma rstrip_by_first (s : string) (c : ascii) :
  PyChars.first_char (PyChars.rstrip_by p s) = Some c ->
  PyChars.first_char s = Some c.
Proof.
  destruct s as [|x s]; cbn; [discriminate|].
  destruct (PyChars.rstrip_by p s); [destruct (p x)|]; cbn; congruence.
Qed.

Lemma rstrip_by_last (s : string) (c : ascii) :
  PyChars.last_char (PyChars.rstrip_by p s) = Some c -> p c = false.
Proof.
  induction s as [|x s IH]; [discriminate|].
  change (PyChars.rstrip_by p (String x s))
    with (match PyChars.rstrip_by p s with
          | EmptyString => if p x then EmptyString else String x EmptyString
          | r => String x r
          end).
  destruct (PyChars.rstrip_by p s) as [|y r] eqn:Hr.
  - destruct (p x) eqn:Hx; cbn; [discriminate | now intros [= <-]].
  - exact IH.
Qed.

Lemma strip_by_clean_ends (s : string) :
  PyChars.clean_ends p (PyChars.strip_by p s) = true.
Proof.
  unfold PyChars.clean_ends, PyChars.strip_by.
  destruct (PyChars.first_char _) as [a|] eqn:Hf; [|reflexivity].
  destruct (PyChars.last_char _) as [b|] eqn:Hl; [|reflexivity].
  apply rstrip_by_first, lstrip_by_first in Hf. apply rstrip_by_last in Hl.
  now rewrite Hf, Hl.
Qed.

End StripBy.

(** [str.strip()] is [strip] by the blanks. *)
Lemma strip_is_strip_by (s : string) :
  PyStr.strip s = PyChars.strip_by PyStr.isspace s.
Proof.
  unfold PyStr.strip, PyChars.strip_by.
  assert (Hl : forall t, PyStr.lstrip t = PyChars.lstrip_by PyStr.isspace t).
  { induction t as [|c t IH]; cbn; [reflexivity|]. now rewrite IH. }
  assert (Hr : forall t, PyStr.rstrip t = PyChars.rstrip_by PyStr.isspace t).
  { induction t as [|c t IH]; cbn; [reflexivity|]. now rewrite IH. }
  now rewrite Hl, Hr.
Qed.

Lemma first_char_app (a s : string) :
  PyChars.first_char (a ++ s)
  = match PyChars.first_char a with
    | Some c => Some c
    | None => PyChars.first_char s
    end.
Proof. now destruct a. Qed.

Lemma last_char_some (s : string) :
  s <> EmptyString -> exists c, PyChars.last_char s = Some c.
Proof.
  induction s as [|x s IH]; [contradiction|]. intros _.
  destruct s; [now exists x|]. apply IH. discriminate.
Qed.

Lemma last_char_app (s b : string) :
  PyChars.last_char (s ++ b)
  = match PyChars.last_char b with
    | Some c => Some c
    | None => PyChars.last_char s
    end.
Proof.
  induction s as [|x s IH]; [cbn; now destruct (PyChars.last_char b)|].
  cbn [append]. destruct (s ++ b) as [|y r] eqn:Hsb.
  - destruct s; [|discriminate]. cbn in Hsb. subst b. reflexivity.
  - change (PyChars.last_char (String x (String y r)))
      with (PyChars.last_char (String y r)).
    rewrite IH. destruct (PyChars.last_char b) eqn:Hlb; [reflexivity|].
    destruct s; [|reflexivity]. cbn in Hsb. subst b.
    destruct (last_char_some (String y r)) as [c Hc]; [discriminate|]. congruence.
Qed.

Lemma all_chars_first (q : ascii -> bool) (a : string) (c : ascii) :
  PyChars.all_chars q a = true -> PyChars.first_char a = Some c -> q c = true.
Proof. destruct a; cbn; [discriminate|]. intros H [= <-]. now apply andb_true_iff in H. Qed.

Lemma all_chars_last (q : ascii -> bool) (a : string) (c : ascii) :
  PyChars.all_chars q a = true -> PyChars.last_char a = Some c -> q c = true.
Proof.
  induction a as [|x a IH]; [discriminate|]. cbn [PyChars.all_chars].
  intros H. apply andb_true_iff in H as [Hx H].
  destruct a; [cbn; now intros [= <-] | exact (IH H)].
Qed.

(** A text with clean ends keeps them when wrapped in characters that are
    themselves outside the set. *)
Lemma clean_ends_wrapped (p q : ascii -> bool) (a s b : string) :
  (forall c, q c = true -> p c = false) ->
  PyChars.all_chars q a = true -> PyChars.all_chars q b = true ->
  s <> EmptyString -> PyChars.clean_ends p s = true ->
  PyChars.clean_ends p (a ++ s ++ b) = true /\ a ++ s ++ b <> EmptyString.
Proof.
  intros Hqp Ha Hb Hs Hends. split.
  2: { destruct a; [|discriminate]. destruct s; [contradiction | discriminate]. }
  unfold PyChars.clean_ends in *.
  destruct s as [|x s]; [contradiction|].
  destruct (last_char_some (String x s) Hs) as [y Hy].
  rewrite Hy in Hends. cbn [PyChars.first_char] in Hends.
  apply andb_true_iff in Hends as [Hx Hy'].
  rewrite first_char_app.
  replace (a ++ String x s ++ b) with ((a ++ String x s) ++ b)
    by apply str_app_assoc.
  rewrite last_char_app, last_char_app, Hy.
  assert (Hfirst : exists c, match PyChars.first_char a with
                             | Some c => Some c
                             | None => PyChars.first_char (String x s ++ b)
                             end = Some c /\ p c = false).
  { destruct (PyChars.first_char a) as [c|] eqn:Hf.
    - exists c. split; [reflexivity|]. apply Hqp, (all_chars_first q a c Ha Hf).
    - exists x. split; [reflexivity|]. now apply negb_true_iff. }
  destruct Hfirst as (c & -> & Hc).
  destruct (PyChars.last_char b) as [d|] eqn:Hl.
  - rewrite Hc. cbn. apply negb_true_iff, Hqp, (all_chars_last q b d Hb Hl).
  - now rewrite Hc, Hy'.
Qed.

(** ** [load_api_key] *)

Lemma quote_is_no_blank (c : ascii) :
  PyChars.is_quote c = true -> PyStr.isspace c = false.
Proof.
  unfold PyChars.is_quote, PyStr.isspace. intros H.
  apply orb_true_iff in H as [H|H]; apply N.eqb_eq in H; now rewrite H.
Qed.

(** On a line that starts with the variable's name, the value is everything
    after the first [=], and taking the key does not raise. *)
Lemma key_of_matching_line (rest : string) :
  DotEnv.key_of_line ("GOOGLE_API_KEY=" ++ rest)
  = inr (PyChars.strip_by PyChars.is_quote (PyStr.strip rest)).
Proof. reflexivity. Qed.

Lemma startswith_split (p line : string) :
  PyStr.startswith line p = true ->
  line = p ++ PyStr.drop (String.length p) line.
Proof.
  unfold PyStr.startswith. revert line.
  induction p as [|a p IH]; intros line; [now destruct line|].
  destruct line as [|b line]; cbn; [discriminate|].
  destruct (ascii_dec a b) as [->|]; [|discriminate].
  intros H. now rewrite <- (IH line H).
Qed.

Lemma startswith_app (p s : string) : PyStr.startswith (p ++ s) p = true.
Proof.
  unfold PyStr.startswith. induction p as [|a p IH]; [now destruct s|].
  cbn. now destruct (ascii_dec a a).
Qed.

Lemma scan_app_none (pre rest : list string) :
  DotEnv.scan pre = inr None -> DotEnv.scan (pre ++ rest) = DotEnv.scan rest.
Proof.
  induction pre as [|l pre IH]; cbn; [reflexivity|].
  destruct (PyStr.startswith l _); [|exact IH].
  destruct (DotEnv.key_of_line l) as [e|k]; [discriminate|].
  destruct (negb _); [discriminate | exact IH].
Qed.

(** The loop returns the key of the first line that has one, and does not
    raise. *)
Lemma scan_outcome (lines : list string) :
  DotEnv.scan lines = inr None
  \/ exists pre rest post,
       lines = (pre ++ ("GOOGLE_API_KEY=" ++ rest)%string :: post)%list
       /\ DotEnv.scan pre = inr None
       /\ PyChars.strip_by PyChars.is_quote (PyStr.strip rest) <> EmptyString
       /\ DotEnv.scan lines
          = inr (Some (PyChars.strip_by PyChars.is_quote (PyStr.strip rest))).
Proof.
  induction lines as [|l lines IH]; [now left|]. cbn [DotEnv.scan].
  destruct (PyStr.startswith l "GOOGLE_API_KEY=") eqn:Hs.
  - pose proof (startswith_split _ _ Hs) as Hl.
    set (rest := PyStr.drop _ l) in Hl. clearbody rest. subst l.
    rewrite key_of_matching_line.
    destruct (String.eqb _ EmptyString) eqn:Hk; cbn [negb].
    + destruct IH as [IH | (pre & rest' & post & -> & Hpre & Hne & Hscan)];
        [now left|]. right.
      exists (("GOOGLE_API_KEY=" ++ rest) :: pre), rest', post.
      split; [reflexivity|]. split; [|split; [exact Hne | exact Hscan]].
      cbn [DotEnv.scan]. now rewrite Hs, key_of_matching_line, Hk.
    + right. exists [], rest, lines.
      split; [reflexivity|]. split; [reflexivity|]. split; [|reflexivity].
      now apply String.eqb_neq.
  - destruct IH as [IH | (pre & rest' & post & -> & Hpre & Hne & Hscan)];
      [now left|]. right.
    exists (l :: pre), rest', post.
    split; [reflexivity|]. split; [|split; [exact Hne | exact Hscan]].
    cbn [DotEnv.scan]. now rewrite Hs.
Qed.

(** What the shared part of the two functions gives. *)
Lemma from_file_outcome (f : DotEnv.file) :
  (exists k pre rest post err,
     DotEnv.from_file f = (["Loaded API key from .env file"], Some k)
     /\ k <> EmptyString
     /\ PyChars.clean_ends PyChars.is_quote k = true
     /\ f = DotEnv.Lines (pre ++ ("GOOGLE_API_KEY=" ++ rest)%string :: post)%list err
     /\ DotEnv.scan pre = inr None
     /\ k = PyChars.strip_by PyChars.is_quote (PyStr.strip rest))
  \/ (exists out, DotEnv.from_file f = (out, None) /\ (length out <= 1)%nat).
Proof.
  unfold DotEnv.from_file.
  destruct f as [|e|lines err].
  - right. exists []. split; [reflexivity | cbn; lia].
  - right. eexists [_]. split; [reflexivity | cbn; lia].
  - destruct (scan_outcome lines)
      as [Hnone | (pre & rest & post & -> & Hpre & Hne & Hscan)].
    + rewrite Hnone. right. destruct err as [e|].
      * eexists [_]. split; [reflexivity | cbn; lia].
      * exists []. split; [reflexivity | cbn; lia].
    + rewrite Hscan. left. eexists _, pre, rest, post, err.
      split; [reflexivity|]. split; [exact Hne|].
      split; [apply strip_by_clean_ends|]. repeat split. exact Hpre.
Qed.

(** X1.  [auto_screen_analysis.load_api_key] either returns a key or leaves
    through [sys.exit(1)] after printing that no key was found; it never
    raises.  A returned key is not empty, has no quote at either end, and is
    the value of the first line of the file that starts with
    [GOOGLE_API_KEY=] and has a non-empty value: the text after the first
    [=], stripped of blanks and then of quotes. *)
Theorem load_api_key_auto_outcome (f : DotEnv.file) :
  (exists k pre rest post err,
     DotEnv.load_api_key_auto f
     = (["Loaded API key from .env file"], DotEnv.Returned k)
     /\ k <> EmptyString
     /\ PyChars.clean_ends PyChars.is_quote k = true
     /\ f = DotEnv.Lines (pre ++ ("GOOGLE_API_KEY=" ++ rest)%string :: post)%list err
     /\ DotEnv.scan pre = inr None
     /\ k = PyChars.strip_by PyChars.is_quote (PyStr.strip rest))
  \/ (exists out,
        DotEnv.load_api_key_auto f
        = ((out ++ ["API key not found in .env file!"])%list, DotEnv.SystemExit 1)
        /\ (length out <= 1)%nat).
Proof.
  unfold DotEnv.load_api_key_auto.
  destruct (from_file_outcome f)
    as [(k & pre & rest & post & err & -> & Hne & Hq & Hf & Hpre & Hk) | (out & -> & Hlen)].
  - left. exists k, pre, rest, post, err. repeat split; assumption.
  - right. exists out. now split.
Qed.

(** X2.  Round trip of the [.env] line: when the first line with a value is
    [GOOGLE_API_KEY=] followed by blanks, quotes, the key, quotes and blanks
    (the line end among them), both [load_api_key] functions return exactly
    the key, provided it is not empty and neither starts nor ends with a
    blank or a quote.  An [=] inside the key is kept; the lines after it,
    a later read error and the prompt of the desktop script play no part. *)
Theorem load_api_key_reads_back
    (pre post : list string) (ws1 ql k qr ws2 : string)
    (err : option exn) (user_input : exn + string) :
  DotEnv.scan pre = inr None ->
  PyChars.all_chars PyStr.isspace ws1 = true ->
  PyChars.all_chars PyStr.isspace ws2 = true ->
  PyChars.all_chars PyChars.is_quote ql = true ->
  PyChars.all_chars PyChars.is_quote qr = true ->
  k <> EmptyString ->
  PyChars.clean_ends PyStr.isspace k = true ->
  PyChars.clean_ends PyChars.is_quote k = true ->
  let f := DotEnv.Lines
             (pre ++ ("GOOGLE_API_KEY=" ++ ws1 ++ ql ++ k ++ qr ++ ws2)%string :: post)%list
             err in
  DotEnv.load_api_key_auto f
  = (["Loaded API key from .env file"], DotEnv.Returned k)
  /\ DotEnv.load_api_key_desktop f user_input
     = (["Loaded API key from .env file"], DotEnv.Returned k).
Proof.
  intros Hpre Hw1 Hw2 Hq1 Hq2 Hk Hkb Hkq f.
  assert (Hkey : PyChars.strip_by PyChars.is_quote
                   (PyStr.strip (ws1 ++ ql ++ k ++ qr ++ ws2)) = k).
  { rewrite strip_is_strip_by.
    destruct (clean_ends_wrapped PyStr.isspace PyChars.is_quote ql k qr
                quote_is_no_blank Hq1 Hq2 Hk Hkb) as [Hends Hne].
    replace (ws1 ++ ql ++ k ++ qr ++ ws2) with (ws1 ++ (ql ++ k ++ qr) ++ ws2)
      by (now rewrite !str_app_assoc).
    rewrite (strip_by_padded PyStr.isspace ws1 (ql ++ k ++ qr) ws2 Hw1 Hw2 Hne Hends).
    now apply strip_by_padded. }
  assert (Hscan : DotEnv.scan
                    (pre ++ ("GOOGLE_API_KEY=" ++ ws1 ++ ql ++ k ++ qr ++ ws2)%string
                         :: post)%list = inr (Some k)).
  { rewrite (scan_app_none pre _ Hpre). cbn [DotEnv.scan].
    rewrite startswith_app, key_of_matching_line, Hkey.
    apply String.eqb_neq in Hk. now rewrite Hk. }
  unfold DotEnv.load_api_key_auto, DotEnv.load_api_key_desktop, DotEnv.from_file, f.
  now rewrite Hscan.
Qed.

Lemma load_api_key_reads_back_witness :
  DotEnv.load_api_key_auto
    (DotEnv.Lines
       [ "# settings" ++ LF; "GOOGLE_API_KEY=" ++ LF;
         "GOOGLE_API_KEY= " ++ Sample.dq ++ "AIza=Sy" ++ Sample.dq ++ LF;
         "GOOGLE_API_KEY=other" ++ LF ]
       None)
  = (["Loaded API key from .env file"], DotEnv.Returned "AIza=Sy").
Proof.
  exact (proj1 (load_api_key_reads_back
                  [ "# settings" ++ LF; "GOOGLE_API_KEY=" ++ LF ]
                  [ "GOOGLE_API_KEY=other" ++ LF ]
                  " " Sample.dq "AIza=Sy" Sample.dq LF None (inr EmptyString)
                  eq_refl eq_refl eq_refl eq_refl eq_refl
                  ltac:(discriminate) eq_refl eq_refl)).
Defined.

(** X3.  [screen_analysis_desktop.load_api_key] never returns an empty key.
    A key found in the file is returned as in the other script, without a
    prompt; otherwise the returned key is the stripped answer to the
    prompt. *)
Theorem load_api_key_desktop_returns
    (f : DotEnv.file) (user_input : exn + string) (out : list string) (k : string) :
  DotEnv.load_api_key_desktop f user_input = (out, DotEnv.Returned k) ->
  k <> EmptyString
  /\ (DotEnv.load_api_key_auto f = (out, DotEnv.Returned k)
      \/ exists shown typed,
           DotEnv.load_api_key_auto f
           = ((shown ++ ["API key not found in .env file!"])%list, DotEnv.SystemExit 1)
           /\ out = (shown ++ ["Enter your Google API Key (Gemini): "])%list
           /\ user_input = inr typed
           /\ k = PyStr.strip typed).
Proof.
  unfold DotEnv.load_api_key_desktop, DotEnv.load_api_key_auto.
  destruct (DotEnv.from_file f) as [shown [key|]] eqn:Hfile.
  - intros [= <- <-]. split; [|now left].
    destruct (from_file_outcome f) as [(k' & _ & _ & _ & _ & H & Hne & _) | (o & H & _)];
      rewrite Hfile in H; [injection H as _ ->; exact Hne | discriminate].
  - destruct user_input as [e|typed]; [discriminate|].
    destruct (String.eqb (PyStr.strip typed) EmptyString) eqn:Hk; cbn [negb];
      [discriminate|].
    intros [= <- <-]. split; [now apply String.eqb_neq|].
    right. exists shown, typed. repeat split.
Qed.

Lemma load_api_key_desktop_returns_witness :
  DotEnv.load_api_key_desktop DotEnv.NoFile (inr "  AIzaKey  ")
  = (["Enter your Google API Key (Gemini): "], DotEnv.Returned "AIzaKey")
  /\ "AIzaKey" <> EmptyString.
Proof.
  split; [reflexivity|].
  exact (proj1 (load_api_key_desktop_returns DotEnv.NoFile (inr "  AIzaKey  ")
                  ["Enter your Google API Key (Gemini): "] "AIzaKey" eq_refl)).
Defined.

(** ** More on the cleaning of the response text *)

Lemma take_drop (n : nat) (s : string) : PyStr.take n s ++ PyStr.drop n s = s.
Proof.
  revert s. induction n as [|n IH]; intros s; [now destruct s|].
  destruct s as [|c s]; cbn; [reflexivity | now rewrite IH].
Qed.

Lemma endswith_last (s p : string) (c : ascii) :
  PyStr.endswith s p = true -> PyChars.last_char p = Some c ->
  PyChars.last_char s = Some c.
Proof.
  unfold PyStr.endswith. intros H Hp. apply andb_true_iff in H as [_ H].
  apply String.eqb_eq in H.
  rewrite <- (take_drop (String.length s - String.length p) s), H.
  now rewrite last_char_app, Hp.
Qed.

Lemma startswith_first (s p : string) (c : ascii) :
  PyStr.startswith s p = true -> PyChars.first_char p = Some c ->
  PyChars.first_char s = Some c.
Proof.
  intros H Hp. rewrite (startswith_split p s H), first_char_app. now rewrite Hp.
Qed.

(** X4.  The fence is cut whatever surrounds it and whatever follows the
    tag: for all blanks [ws1], [ws2] and every body, the text [ws1], the
    tagged opening fence, the body, the closing fence, [ws2] is cleaned to
    the stripped body; no line break is needed after the tag or before the
    closing fence. *)
Theorem clean_response_text_padded_fence (ws1 body ws2 : string) :
  PyChars.all_chars PyStr.isspace ws1 = true ->
  PyChars.all_chars PyStr.isspace ws2 = true ->
  LLMInterface.clean_response_text (ws1 ++ ("```json" ++ body ++ "```") ++ ws2)
  = PyStr.strip body.
Proof.
  intros Hw1 Hw2. unfold LLMInterface.clean_response_text. cbv zeta.
  assert (Hstrip : PyStr.strip (ws1 ++ ("```json" ++ body ++ "```") ++ ws2)
                   = "```json" ++ body ++ "```").
  { rewrite strip_is_strip_by.
    apply strip_by_padded; [exact Hw1 | exact Hw2 | discriminate |].
    unfold PyChars.clean_ends.
    replace ("```json" ++ body ++ "```") with (("```json" ++ body) ++ "```")
      by apply str_app_assoc.
    rewrite last_char_app. reflexivity. }
  rewrite Hstrip, startswith_app.
  change 7%nat with (String.length "```json"). rewrite drop_length_app.
  rewrite endswith_app.
  change 3%nat with (String.length "```"). now rewrite drop_last_app.
Qed.

Lemma clean_response_text_padded_fence_witness :
  LLMInterface.clean_response_text
    (" " ++ LF ++ ("```json" ++ "{}" ++ "```") ++ LF) = "{}".
Proof.
  exact (clean_response_text_padded_fence (" " ++ LF) "{}" LF eq_refl eq_refl).
Defined.

(** X5.  A response without fences passes unchanged but for the blanks
    around it: when the stripped text neither starts nor ends with a
    backtick, as every JSON document does, the cleaned text is the stripped
    text. *)
Theorem clean_response_text_unfenced (text : string) :
  PyChars.first_char (PyStr.strip text) <> Some "`"%char ->
  PyChars.last_char (PyStr.strip text) <> Some "`"%char ->
  LLMInterface.clean_response_text text = PyStr.strip text.
Proof.
  intros Hf Hl. unfold LLMInterface.clean_response_text. cbv zeta.
  destruct (PyStr.startswith (PyStr.strip text) "```json") eqn:Hs.
  { exfalso. apply Hf. now apply (startswith_first _ "```json"). }
  destruct (PyStr.endswith (PyStr.strip text) "```") eqn:He.
  { exfalso. apply Hl. now apply (endswith_last _ "```"). }
  apply strip_idem.
Qed.

Lemma clean_response_text_unfenced_witness :
  LLMInterface.clean_response_text (" " ++ Sample.actions_text ++ LF)
  = Sample.actions_text.
Proof.
  exact (clean_response_text_unfenced (" " ++ Sample.actions_text ++ LF)
           ltac:(vm_compute; discriminate) ltac:(vm_compute; discriminate)).
Defined.

(** ** [analyze_screen_elements] on responses of other shapes *)

Lemma command_of_convertible (a : pyval) :
  Shape.convertible a = true <-> exists c, LLMInterface.command_of a = inr c.
Proof.
  unfold Shape.convertible, LLMInterface.command_of, Py.get.
  destruct a as [ |b|z|f|s|l|l|ad]; cbn [and_then];
    try (split; [discriminate | now intros [c [=]]]).
  destruct (Py.dict_lookup "coordinates" ad) as [v|]; cbn [and_then].
  2: { cbn. split; eauto. }
  destruct (Py.truthy v) eqn:Hv; cbn [negb orb and_then].
  2: { split; eauto. }
  unfold Py.tuple, Py.iter, Shape.iterable.
  destruct v; cbn [and_then]; split; eauto; try discriminate;
    now intros [c [=]].
Qed.

Lemma commands_of_outcome (actions : list pyval) (acc : list ActionCommand) :
  if forallb Shape.convertible actions then
    exists commands,
      LLMInterface.commands_of actions acc = inr (acc ++ commands)%list
      /\ length commands = length actions
  else exists e, LLMInterface.commands_of actions acc = inl e.
Proof.
  revert acc. induction actions as [|a actions IH]; intros acc; cbn [forallb].
  - exists []. cbn. now rewrite app_nil_r.
  - destruct (Shape.convertible a) eqn:Ha; cbn [andb LLMInterface.commands_of].
    + apply command_of_convertible in Ha as [c ->]. cbn [and_then].
      specialize (IH (acc ++ [c])%list).
      destruct (forallb Shape.convertible actions).
      * destruct IH as (commands & -> & Hlen). exists (c :: commands).
        rewrite <- app_assoc. split; [reflexivity | cbn; now rewrite Hlen].
      * exact IH.
    + destruct (LLMInterface.command_of a) as [e|c] eqn:Hc; [now exists e|].
      assert (Shape.convertible a = true) by (apply command_of_convertible; eauto).
      congruence.
Qed.

(** X6.  A response that parses but is not a JSON object (an array, a
    string, a number, [null], ...) is answered with the fallback commands:
    the lookup of [suggested_actions] raises, the outer handler logs one
    error, whose text names the type of the value, and [last_analysis] keeps
    its old value. *)
Theorem analyze_screen_elements_non_object
    (E : Env) (elements : list pyval) (b64 : string) (st : PyState)
    (image : ndarray) (text : string) (data : pyval) :
  env_Image_open E b64 (events st) = inr image ->
  env_generate_content E ElementsPrompt image (events st ++ [Call Image_open])
  = inr text ->
  env_json_loads E (LLMInterface.clean_response_text text) = inr data ->
  Shape.is_object data = false ->
  LLMInterface.analyze_screen_elements E elements b64 st
  = (inr LLMInterface._get_fallback_commands,
     after st [ Call Image_open; Call (generate_content ElementsPrompt);
                Log ERROR ("Gemini analysis failed: '" ++ Py.type_name data
                           ++ "' object has no attribute 'get'") ]).
Proof.
  intros Himg Htext Hdata Hobj.
  rewrite analyze_screen_elements_cases, Himg, Htext, Hdata.
  destruct data; try discriminate; reflexivity.
Qed.

Lemma analyze_screen_elements_non_object_witness :
  LLMInterface.analyze_screen_elements
    (Sample.env (inr Sample.frame) (inr Sample.table) (fun _ => inr "[1]"))
    [] "anBn" empty_state
  = (inr LLMInterface._get_fallback_commands,
     MkPyState
       [ Call Image_open; Call (generate_content ElementsPrompt);
         Log ERROR "Gemini analysis failed: 'list' object has no attribute 'get'" ]
       None).
Proof.
  exact (analyze_screen_elements_non_object
           (Sample.env (inr Sample.frame) (inr Sample.table) (fun _ => inr "[1]"))
           [] "anBn" empty_state Sample.frame "[1]" (PyList [PyInt 1])
           eq_refl eq_refl eq_refl eq_refl).
Defined.

(** X7.  An object without the key [suggested_actions] gives the empty
    command list, not the fallback, and becomes [last_analysis]; the same
    key present with the value [null] gives the fallback and one error,
    since [None] cannot be iterated. *)
Theorem analyze_screen_elements_without_actions
    (E : Env) (elements : list pyval) (b64 : string) (st : PyState)
    (image : ndarray) (text : string) (d : list (string * pyval)) :
  env_Image_open E b64 (events st) = inr image ->
  env_generate_content E ElementsPrompt image (events st ++ [Call Image_open])
  = inr text ->
  env_json_loads E (LLMInterface.clean_response_text text) = inr (PyDict d) ->
  (Py.dict_lookup "suggested_actions" d = None ->
   LLMInterface.analyze_screen_elements E elements b64 st
   = (inr [],
      MkPyState (events st ++ [Call Image_open; Call (generate_content ElementsPrompt)])
        (Some (PyDict d))))
  /\ (Py.dict_lookup "suggested_actions" d = Some PyNone ->
      LLMInterface.analyze_screen_elements E elements b64 st
      = (inr LLMInterface._get_fallback_commands,
         after st [ Call Image_open; Call (generate_content ElementsPrompt);
                    Log ERROR
                      "Gemini analysis failed: 'NoneType' object is not iterable" ])).
Proof.
  intros Himg Htext Hdata.
  rewrite analyze_screen_elements_cases, Himg, Htext, Hdata.
  unfold LLMInterface.commands_from, Py.get. cbn [and_then].
  split; intros ->; reflexivity.
Qed.

Lemma analyze_screen_elements_without_actions_witness :
  fst (LLMInterface.analyze_screen_elements Sample.working [] "anBn"
         empty_state) <> inr []
  /\ fst (LLMInterface.analyze_screen_elements
            (Sample.env (inr Sample.frame) (inr Sample.table)
               (fun _ => inr Sample.context_text))
            [] "anBn" empty_state) = inr [].
Proof.
  split; [vm_compute; discriminate|].
  exact (f_equal fst
           (proj1 (analyze_screen_elements_without_actions
                     (Sample.env (inr Sample.frame) (inr Sample.table)
                        (fun _ => inr Sample.context_text))
                     [] "anBn" empty_state Sample.frame Sample.context_text
                     [("application_name", PyStr "Editor");
                      ("confidence", hundredths 95)]
                     eq_refl eq_refl eq_refl) eq_refl)).
Defined.

(** X8.  The commands are all or nothing.  When every entry of the
    [suggested_actions] array is an object whose [coordinates] are absent,
    count as false or can be iterated, there is one command per entry; as
    soon as one entry is not (a non-object, or coordinates such as a
    non-zero number or [true]), the commands built from the other entries
    are dropped, the fallback commands are returned with one error record,
    and [last_analysis] is left as it was. *)
Theorem analyze_screen_elements_all_or_nothing
    (E : Env) (elements : list pyval) (b64 : string) (st : PyState)
    (image : ndarray) (text : string) (data : pyval) (actions : list pyval) :
  env_Image_open E b64 (events st) = inr image ->
  env_generate_content E ElementsPrompt image (events st ++ [Call Image_open])
  = inr text ->
  env_json_loads E (LLMInterface.clean_response_text text) = inr data ->
  Schema.suggested_actions data = Some actions ->
  if forallb Shape.convertible actions then
    exists commands,
      LLMInterface.analyze_screen_elements E elements b64 st
      = (inr commands,
         MkPyState
           (events st ++ [Call Image_open; Call (generate_content ElementsPrompt)])
           (Some data))
      /\ length commands = length actions
  else
    exists e,
      LLMInterface.analyze_screen_elements E elements b64 st
      = (inr LLMInterface._get_fallback_commands,
         after st [ Call Image_open; Call (generate_content ElementsPrompt);
                    Log ERROR ("Gemini analysis failed: " ++ exn_msg e) ]).
Proof.
  intros Himg Htext Hdata Hacts.
  rewrite analyze_screen_elements_cases, Himg, Htext, Hdata.
  assert (Hfrom : LLMInterface.commands_from data
                  = LLMInterface.commands_of actions []).
  { unfold Schema.suggested_actions in Hacts.
    unfold LLMInterface.commands_from, Py.get.
    destruct data as [ |b|z|f|s|l|l|d]; try discriminate.
    destruct (Py.dict_lookup "suggested_actions" d) as [[ |b|z|f|s|l|l|d']|];
      try discriminate.
    now injection Hacts as ->. }
  rewrite Hfrom. pose proof (commands_of_outcome actions []) as Hout.
  destruct (forallb Shape.convertible actions).
  - destruct Hout as (commands & -> & Hlen). exists commands. now split.
  - destruct Hout as (e & ->). now exists e.
Qed.

Lemma analyze_screen_elements_all_or_nothing_witness :
  exists e,
    LLMInterface.analyze_screen_elements Sample2.mixed_model [] "anBn" empty_state
    = (inr LLMInterface._get_fallback_commands,
       after empty_state
         [ Call Image_open; Call (generate_content ElementsPrompt);
           Log ERROR ("Gemini analysis failed: " ++ exn_msg e) ]).
Proof.
  exact (analyze_screen_elements_all_or_nothing Sample2.mixed_model [] "anBn"
           empty_state Sample.frame Sample2.mixed_text Sample2.mixed_value
           [ PyDict [("target", PyStr "ok")]; PyDict [("coordinates", PyInt 5)] ]
           eq_refl eq_refl eq_refl eq_refl).
Defined.

(** ** [analyze_current_screen], step by step *)

Lemma capture_screen_frame (E : Env) (st st1 : PyState) (r : exn + option ndarray) :
  ScreenCapture.capture_screen E ScreenCapture.init FULL_SCREEN st = (r, st1) ->
  last_analysis st1 = last_analysis st /\ exists shot, r = inr shot.
Proof.
  rewrite capture_screen_cases.
  destruct (env_grab E None (events st)) as [e|shot];
    [intros [= <- <-]; eauto|].
  destruct (env_cvtColor E COLOR_RGB2BGR shot _) as [e|cv];
    intros [= <- <-]; eauto.
Qed.

Lemma preprocess_image_frame (E : Env) (image : ndarray) (st st1 : PyState)
    (r : exn + ndarray) :
  ScreenCapture.preprocess_image E image st = (r, st1) ->
  last_analysis st1 = last_analysis st.
Proof.
  unfold ScreenCapture.preprocess_image, bind, ask, ret. cbn [events last_analysis].
  destruct (env_cvtColor E COLOR_BGR2GRAY image _) as [e|gray];
    [now intros [= <- <-]|].
  destruct (env_GaussianBlur E gray _) as [e|blurred]; [now intros [= <- <-]|].
  destruct (env_adaptiveThreshold E blurred _) as [e|thresh];
    [now intros [= <- <-]|].
  destruct (env_morphologyEx E thresh _) as [e|cleaned]; now intros [= <- <-].
Qed.

Lemma extract_text_with_boxes_frame (E : Env) (image : ndarray) (st st1 : PyState)
    (r : exn + list pyval) :
  OCRProcessor.extract_text_with_boxes E image st = (r, st1) ->
  last_analysis st1 = last_analysis st.
Proof.
  rewrite extract_text_with_boxes_cases.
  destruct (env_image_to_data E image (events st)) as [e|data];
    [now intros [= <- <-]|].
  destruct (OCRProcessor.rows data _ []); now intros [= <- <-].
Qed.

Lemma interpret_screen_context_frame (E : Env) (b64 : string) (user_intent : pyval)
    (st st1 : PyState) (r : exn + pyval) :
  LLMInterface.interpret_screen_context E b64 user_intent st = (r, st1) ->
  last_analysis st1 = last_analysis st.
Proof.
  rewrite interpret_screen_context_cases.
  destruct (env_Image_open E b64 (events st)) as [e|image];
    [now intros [= <- <-]|].
  destruct (env_generate_content E _ image _) as [e|text];
    [now intros [= <- <-]|].
  destruct (env_json_loads E _) as [e|data]; now intros [= <- <-].
Qed.

Lemma extract_text_with_boxes_total (E : Env) (image : ndarray) (st : PyState) :
  exists elements st',
    OCRProcessor.extract_text_with_boxes E image st = (inr elements, st').
Proof.
  rewrite extract_text_with_boxes_cases.
  destruct (env_image_to_data E image (events st)) as [e|data]; [eauto|].
  destruct (OCRProcessor.rows data _ []); eauto.
Qed.

(** The result of [analyze_current_screen] once the frame is there and the
    preprocessing and the encoding have gone through. *)
Lemma analyze_current_screen_steps
    (E : Env) (st st1 st2 st3 st5 st6 : PyState) (shot img : ndarray)
    (els : list pyval) (b64 : string) (cmds : list ActionCommand) (interp : pyval) :
  ScreenCapture.capture_screen E ScreenCapture.init FULL_SCREEN st
  = (inr (Some shot), st1) ->
  ScreenCapture.preprocess_image E shot st1 = (inr img, st2) ->
  OCRProcessor.extract_text_with_boxes E img st2 = (inr els, st3) ->
  env_imencode_b64 E shot (events st3) = inr b64 ->
  LLMInterface.analyze_screen_elements E els b64 (after st3 [Call cv2_imencode])
  = (inr cmds, st5) ->
  LLMInterface.interpret_screen_context E b64 (PyStr EmptyString) st5
  = (inr interp, st6) ->
  AIScreenReader.analyze_current_screen E st
  = if Shape.is_object interp then
      (inr (analysis_result (env_time E (events st6)) els cmds interp
              (detailed_of st6) b64),
       after st6 [Call time_time])
    else
      (inr (error_result (Py.no_get interp)),
       after st6 [Call time_time;
                  Log ERROR ("Screen analysis failed: " ++ Py.no_get interp)]).
Proof.
  intros Hcap Hpre Hocr Henc Hcmd Hint.
  unfold AIScreenReader.analyze_current_screen, try_except, bind.
  rewrite Hcap, Hpre, Hocr. unfold ask at 1. rewrite Henc.
  unfold after in Hcmd. rewrite Hcmd, Hint.
  unfold LLMInterface.get_detailed_analysis, read_last_analysis, bind, ret, ask,
    lift, detailed_of.
  destruct interp; cbn; rewrite <- ?app_assoc; reflexivity.
Qed.

(** Every run of [analyze_current_screen] ends with the failure dict, or
    has gone through all the steps and ends with the analysis. *)
Lemma analyze_current_screen_inv (E : Env) (st : PyState) :
  (exists msg st', AIScreenReader.analyze_current_screen E st
                   = (inr (error_result msg), st'))
  \/ exists shot st1 img st2 els st3 b64 cmds st5 interp st6,
       ScreenCapture.capture_screen E ScreenCapture.init FULL_SCREEN st
       = (inr (Some shot), st1)
       /\ ScreenCapture.preprocess_image E shot st1 = (inr img, st2)
       /\ OCRProcessor.extract_text_with_boxes E img st2 = (inr els, st3)
       /\ env_imencode_b64 E shot (events st3) = inr b64
       /\ LLMInterface.analyze_screen_elements E els b64 (after st3 [Call cv2_imencode])
          = (inr cmds, st5)
       /\ LLMInterface.interpret_screen_context E b64 (PyStr EmptyString) st5
          = (inr interp, st6)
       /\ Shape.is_object interp = true
       /\ AIScreenReader.analyze_current_screen E st
          = (inr (analysis_result (env_time E (events st6)) els cmds interp
                    (detailed_of st6) b64),
             after st6 [Call time_time]).
Proof.
  destruct (ScreenCapture.capture_screen E ScreenCapture.init FULL_SCREEN st)
    as [[e|[shot|]] st1] eqn:Hcap.
  - destruct (capture_screen_frame E st st1 _ Hcap) as [_ [x [=]]].
  - destruct (ScreenCapture.preprocess_image E shot st1) as [[e|img] st2] eqn:Hpre.
    { left. unfold AIScreenReader.analyze_current_screen, try_except, bind.
      rewrite Hcap, Hpre. cbn. eauto. }
    destruct (extract_text_with_boxes_total E img st2) as (els & st3 & Hocr).
    destruct (env_imencode_b64 E shot (events st3)) as [e|b64] eqn:Henc.
    { left. unfold AIScreenReader.analyze_current_screen, try_except, bind.
      rewrite Hcap, Hpre, Hocr. unfold ask at 1. rewrite Henc. cbn. eauto. }
    destruct (analyze_screen_elements_total E els b64 (after st3 [Call cv2_imencode]))
      as (cmds & st5 & Hcmd).
    destruct (interpret_screen_context_total E b64 (PyStr EmptyString) st5)
      as (interp & st6 & Hint).
    pose proof (analyze_current_screen_steps E st st1 st2 st3 st5 st6 shot img els
                  b64 cmds interp Hcap Hpre Hocr Henc Hcmd Hint) as Hrun.
    destruct (Shape.is_object interp) eqn:Hobj.
    + right. exists shot, st1, img, st2, els, st3, b64, cmds, st5, interp, st6.
      repeat split; assumption.
    + left. eauto.
  - left. unfold AIScreenReader.analyze_current_screen, try_except, bind.
    rewrite Hcap. cbn. eauto.
Qed.

Lemma analyze_screen_elements_on_failure
    (E : Env) (elements : list pyval) (b64 : string) (st : PyState) :
  model_failure E ElementsPrompt b64 st <> None ->
  exists st', LLMInterface.analyze_screen_elements E elements b64 st
              = (inr LLMInterface._get_fallback_commands, st')
              /\ last_analysis st' = last_analysis st.
Proof.
  rewrite analyze_screen_elements_cases. unfold model_failure.
  destruct (env_Image_open E b64 (events st)) as [e|image]; [eauto|].
  destruct (env_generate_content E ElementsPrompt image _) as [e|text]; [eauto|].
  destruct (env_json_loads E _) as [e|data]; [eauto | congruence].
Qed.

Lemma interpret_screen_context_on_failure
    (E : Env) (b64 : string) (st : PyState) :
  model_failure E (ContextPrompt (PyStr "General screen analysis")) b64 st <> None ->
  exists st', LLMInterface.interpret_screen_context E b64 (PyStr EmptyString) st
              = (inr LLMInterface._get_fallback_interpretation, st')
              /\ last_analysis st' = last_analysis st.
Proof.
  rewrite interpret_screen_context_cases. unfold model_failure. cbn [Py.truthy negb String.eqb].
  destruct (env_Image_open E b64 (events st)) as [e|image]; [eauto|].
  destruct (env_generate_content E _ image _) as [e|text]; [eauto|].
  destruct (env_json_loads E _) as [e|data]; [eauto | congruence].
Qed.

(** X9.  An outage of both Tesseract and the model does not fail the
    analysis.  When the frame is captured, preprocessed and encoded, the OCR
    engine raises and every model call fails (at the transport or at the
    parse), [analyze_current_screen] still returns an analysis: no
    elements, the three fallback commands, the fallback interpretation, and
    as [detailed_analysis] whatever an earlier call had left ([{}] if
    none). *)
Theorem analyze_current_screen_survives_outage
    (E : Env) (st st1 st2 : PyState) (shot img : ndarray) (b64 : string)
    (e_ocr : exn) :
  ScreenCapture.capture_screen E ScreenCapture.init FULL_SCREEN st
  = (inr (Some shot), st1) ->
  ScreenCapture.preprocess_image E shot st1 = (inr img, st2) ->
  env_image_to_data E img (events st2) = inl e_ocr ->
  (forall h, env_imencode_b64 E shot h = inr b64) ->
  (forall p st0, model_failure E p b64 st0 <> None) ->
  exists timestamp st',
    AIScreenReader.analyze_current_screen E st
    = (inr (analysis_result timestamp [] LLMInterface._get_fallback_commands
              LLMInterface._get_fallback_interpretation (detailed_of st) b64),
       st').
Proof.
  intros Hcap Hpre Hocr Henc Hfail.
  pose proof (extract_text_with_boxes_cases E img st2) as Hext.
  rewrite Hocr in Hext.
  set (st3 := after st2 _) in Hext.
  destruct (analyze_screen_elements_on_failure E [] b64
              (after st3 [Call cv2_imencode]) (Hfail ElementsPrompt _))
    as (st5 & Hcmd & Hla5).
  destruct (interpret_screen_context_on_failure E b64 st5 (Hfail _ st5))
    as (st6 & Hint & Hla6).
  rewrite (analyze_current_screen_steps E st st1 st2 st3 st5 st6 shot img [] b64
             _ _ Hcap Hpre Hext (Henc _) Hcmd Hint).
  cbn [Shape.is_object LLMInterface._get_fallback_interpretation].
  eexists _, _. f_equal. f_equal. f_equal. unfold detailed_of.
  rewrite Hla6, Hla5. subst st3. cbn [last_analysis after].
  rewrite (preprocess_image_frame E shot st1 st2 _ Hpre).
  now destruct (capture_screen_frame E st st1 _ Hcap) as [-> _].
Qed.

Lemma analyze_current_screen_survives_outage_witness :
  exists timestamp st',
    AIScreenReader.analyze_current_screen
      (Sample.env (inr Sample.frame) (Sample.unavailable "tesseract is not installed")
         (fun _ => Sample.unavailable "503 service unavailable"))
      empty_state
    = (inr (analysis_result timestamp [] LLMInterface._get_fallback_commands
              LLMInterface._get_fallback_interpretation (PyDict []) "anBn"),
       st').
Proof.
  eapply (analyze_current_screen_survives_outage
            (Sample.env (inr Sample.frame)
               (Sample.unavailable "tesseract is not installed")
               (fun _ => Sample.unavailable "503 service unavailable"))
            empty_state _ _ Sample.frame Sample.frame "anBn"
            (Exn LibraryError "tesseract is not installed")).
  - reflexivity.
  - reflexivity.
  - reflexivity.
  - reflexivity.
  - intros p st0. discriminate.
Defined.

(** X10.  A context response that parses to something other than an object
    fails the whole analysis: [interpret_screen_context] returns the value
    unchecked, the summary's [.get] raises on it, and
    [analyze_current_screen] returns the failure dict, whose message names
    the type of the value, although elements and commands had been
    obtained. *)
Theorem analyze_current_screen_non_object_context
    (E : Env) (st st1 st2 : PyState) (shot img image : ndarray) (b64 text : string)
    (v : pyval) :
  ScreenCapture.capture_screen E ScreenCapture.init FULL_SCREEN st
  = (inr (Some shot), st1) ->
  ScreenCapture.preprocess_image E shot st1 = (inr img, st2) ->
  (forall h, env_imencode_b64 E shot h = inr b64) ->
  (forall h, env_Image_open E b64 h = inr image) ->
  (forall h, env_generate_content E
               (ContextPrompt (PyStr "General screen analysis")) image h = inr text) ->
  env_json_loads E (LLMInterface.clean_response_text text) = inr v ->
  Shape.is_object v = false ->
  exists st',
    AIScreenReader.analyze_current_screen E st
    = (inr (error_result ("'" ++ Py.type_name v
                          ++ "' object has no attribute 'get'")),
       st').
Proof.
  intros Hcap Hpre Henc Himg Hgen Hparse Hobj.
  destruct (extract_text_with_boxes_total E img st2) as (els & st3 & Hocr).
  destruct (analyze_screen_elements_total E els b64 (after st3 [Call cv2_imencode]))
    as (cmds & st5 & Hcmd).
  pose proof (interpret_screen_context_cases E b64 (PyStr EmptyString) st5) as Hint.
  cbn [Py.truthy negb String.eqb] in Hint. cbv zeta in Hint.
  rewrite Himg, Hgen, Hparse in Hint.
  rewrite (analyze_current_screen_steps E st st1 st2 st3 st5 _ shot img els b64
             cmds v Hcap Hpre Hocr (Henc _) Hcmd Hint), Hobj.
  eauto.
Qed.

Lemma analyze_current_screen_non_object_context_witness :
  fst (AIScreenReader.analyze_current_screen
         (Sample.env (inr Sample.frame) (inr Sample.table)
            (fun p => match p with
                      | ElementsPrompt => inr Sample.actions_text
                      | ContextPrompt _ => inr "[1]"
                      end))
         empty_state)
  = inr (PyDict [("error", PyStr "'list' object has no attribute 'get'")]).
Proof.
  destruct (analyze_current_screen_non_object_context
              (Sample.env (inr Sample.frame) (inr Sample.table)
                 (fun p => match p with
                           | ElementsPrompt => inr Sample.actions_text
                           | ContextPrompt _ => inr "[1]"
                           end))
              empty_state _ _ Sample.frame Sample.frame Sample.frame "anBn" "[1]"
              (PyList [PyInt 1]) eq_refl eq_refl
              (fun _ => eq_refl) (fun _ => eq_refl) (fun _ => eq_refl)
              eq_refl eq_refl) as [st' ->].
  reflexivity.
Defined.

Lemma extract_text_with_boxes_kept (E : Env) (image : ndarray) (st st' : PyState)
    (elements : list pyval) :
  OCRProcessor.extract_text_with_boxes E image st = (inr elements, st') ->
  Forall kept_fragment elements.
Proof.
  rewrite extract_text_with_boxes_cases.
  destruct (env_image_to_data E image (events st)) as [e|data];
    [intros [= <- _]; constructor|].
  destruct (OCRProcessor.rows data _ []) as [e|els] eqn:Hrows;
    intros [= <- _]; [constructor|].
  eapply rows_kept; [exact Hrows | constructor].
Qed.

(** X11.  In every analysis [analyze_current_screen] returns (a result
    without the key [error]), the counts of the summary are the lengths of
    the lists beside them: [elements_found] is the number of entries of
    [elements] and [commands_generated] the number of entries of
    [commands]; and every entry of [elements] is a fragment that passed the
    filter of the text detector. *)
Theorem analyze_current_screen_counts
    (E : Env) (st st' : PyState) (d : list (string * pyval)) :
  AIScreenReader.analyze_current_screen E st = (inr (PyDict d), st') ->
  Py.dict_mem "error" d = false ->
  exists elements commands summary,
    Py.dict_lookup "elements" d = Some (PyList elements)
    /\ Py.dict_lookup "commands" d = Some (PyList commands)
    /\ Py.dict_lookup "summary" d = Some (PyDict summary)
    /\ Py.dict_lookup "elements_found" summary = Some (Py.len elements)
    /\ Py.dict_lookup "commands_generated" summary = Some (Py.len commands)
    /\ Forall kept_fragment elements.
Proof.
  intros Hrun Herr.
  destruct (analyze_current_screen_inv E st)
    as [(msg & st'' & Hrun') |
        (shot & st1 & img & st2 & els & st3 & b64 & cmds & st5 & interp & st6
         & _ & _ & Hocr & _ & _ & _ & _ & Hrun')];
    rewrite Hrun in Hrun'; injection Hrun' as -> _.
  - discriminate.
  - eexists els, _, _. repeat split.
    + unfold Py.len. now rewrite length_map.
    + eapply extract_text_with_boxes_kept, Hocr.
Qed.

Lemma analyze_current_screen_counts_witness :
  exists d st',
    AIScreenReader.analyze_current_screen Sample.working empty_state
    = (inr (PyDict d), st')
    /\ exists elements commands summary,
         Py.dict_lookup "elements" d = Some (PyList elements)
         /\ Py.dict_lookup "commands" d = Some (PyList commands)
         /\ Py.dict_lookup "summary" d = Some (PyDict summary)
         /\ Py.dict_lookup "elements_found" summary = Some (PyInt 2)
         /\ Py.dict_lookup "commands_generated" summary = Some (PyInt 2).
Proof.
  destruct (AIScreenReader.analyze_current_screen Sample.working empty_state)
    as [[e|[ |b|z|f|s|l|l|d]] st'] eqn:Hrun;
    try (vm_compute in Hrun; discriminate).
  exists d, st'. split; [reflexivity|].
  destruct (analyze_current_screen_counts Sample.working empty_state st' d Hrun)
    as (elements & commands & summary & He & Hc & Hs & Hn & Hm & _).
  - vm_compute in Hrun. injection Hrun as <- _. reflexivity.
  - exists elements, commands, summary.
    split; [exact He|]. split; [exact Hc|]. split; [exact Hs|].
    vm_compute in Hrun. injection Hrun as <- _.
    vm_compute in He. injection He as <-.
    vm_compute in Hc. injection Hc as <-.
    split; [exact Hn | exact Hm].
Defined.

(** X12.  The [detailed_analysis] of an analysis goes with its commands in
    one of two ways.  Either the elements call parsed a response and built
    the commands from it, and [detailed_analysis] is that response; or the
    commands are the fallback commands and [detailed_analysis] is what
    [last_analysis] held before the call: the response of an earlier
    analysis, or [{}] when there has been none. *)
Theorem analyze_current_screen_detail_and_commands
    (E : Env) (st st' : PyState) (d : list (string * pyval)) :
  AIScreenReader.analyze_current_screen E st = (inr (PyDict d), st') ->
  Py.dict_mem "error" d = false ->
  (exists data commands,
     LLMInterface.commands_from data = inr commands
     /\ Py.dict_lookup "detailed_analysis" d = Some data
     /\ Py.dict_lookup "commands" d
        = Some (PyList (map AIScreenReader.command_dict commands)))
  \/ (Py.dict_lookup "detailed_analysis" d = Some (detailed_of st)
      /\ Py.dict_lookup "commands" d
         = Some (PyList (map AIScreenReader.command_dict
                           LLMInterface._get_fallback_commands))).
Proof.
  intros Hrun Herr.
  destruct (analyze_current_screen_inv E st)
    as [(msg & st'' & Hrun') |
        (shot & st1 & img & st2 & els & st3 & b64 & cmds & st5 & interp & st6
         & Hcap & Hpre & Hocr & _ & Hcmd & Hint & _ & Hrun')];
    rewrite Hrun in Hrun'; injection Hrun' as -> _; [discriminate|].
  assert (Hla3 : last_analysis (after st3 [Call cv2_imencode]) = last_analysis st).
  { cbn. rewrite (extract_text_with_boxes_frame E img st2 st3 _ Hocr).
    rewrite (preprocess_image_frame E shot st1 st2 _ Hpre).
    now destruct (capture_screen_frame E st st1 _ Hcap) as [-> _]. }
  assert (Hla6 : detailed_of st6 = detailed_of st5).
  { unfold detailed_of.
    now rewrite (interpret_screen_context_frame E b64 _ st5 st6 _ Hint). }
  cbn [analysis_result Py.dict_lookup String.eqb Ascii.eqb Bool.eqb].
  rewrite Hla6. clear Hla6 Hint Hrun.
  rewrite analyze_screen_elements_cases in Hcmd.
  assert (Hstale : forall new,
             (inr cmds, st5)
             = (@inr exn _ LLMInterface._get_fallback_commands,
                after (after st3 [Call cv2_imencode]) new) ->
             detailed_of st5 = detailed_of st
             /\ cmds = LLMInterface._get_fallback_commands).
  { intros new [= -> ->]. split; [|reflexivity].
    unfold detailed_of. cbn [last_analysis after] in *. now rewrite Hla3. }
  destruct (env_Image_open E b64 _) as [e|image].
  { right. symmetry in Hcmd. destruct (Hstale _ Hcmd) as [-> ->]. now split. }
  destruct (env_generate_content E ElementsPrompt image _) as [e|text].
  { right. symmetry in Hcmd. destruct (Hstale _ Hcmd) as [-> ->]. now split. }
  destruct (env_json_loads E _) as [e|data].
  { right. symmetry in Hcmd. destruct (Hstale _ Hcmd) as [-> ->]. now split. }
  destruct (LLMInterface.commands_from data) as [e|commands] eqn:Hfrom.
  { right. symmetry in Hcmd. destruct (Hstale _ Hcmd) as [-> ->]. now split. }
  left. injection Hcmd as <- <-. exists data, commands. now repeat split.
Qed.

Lemma analyze_current_screen_detail_and_commands_witness :
  exists d st',
    AIScreenReader.analyze_current_screen Sample.garbled_model
      (with_last_analysis Sample.actions_value) = (inr (PyDict d), st')
    /\ Py.dict_lookup "detailed_analysis" d = Some Sample.actions_value
    /\ Py.dict_lookup "commands" d
       = Some (PyList (map AIScreenReader.command_dict
                         LLMInterface._get_fallback_commands)).
Proof.
  destruct (AIScreenReader.analyze_current_screen Sample.garbled_model
              (with_last_analysis Sample.actions_value))
    as [[e|[ |b|z|f|s|l|l|d]] st'] eqn:Hrun;
    try (vm_compute in Hrun; discriminate).
  exists d, st'. split; [reflexivity|].
  destruct (analyze_current_screen_detail_and_commands Sample.garbled_model
              (with_last_analysis Sample.actions_value) st' d Hrun)
    as [(data & commands & _ & Hd & Hc) | [Hd Hc]].
  - vm_compute in Hrun. injection Hrun as <- _. reflexivity.
  - vm_compute in Hrun. injection Hrun as <- _. split; reflexivity.
  - split; [exact Hd | exact Hc].
Defined.

(** ** More on the monitoring lifecycle *)

Lemma live_none (l : list AIScreenReader.thread) :
  (forall i th, l !! i = Some th -> AIScreenReader.is_live th = true -> False) ->
  List.filter AIScreenReader.is_live l = [].
Proof.
  induction l as [|th l IH]; intros Hno; [reflexivity|]. cbn.
  destruct (AIScreenReader.is_live th) eqn:Hth.
  - destruct (Hno 0%nat th eq_refl Hth).
  - apply IH. intros i th' Hi Hl. exact (Hno (S i) th' Hi Hl).
Qed.

Lemma live_at_most_one (l : list AIScreenReader.thread) (k : nat) :
  (forall i th, l !! i = Some th -> AIScreenReader.is_live th = true -> i = k) ->
  (length (List.filter AIScreenReader.is_live l) <= 1)%nat.
Proof.
  revert k. induction l as [|th l IH]; intros k Hk; cbn; [lia|].
  destruct (AIScreenReader.is_live th) eqn:Hth.
  - assert (k = 0%nat) by (symmetry; apply (Hk 0%nat th eq_refl Hth)). subst k.
    rewrite (live_none l); [cbn; lia|].
    intros i th' Hi Hl. specialize (Hk (S i) th' Hi Hl). discriminate.
  - apply (IH (pred k)). intros i th' Hi Hl.
    specialize (Hk (S i) th' Hi Hl). lia.
Qed.

Lemma is_live_pc (th : AIScreenReader.thread) :
  AIScreenReader.is_live th = true -> AIScreenReader.th_pc th <> AIScreenReader.Exited.
Proof. unfold AIScreenReader.is_live. now destruct (AIScreenReader.th_pc th). Qed.

(** X13.  Used with one start at a time, the object runs at most one loop:
    in every state of a run in which [start_monitoring] is never called
    while an earlier call has not been answered by a returned
    [stop_monitoring], at most one loop thread is live, and it is the one
    [capture_thread] holds. *)
Theorem single_start_runs_one_loop
    (E : Env) (acts : list AIScreenReader.action) (st0 : PyState)
    (s : AIScreenReader.t * PyState) :
  AIScreenReader.run E acts (AIScreenReader.init, st0) = Some s ->
  AIScreenReader.single_start false acts = true ->
  (AIScreenReader.live_loops (fst s) <= 1)%nat
  /\ forall tid th,
       AIScreenReader.threads (fst s) !! tid = Some th ->
       AIScreenReader.is_live th = true ->
       AIScreenReader.capture_thread (fst s) = Some tid.
Proof.
  intros Hrun Hdisc.
  assert (Hlive : only_handle_live (fold_left started_after acts false) (fst s)).
  { apply (run_only_handle_live E acts false _ _ Hrun Hdisc).
    - intros j. cbn. discriminate.
    - intros u th. cbn. discriminate. }
  assert (Hcap : forall tid th,
             AIScreenReader.threads (fst s) !! tid = Some th ->
             AIScreenReader.is_live th = true ->
             AIScreenReader.capture_thread (fst s) = Some tid).
  { intros tid th Hth Hl. apply (Hlive tid th Hth). now apply is_live_pc. }
  split; [|exact Hcap].
  unfold AIScreenReader.live_loops.
  destruct (AIScreenReader.capture_thread (fst s)) as [k|] eqn:Hk.
  - apply (live_at_most_one _ k). intros i th Hth Hl.
    specialize (Hcap i th Hth Hl). congruence.
  - apply (live_at_most_one _ 0%nat). intros i th Hth Hl.
    specialize (Hcap i th Hth Hl). discriminate.
Qed.

Lemma single_start_runs_one_loop_witness :
  exists s,
    AIScreenReader.run Sample.working
      (Sample.stop_run ++ AIScreenReader.StopReturn :: Sample.restart_run)
      (AIScreenReader.init, empty_state) = Some s
    /\ (AIScreenReader.live_loops (fst s) <= 1)%nat.
Proof.
  destruct (AIScreenReader.run Sample.working
              (Sample.stop_run ++ AIScreenReader.StopReturn :: Sample.restart_run)
              (AIScreenReader.init, empty_state)) as [s|] eqn:Hrun;
    [|vm_compute in Hrun; discriminate].
  exists s. split; [reflexivity|].
  exact (proj1 (single_start_runs_one_loop Sample.working _ empty_state s Hrun eq_refl)).
Defined.

Lemma step_idle_joinable (E : Env) (a : AIScreenReader.action)
    (s s' : AIScreenReader.t * PyState) :
  AIScreenReader.step E a s = Some s' ->
  waits_for_handle (fst s) -> idle_joinable (fst s) -> idle_joinable (fst s').
Proof.
  destruct s as [m st], s' as [m' st']. cbn [fst]. intros Hstep Hw Hidle.
  apply step_inv in Hstep. destruct a as [interval| | |u].
  - destruct Hstep as [_ ->]. intros _. cbn. discriminate.
  - destruct Hstep as [_ ->]. intros Hc. cbn in Hc. discriminate.
  - destruct Hstep as (j & Hc & Hj & ->). intros _ _.
    destruct (Hw j Hc) as [-> _]. exact Hj.
  - destruct Hstep as (th & pc & Hth & Hlive & -> & _).
    intros Hc Hf. specialize (Hidle Hc Hf).
    unfold AIScreenReader.joinable in *. cbn [AIScreenReader.capture_thread AIScreenReader.set_pc].
    destruct (AIScreenReader.capture_thread m) as [t|]; [|reflexivity].
    destruct (decide (t = u)) as [->|Hne].
    + unfold AIScreenReader.pc_of in Hidle. rewrite Hth in Hidle. cbn in Hidle.
      destruct (AIScreenReader.th_pc th); congruence.
    + change (AIScreenReader.Mk (AIScreenReader.is_running m) (Some t)
                (alter (fun th0 => AIScreenReader.MkThread
                                     (AIScreenReader.th_interval th0) pc) u
                   (AIScreenReader.threads m)) (AIScreenReader.caller m))
        with (AIScreenReader.set_pc u pc
                (AIScreenReader.Mk (AIScreenReader.is_running m) (Some t)
                   (AIScreenReader.threads m) (AIScreenReader.caller m))).
      rewrite pc_of_set_pc_ne by exact Hne. exact Hidle.
Qed.

Lemma run_idle_joinable (E : Env) (acts : list AIScreenReader.action)
    (s s' : AIScreenReader.t * PyState) :
  AIScreenReader.run E acts s = Some s' ->
  waits_for_handle (fst s) -> idle_joinable (fst s) ->
  waits_for_handle (fst s') /\ idle_joinable (fst s').
Proof.
  revert s. induction acts as [|a acts IH]; intros s; cbn.
  - intros [= <-]. auto.
  - destruct (AIScreenReader.step E a s) as [s1|] eqn:Hstep; [|discriminate].
    intros Hrun Hw Hidle. apply (IH s1 Hrun).
    + eapply step_waits_for_handle; eauto.
    + eapply step_idle_joinable; eauto.
Qed.

(** X14.  A [stop_monitoring] called when nothing is running returns at
    once.  In every state a run can reach with the caller free and the flag
    down (before any start, or after an earlier stop has returned), the
    request and the return of [stop_monitoring] go through back to back,
    without a step of any thread in between, and leave the threads as they
    were. *)
Theorem stop_monitoring_when_idle
    (E : Env) (acts : list AIScreenReader.action) (st0 : PyState)
    (m : AIScreenReader.t) (st : PyState) :
  AIScreenReader.run E acts (AIScreenReader.init, st0) = Some (m, st) ->
  AIScreenReader.caller m = AIScreenReader.Ready ->
  AIScreenReader.is_running m = false ->
  AIScreenReader.run E [AIScreenReader.StopRequest; AIScreenReader.StopReturn] (m, st)
  = Some (m, after st [Log INFO "Screen monitoring stopped"]).
Proof.
  intros Hrun Hc Hf.
  destruct (run_idle_joinable E acts _ _ Hrun) as [_ Hidle].
  { intros j. cbn. discriminate. }
  { intros _ _. reflexivity. }
  specialize (Hidle Hc Hf). cbn [fst] in Hidle.
  cbn [AIScreenReader.run]. unfold AIScreenReader.step at 1. rewrite Hc.
  rewrite (step_stop_return E (AIScreenReader.stop_request m) st
             (AIScreenReader.capture_thread m) eq_refl Hidle).
  destruct m as [running handle ths cl]. cbn in *. now subst.
Qed.

Lemma stop_monitoring_when_idle_witness :
  AIScreenReader.run Sample.working
    [AIScreenReader.StopRequest; AIScreenReader.StopReturn]
    (AIScreenReader.init, empty_state)
  = Some (AIScreenReader.init,
          after empty_state [Log INFO "Screen monitoring stopped"]).
Proof.
  exact (stop_monitoring_when_idle Sample.working [] empty_state
           AIScreenReader.init empty_state eq_refl eq_refl eq_refl).
Defined.

(** Whatever happens in a turn of the loop, the last thing the turn does is
    a [time.sleep(interval)], and the turn ends as that call ends. *)
Lemma monitoring_cycle_ends_with_sleep (E : Env) (interval : pyval) (st : PyState) :
  exists st1,
    AIScreenReader.monitoring_cycle E interval st
    = AIScreenReader.sleep E interval st1.
Proof.
  unfold AIScreenReader.monitoring_cycle, try_except.
  match goal with
  | |- context [match ?body st with _ => _ end] =>
      destruct (body st) as [[e|[]] stb] eqn:Hbody
  end.
  - unfold bind, log, emit. eauto.
  - unfold bind in Hbody.
    destruct (ScreenCapture.capture_screen E _ _ st) as [[e|[shot|]] st1];
      [discriminate | | eauto].
    destruct (ScreenCapture.preprocess_image E shot st1) as [[e|img] st2];
      [discriminate|].
    destruct (OCRProcessor.extract_text_with_boxes E img st2) as [[e|els] st3];
      [discriminate|].
    destruct (ask cv2_imencode _ st3) as [[e|b64] st4]; [discriminate|].
    destruct (LLMInterface.analyze_screen_elements E els b64 st4)
      as [[e|cmds] st5]; [discriminate|].
    destruct (log INFO _ st5) as [[e|[]] st6]; [discriminate|].
    eauto.
Qed.

(** X15.  A failure inside a turn of the monitoring loop does not end the
    loop.  As long as [time.sleep] accepts the interval, a thread that is
    inside the loop body comes back to the test of the flag, whatever the
    capture, the OCR engine and the model do, and the last thing it has done
    is to sleep for the interval. *)
Theorem monitoring_loop_survives_failures
    (E : Env) (m : AIScreenReader.t) (st : PyState) (tid : nat)
    (th : AIScreenReader.thread) :
  (forall h, env_sleep E (AIScreenReader.th_interval th) h = inr tt) ->
  AIScreenReader.threads m !! tid = Some th ->
  AIScreenReader.th_pc th = AIScreenReader.InCycle ->
  exists st1,
    AIScreenReader.step E (AIScreenReader.LoopStep tid) (m, st)
    = Some (AIScreenReader.set_pc tid AIScreenReader.AtCheck m,
            after st1 [Call (time_sleep (AIScreenReader.th_interval th))]).
Proof.
  intros Hsleep Hth Hpc.
  destruct (monitoring_cycle_ends_with_sleep E (AIScreenReader.th_interval th) st)
    as [st1 Hcycle].
  exists st1. rewrite step_loop_step. unfold AIScreenReader.loop_step.
  rewrite Hth, Hpc, Hcycle. unfold AIScreenReader.sleep, ask.
  now rewrite Hsleep.
Qed.

Lemma monitoring_loop_survives_failures_witness :
  exists st1,
    AIScreenReader.step Sample.no_model (AIScreenReader.LoopStep 0)
      (AIScreenReader.Mk true (Some 0%nat)
         [AIScreenReader.MkThread Sample.two_seconds AIScreenReader.InCycle]
         AIScreenReader.Ready,
       empty_state)
    = Some (AIScreenReader.Mk true (Some 0%nat)
              [AIScreenReader.MkThread Sample.two_seconds AIScreenReader.AtCheck]
              AIScreenReader.Ready,
            after st1 [Call (time_sleep Sample.two_seconds)]).
Proof.
  exact (monitoring_loop_survives_failures Sample.no_model
           (AIScreenReader.Mk true (Some 0%nat)
              [AIScreenReader.MkThread Sample.two_seconds AIScreenReader.InCycle]
              AIScreenReader.Ready)
           empty_state 0
           (AIScreenReader.MkThread Sample.two_seconds AIScreenReader.InCycle)
           (fun _ => eq_refl) eq_refl eq_refl).
Defined.

(** X16.  An interval that [time.sleep] rejects (a negative number, a
    string, ...) is not checked by [start_monitoring]: the thread is started,
    and its first turn of the loop ends it, because the sleep in the handler
    raises again.  The object is then left with [is_running] set and no loop
    running. *)
Theorem rejected_interval_ends_loop
    (E : Env) (m : AIScreenReader.t) (st : PyState) (interval : pyval) (e : exn) :
  AIScreenReader.caller m = AIScreenReader.Ready ->
  (forall h, env_sleep E interval h = inl e) ->
  let tid := length (AIScreenReader.threads m) in
  exists m' st',
    AIScreenReader.run E
      [ AIScreenReader.StartMonitoring interval;
        AIScreenReader.LoopStep tid; AIScreenReader.LoopStep tid ] (m, st)
    = Some (m', st')
    /\ AIScreenReader.is_running m' = true
    /\ AIScreenReader.capture_thread m' = Some tid
    /\ AIScreenReader.pc_of m' tid = Some AIScreenReader.Exited
    /\ AIScreenReader.live_loops m' = AIScreenReader.live_loops m.
Proof.
  intros Hc Hsleep tid.
  set (m1 := AIScreenReader.Mk true (Some tid)
               (AIScreenReader.threads m
                ++ [AIScreenReader.MkThread interval AIScreenReader.AtCheck])
               (AIScreenReader.caller m)).
  set (st1 := after st [Log INFO "Screen monitoring started"]).
  assert (Hstart : AIScreenReader.step E (AIScreenReader.StartMonitoring interval) (m, st)
                   = Some (m1, st1)).
  { unfold AIScreenReader.step. now rewrite Hc. }
  assert (Hth1 : AIScreenReader.threads m1 !! tid
                 = Some (AIScreenReader.MkThread interval AIScreenReader.AtCheck)).
  { subst m1 tid. cbn [AIScreenReader.threads].
    rewrite lookup_app_r by lia. now rewrite Nat.sub_diag. }
  set (m2 := AIScreenReader.set_pc tid AIScreenReader.InCycle m1).
  assert (Hcheck : AIScreenReader.step E (AIScreenReader.LoopStep tid) (m1, st1)
                   = Some (m2, st1)).
  { rewrite step_loop_step. unfold AIScreenReader.loop_step. now rewrite Hth1. }
  assert (Hth2 : AIScreenReader.threads m2 !! tid
                 = Some (AIScreenReader.MkThread interval AIScreenReader.InCycle)).
  { subst m2. unfold AIScreenReader.set_pc. cbn [AIScreenReader.threads].
    now rewrite list_lookup_alter_eq, Hth1. }
  destruct (monitoring_cycle_ends_with_sleep E interval st1) as [st2 Hcycle].
  set (m3 := AIScreenReader.set_pc tid AIScreenReader.Exited m2).
  assert (Hbody : AIScreenReader.step E (AIScreenReader.LoopStep tid) (m2, st1)
                  = Some (m3, after st2 [Call (time_sleep interval)])).
  { rewrite step_loop_step. unfold AIScreenReader.loop_step.
    rewrite Hth2. cbn [AIScreenReader.th_pc AIScreenReader.th_interval].
    rewrite Hcycle. unfold AIScreenReader.sleep, ask. now rewrite Hsleep. }
  exists m3, (after st2 [Call (time_sleep interval)]).
  split; [cbn [AIScreenReader.run]; now rewrite Hstart, Hcheck, Hbody|].
  split; [reflexivity|]. split; [reflexivity|].
  split; [subst m3; eapply pc_of_set_pc_eq; exact Hth2|].
  subst m3 m2 m1. unfold AIScreenReader.live_loops, AIScreenReader.set_pc.
  cbn [AIScreenReader.threads].
  rewrite list_alter_alter_eq.
  replace tid with (length (AIScreenReader.threads m) + 0)%nat by (subst tid; lia).
  rewrite alter_app_r, List.filter_app, length_app. cbn. lia.
Qed.

Lemma rejected_interval_ends_loop_witness :
  exists m' st',
    AIScreenReader.run Sample2.real_sleep
      [ AIScreenReader.StartMonitoring (PyInt (-1));
        AIScreenReader.LoopStep 0; AIScreenReader.LoopStep 0 ]
      (AIScreenReader.init, empty_state)
    = Some (m', st')
    /\ AIScreenReader.is_running m' = true
    /\ AIScreenReader.pc_of m' 0 = Some AIScreenReader.Exited.
Proof.
  destruct (rejected_interval_ends_loop Sample2.real_sleep AIScreenReader.init
              empty_state (PyInt (-1))
              (Exn ValueError "sleep length must be non-negative")
              eq_refl (fun _ => eq_refl))
    as (m' & st' & Hrun & Hflag & _ & Hpc & _).
  exists m', st'. split; [exact Hrun|]. split; [exact Hflag | exact Hpc].
Defined.

(** X17.  When the capture fails, a turn of the monitoring loop only sleeps:
    it ends in the state the capture left plus the sleep call, and the
    calls of the turn are those of the frame source, none of the
    preprocessor, of the text detector or of the model. *)
Theorem monitoring_cycle_capture_failure
    (E : Env) (interval : pyval) (st st1 : PyState) :
  ScreenCapture.capture_screen E ScreenCapture.init FULL_SCREEN st = (inr None, st1) ->
  env_sleep E interval (events st1) = inr tt ->
  AIScreenReader.monitoring_cycle E interval st
  = (inr tt, after st1 [Call (time_sleep interval)])
  /\ exists new,
       st1 = after st new
       /\ forall c, In (Call c) new -> stage_of c = FrameSource.
Proof.
  intros Hcap Hsleep. split.
  - unfold AIScreenReader.monitoring_cycle, try_except, bind.
    rewrite Hcap. unfold AIScreenReader.sleep, ask. now rewrite Hsleep.
  - destruct (capture_screen_none E st st1 Hcap) as (new & -> & Hcalls & _).
    now exists new.
Qed.

Lemma monitoring_cycle_capture_failure_witness :
  AIScreenReader.monitoring_cycle Sample.no_screen Sample.two_seconds empty_state
  = (inr tt,
     MkPyState [ Call (ImageGrab_grab None);
                 Log ERROR "Screen capture failed: screen grab failed";
                 Call (time_sleep Sample.two_seconds) ] None).
Proof.
  exact (proj1 (monitoring_cycle_capture_failure Sample.no_screen Sample.two_seconds
                  empty_state _ eq_refl eq_refl)).
Defined.

(** ** More on the request handlers *)

Ltac wf_200 :=
  cbn; split; [auto|]; split; [reflexivity|];
  let H := fresh in intros H; now contradiction H.

Ltac wf_error :=
  cbn; split; [auto|]; split; [reflexivity|]; intros _; eauto.

Lemma error_500_well_formed (e : exn) : well_formed_reply (App.error_500 e).
Proof. cbn. repeat split; eauto. Qed.

Lemma not_initialized_well_formed : well_formed_reply App.not_initialized.
Proof. cbn. repeat split; eauto. Qed.

(** A handler whose body yields well-formed replies, and whose [except]
    clause logs and answers 500, yields well-formed replies. *)
Lemma handler_well_formed {A} (app : App.t) (body : M A)
    (finish : A -> App.reply * option AIScreenReader.t) (what : string) :
  (forall a st, body (App.py app) = (inr a, st) -> well_formed_reply (fst (finish a))) ->
  well_formed_reply
    (fst (App.handler app body finish
            (fun e => exec log ERROR (what ++ exn_msg e); ret (App.error_500 e)))).
Proof.
  intros Hfinish. unfold App.handler.
  destruct (body (App.py app)) as [[e|a] st] eqn:Hbody.
  - unfold bind, log, emit, ret. cbn. repeat split; eauto.
  - specialize (Hfinish a st eq_refl). now destruct (finish a).
Qed.

(** X18.  [/api/initialize] answers 200 exactly when the request body is an
    object whose [api_key] counts as true and the Gemini client accepts it.
    Then the module's reader is a new object: flag down, no thread handle,
    no [last_analysis], whatever the previous object was doing.  In every
    other case the answer is 400 or 500 with an error body and the reader
    is left as it was. *)
Theorem initialize_screen_reader_outcome
    (E : Env) (req : App.request) (app app' : App.t) (r : App.reply) :
  App.initialize_screen_reader E req app = (r, app') ->
  (App.status_of r = Some 200%nat
   <-> exists d k,
         App.get_json req = inr (PyDict d)
         /\ Py.dict_lookup "api_key" d = Some k
         /\ Py.truthy k = true
         /\ env_genai_configure E k = inr tt)
  /\ (App.status_of r = Some 200%nat ->
      App.screen_reader app' = Some AIScreenReader.init
      /\ App.py app' = MkPyState (events (App.py app)) None)
  /\ (App.status_of r <> Some 200%nat ->
      App.screen_reader app' = App.screen_reader app
      /\ last_analysis (App.py app') = last_analysis (App.py app)
      /\ (App.status_of r = Some 400%nat \/ App.status_of r = Some 500%nat)
      /\ exists msg, App.body_of r = Some (PyDict [("error", PyStr msg)])).
Proof.
  unfold App.initialize_screen_reader, App.handler, bind, lift, ret, raise,
    clear_last_analysis, log, emit, Py.get.
  destruct (App.get_json req) as [e|data].
  { intros [= <- <-]. cbn. split; [split; [discriminate | now intros (d & k & [=] & _)]|].
    split; [discriminate|]. intros _. repeat split; eauto. }
  destruct data as [ |b|z|f|s|l|l|d];
    try (intros [= <- <-]; cbn;
         split; [split; [discriminate | now intros (d' & k & [=] & _)]|];
         split; [discriminate|]; intros _; repeat split; eauto).
  destruct (Py.dict_lookup "api_key" d) as [k|] eqn:Hk.
  2: { cbn. intros [= <- <-]. cbn.
       split; [split; [discriminate | now intros (d' & k & [= <-] & Hk' & _); congruence]|].
       split; [discriminate|]. intros _. repeat split; eauto. }
  destruct (Py.truthy k) eqn:Ht; cbn [negb].
  2: { intros [= <- <-]. cbn.
       split; [split; [discriminate|]|].
       - intros (d' & k' & [= <-] & Hk' & Ht' & _). congruence.
       - split; [discriminate|]. intros _. repeat split; eauto. }
  destruct (env_genai_configure E k) as [e|[]] eqn:Hconf.
  - intros [= <- <-]. cbn.
    split; [split; [discriminate|]|].
    + intros (d' & k' & [= <-] & Hk' & _ & Hc). congruence.
    + split; [discriminate|]. intros _. repeat split; eauto.
  - intros [= <- <-]. cbn.
    split; [split; [intros _; exists d, k; auto | reflexivity]|].
    split; [intros _; split; reflexivity|]. intros H. now contradiction H.
Qed.

Lemma initialize_screen_reader_outcome_witness :
  exists r app',
    App.initialize_screen_reader Sample.working
      (App.MkRequest (inr (PyDict [("api_key", PyStr "AIzaKey")])))
      (App.Mk (Some (AIScreenReader.Mk true (Some 0%nat)
                       [AIScreenReader.MkThread Sample.two_seconds AIScreenReader.InCycle]
                       AIScreenReader.Ready))
         (with_last_analysis Sample.actions_value))
    = (r, app')
    /\ App.screen_reader app' = Some AIScreenReader.init
    /\ App.py app' = MkPyState [] None.
Proof.
  destruct (App.initialize_screen_reader Sample.working _ _) as [r app'] eqn:Hinit.
  exists r, app'. split; [reflexivity|].
  apply (proj1 (proj2 (initialize_screen_reader_outcome Sample.working _ _ _ _ Hinit))).
  vm_compute in Hinit. injection Hinit as <- _. reflexivity.
Defined.

Lemma analysis_result_has_no_error
    (ts : pyfloat) (els : list pyval) (cmds : list ActionCommand)
    (interp detailed : pyval) (b64 : string) :
  App.contains (analysis_result ts els cmds interp detailed b64) "error" = inr false.
Proof. reflexivity. Qed.

(** X19.  Every reply of the JSON routes is well formed, for every request
    and in every state: the body is a JSON object, the status is 200, 400 or
    500, and with 400 or 500 the body is [{"error": message}]; no exception
    leaves a handler.  (The one handler that can wait,
    [/api/monitor/stop] at its [join], replies in the same way once the
    [join] is over.) *)
Theorem replies_are_well_formed
    (E : Env) (rt : App.route) (req : App.request) (app : App.t) :
  well_formed_reply (fst (App.handle E rt req app))
  /\ forall r app', App.stop_monitoring_return app = Some (r, app') ->
                    well_formed_reply r.
Proof.
  split.
  - destruct rt as [| |ep|]; cbn [App.handle].
    + wf_200.
    + unfold App.initialize_screen_reader. apply handler_well_formed.
      intros [reader|] st _; [wf_200 | wf_error].
    + destruct ep; cbn [App.serve].
      * unfold App.analyze_screen_detailed.
        destruct (App.screen_reader app) as [reader|];
          [|apply not_initialized_well_formed].
        apply handler_well_formed. intros a st. unfold bind.
        destruct (analyze_current_screen_inv E (App.py app))
          as [(msg & st' & ->) |
              (shot & st1 & img & st2 & els & st3 & b64 & cmds & st5 & interp & st6
               & _ & _ & _ & _ & _ & _ & _ & ->)].
        -- cbn. intros [= <- _]. wf_error.
        -- unfold lift at 1. rewrite analysis_result_has_no_error.
           unfold ret at 1. cbn iota.
           destruct (PyInt.int _) as [e|stamp]; cbn; [discriminate|].
           intros [= <- _]. wf_200.
      * unfold App.explain_screen.
        destruct (App.screen_reader app) as [reader|];
          [|apply not_initialized_well_formed].
        apply handler_well_formed. intros a st. unfold bind, lift.
        destruct (App.get_json req) as [e|data]; [discriminate|]. cbn iota.
        unfold ret at 1.
        destruct (Py.get data "user_intent" _) as [e|intent]; [discriminate|].
        unfold ret at 1.
        destruct (ScreenCapture.capture_screen E _ _ _) as [[e|[shot|]] st1];
          [discriminate | |].
        2: { intros [= <- _]. wf_error. }
        unfold ask at 1.
        destruct (env_imencode_b64 E shot _) as [e|b64]; [discriminate|].
        destruct (LLMInterface.interpret_screen_context E b64 intent _)
          as [[e|explanation] st2]; [discriminate|].
        intros [= <- _]. wf_200.
      * unfold App.start_monitoring.
        destruct (App.screen_reader app) as [reader|];
          [|apply not_initialized_well_formed].
        apply handler_well_formed. intros [interval reader'] st _. wf_200.
      * unfold App.stop_monitoring.
        destruct (App.screen_reader app) as [reader|];
          [exact I | apply not_initialized_well_formed].
    + wf_200.
  - intros r app'. unfold App.stop_monitoring_return.
    destruct (App.screen_reader app) as [reader|]; [|discriminate].
    destruct (AIScreenReader.caller reader) as [|joined]; [discriminate|].
    destruct (AIScreenReader.joinable reader joined); [|discriminate].
    intros [= <- _]. wf_200.
Qed.

(** X20.  With a reader in place, [/api/analyze/detailed] answers in one of
    two ways and keeps the reader.  Either the status is 500 and the body is
    [{"error": message}] (the failure dict of the analysis passed on as it
    is, or the message of an exception, a timestamp that [int] rejects among
    them); or the status is 200 and the body is the analysis with one more
    key after its seven, [analysis_id], whose value is [analysis_] followed
    by the whole seconds of the current time. *)
Theorem analyze_screen_detailed_outcome
    (E : Env) (app app' : App.t) (reader : AIScreenReader.t) (r : App.reply) :
  App.screen_reader app = Some reader ->
  App.analyze_screen_detailed E app = (r, app') ->
  App.screen_reader app' = Some reader
  /\ ((exists msg, r = App.Reply (error_result msg) 500)
      \/ exists ts els cmds interp detailed b64 stamp fields,
           analysis_result ts els cmds interp detailed b64 = PyDict fields
           /\ PyInt.int (PyFloat (env_utcnow_timestamp E)) = inr stamp
           /\ r = App.Reply
                    (PyDict (fields ++ [("analysis_id",
                                         PyStr ("analysis_" ++ PyStr.of_Z stamp))]))
                    200).
Proof.
  intros Hreader. unfold App.analyze_screen_detailed. rewrite Hreader.
  unfold App.handler, bind.
  destruct (analyze_current_screen_inv E (App.py app))
    as [(msg & st' & ->) |
        (shot & st1 & img & st2 & els & st3 & b64 & cmds & st5 & interp & st6
         & _ & _ & _ & _ & _ & _ & _ & ->)].
  - cbn. intros [= <- <-]. split; [reflexivity|]. left. eauto.
  - unfold lift at 1. rewrite analysis_result_has_no_error. unfold ret at 1.
    cbn iota.
    destruct (PyInt.int (PyFloat (env_utcnow_timestamp E))) as [e|stamp] eqn:Hstamp.
    + cbn. intros [= <- <-]. split; [exact Hreader|]. left. eauto.
    + cbn. intros [= <- <-]. split; [reflexivity|]. right.
      do 8 eexists. split; [reflexivity|]. split; reflexivity.
Qed.

Lemma analyze_screen_detailed_outcome_witness :
  exists r app',
    App.analyze_screen_detailed Sample.working
      (App.Mk (Some AIScreenReader.init) empty_state)
    = (r, app')
    /\ App.status_of r = Some 200%nat
    /\ App.screen_reader app' = Some AIScreenReader.init.
Proof.
  destruct (App.analyze_screen_detailed Sample.working _) as [r app'] eqn:Hrun.
  exists r, app'. split; [reflexivity|].
  split;
    [|exact (proj1 (analyze_screen_detailed_outcome Sample.working
                      (App.Mk (Some AIScreenReader.init) empty_state) app'
                      AIScreenReader.init r eq_refl Hrun))].
  vm_compute in Hrun. injection Hrun as <- _. reflexivity.
Defined.



(** ** [OCRProcessor]: what one bad row does *)

(** A row that raises whatever has been collected makes the loop raise. *)
Lemma rows_raise (data : ocr_data) (i : nat) (range : list nat) (acc : list pyval) :
  (forall acc', exists e, OCRProcessor.row data i acc' = inl e) ->
  In i range ->
  exists e, OCRProcessor.rows data range acc = inl e.
Proof.
  intros Hrow. revert acc.
  induction range as [|j range IH]; intros acc Hin; [destruct Hin|].
  cbn [OCRProcessor.rows].
  destruct (OCRProcessor.row data j acc) as [e|acc'] eqn:Hj; [eauto|].
  destruct Hin as [->|Hin]; [|now apply IH].
  destruct (Hrow acc) as [e He]. congruence.
Qed.

(** X22.  One confidence the loop cannot read discards every fragment.
    When some row of the table Tesseract returns has no confidence entry
    (the column is shorter than the text column) or one [int] rejects,
    [extract_text_with_boxes] returns the empty list and logs one warning:
    the fragments collected from the rows before it are lost with it. *)
Theorem extract_text_with_boxes_bad_confidence
    (E : Env) (image : ndarray) (st : PyState) (data : ocr_data) (i : nat) :
  env_image_to_data E image (events st) = inr data ->
  (i < length (ocr_text data))%nat ->
  (forall c, ocr_conf data !! i = Some c -> exists e, PyInt.int c = inl e) ->
  exists msg,
    OCRProcessor.extract_text_with_boxes E image st
    = (inr [],
       after st [Call pytesseract_image_to_data;
                 Log WARNING ("OCR processing failed (Tesseract not available): "
                              ++ msg)]).
Proof.
  intros Hdata Hi Hconf. rewrite extract_text_with_boxes_cases, Hdata.
  destruct (rows_raise data i (seq 0 (length (ocr_text data))) []) as [e ->].
  - intros acc. unfold OCRProcessor.row, OCRProcessor.at_index.
    destruct (ocr_text data !! i) as [raw|]; [|eauto].
    destruct (ocr_conf data !! i) as [c|]; [|eauto].
    destruct (Hconf c eq_refl) as [e ->]. eauto.
  - apply in_seq. lia.
  - eauto.
Qed.

Lemma extract_text_with_boxes_bad_confidence_witness :
  exists msg,
    OCRProcessor.extract_text_with_boxes
      (Sample.env (inr Sample.frame)
         (inr (MkOcrData ["Save"; "Cancel"] [PyInt 96; PyStr "n/a"]
                 [10; 100] [20; 20] [40; 61] [16; 16]))
         Sample.good_model)
      Sample.frame empty_state
    = (inr [],
       after empty_state
         [Call pytesseract_image_to_data;
          Log WARNING ("OCR processing failed (Tesseract not available): " ++ msg)]).
Proof.
  apply (extract_text_with_boxes_bad_confidence
           (Sample.env (inr Sample.frame)
              (inr (MkOcrData ["Save"; "Cancel"] [PyInt 96; PyStr "n/a"]
                      [10; 100] [20; 20] [40; 61] [16; 16]))
              Sample.good_model)
           Sample.frame empty_state
           (MkOcrData ["Save"; "Cancel"] [PyInt 96; PyStr "n/a"]
              [10; 100] [20; 20] [40; 61] [16; 16])
           1%nat).
  - reflexivity.
  - cbn. lia.
  - intros c [= <-]. eexists. reflexivity.
Defined.

(** X23.  [extract_text_simple] raises nothing and returns stripped text:
    the result has no whitespace at either end.  It is the engine's text
    stripped, with nothing logged, or, when the engine raises, the empty
    string with one warning. *)
Theorem extract_text_simple_outcome
    (image_to_string : ndarray -> list event -> exn + string)
    (image : ndarray) (st : PyState) :
  exists text st',
    OCRText.extract_text_simple image_to_string image st = (inr text, st')
    /\ PyStr.strip text = text
    /\ ((exists raw, image_to_string image (events st) = inr raw
                     /\ text = PyStr.strip raw /\ st' = st)
        \/ (exists e, image_to_string image (events st) = inl e
                      /\ text = EmptyString
                      /\ st' = after st
                                 [Log WARNING
                                    ("Simple OCR failed (Tesseract not available): "
                                     ++ exn_msg e)])).
Proof.
  unfold OCRText.extract_text_simple, try_except, bind, log, emit, ret, after.
  destruct (image_to_string image (events st)) as [e|raw].
  - do 2 eexists. split; [reflexivity|]. split; [reflexivity|]. right. eauto.
  - do 2 eexists. split; [reflexivity|]. split; [apply strip_idem|]. left. eauto.
Qed.

(** ** [ScreenCapture.capture_screen]: the regions *)

(** X24.  Only a custom region with a box set narrows the capture.  For
    the region [WINDOW], and for [CUSTOM] while [custom_region] is not set,
    [capture_screen] does what it does for the full screen, the grab being
    called without a box; the attribute [capture_region] is never read. *)
Theorem capture_screen_defaults_to_full_screen
    (E : Env) (self : ScreenCapture.t) (region : ScreenRegion) (st : PyState) :
  (region = CUSTOM -> ScreenCapture.custom_region self = None) ->
  ScreenCapture.capture_screen E self region st
  = ScreenCapture.capture_screen E ScreenCapture.init FULL_SCREEN st.
Proof.
  intros Hbox. unfold ScreenCapture.capture_screen.
  destruct region; [reflexivity | reflexivity |].
  now rewrite (Hbox eq_refl).
Qed.

Lemma capture_screen_defaults_to_full_screen_witness :
  ScreenCapture.capture_screen Sample.working
    (ScreenCapture.Mk CUSTOM (Some (0, 0, 640, 480))) WINDOW empty_state
  = ScreenCapture.capture_screen Sample.working ScreenCapture.init FULL_SCREEN
      empty_state.
Proof.
  apply (capture_screen_defaults_to_full_screen Sample.working
           (ScreenCapture.Mk CUSTOM (Some (0, 0, 640, 480))) WINDOW empty_state).
  discriminate.
Defined.
